(** * slang: classification of forEach kernels (slang_rs_export_foreach.cpp)

    A shallow embedding of [RSExportForEach::validateAndConstructParams],
    [RSExportForEach::Create], [RSExportForEach::CreateDummyRoot] and
    [RSExportForEach::isGraphicsRootRSFunc], and the properties of the
    signature classification that follow from the code. *)

From Stdlib Require Import ZArith List String Bool Lia.
Import ListNotations.

Set Implicit Arguments.

Local Open Scope string_scope.
Local Open Scope list_scope.
Local Open Scope Z_scope.

(** ** The part of the clang AST that the pass looks at *)

Module clang.

Inductive BuiltinKind : Set :=
| Void | Bool | Char | UChar | Short | UShort | Int | UInt
| Long | ULong | LongLong | ULongLong | Half | Float | Double.

Record Qualifiers : Set := mkQualifiers {
  hasConst : bool;
  hasVolatile : bool;
  hasRestrict : bool
}.

Definition noQualifiers : Qualifiers := mkQualifiers false false false.

(** Types are kept canonical: there is no sugar (typedef, paren, ...) in
    the model, so that [getCanonicalType] is the identity. *)
Inductive QualType : Set :=
| mkQualType (quals : Qualifiers) (ty : Type_)
with Type_ : Set :=
| BuiltinType (kind : BuiltinKind)
| PointerType (pointee : QualType)
| RecordType (decl : RecordDecl)
with RecordDecl : Set :=
| mkRecordDecl (tag : string) (fields : list FieldDecl)
with FieldDecl : Set :=
| mkFieldDecl (ident : string) (fieldType : QualType).

Definition BuiltinKind_eqb (a b : BuiltinKind) : bool :=
  match a, b with
  | Void, Void | Bool, Bool | Char, Char | UChar, UChar
  | Short, Short | UShort, UShort | Int, Int | UInt, UInt
  | Long, Long | ULong, ULong | LongLong, LongLong
  | ULongLong, ULongLong | Half, Half | Float, Float
  | Double, Double => true
  | _, _ => false
  end.

Definition Qualifiers_eqb (a b : Qualifiers) : bool :=
  Bool.eqb (hasConst a) (hasConst b)
  && Bool.eqb (hasVolatile a) (hasVolatile b)
  && Bool.eqb (hasRestrict a) (hasRestrict b).

(** [operator==] on canonical [QualType]s. *)
Fixpoint QualType_eqb (a b : QualType) {struct a} : bool :=
  match a, b with
  | mkQualType qa ta, mkQualType qb tb =>
      Qualifiers_eqb qa qb && Type_eqb ta tb
  end
with Type_eqb (a b : Type_) {struct a} : bool :=
  match a, b with
  | BuiltinType k, BuiltinType k' => BuiltinKind_eqb k k'
  | PointerType p, PointerType p' => QualType_eqb p p'
  | RecordType d, RecordType d' => RecordDecl_eqb d d'
  | _, _ => false
  end
with RecordDecl_eqb (a b : RecordDecl) {struct a} : bool :=
  match a, b with
  | mkRecordDecl n fs, mkRecordDecl n' fs' =>
      String.eqb n n'
      && (fix fields_eqb (l l' : list FieldDecl) {struct l} : bool :=
            match l, l' with
            | [], [] => true
            | f :: r, f' :: r' => FieldDecl_eqb f f' && fields_eqb r r'
            | _, _ => false
            end) fs fs'
  end
with FieldDecl_eqb (a b : FieldDecl) {struct a} : bool :=
  match a, b with
  | mkFieldDecl n t, mkFieldDecl n' t' => String.eqb n n' && QualType_eqb t t'
  end.

Definition getCanonicalType (T : QualType) : QualType := T.

Definition getTypePtr (T : QualType) : Type_ :=
  match T with mkQualType _ ty => ty end.

Definition getLocalQualifiers (T : QualType) : Qualifiers :=
  match T with mkQualType q _ => q end.

Definition isConstQualified (T : QualType) : bool :=
  hasConst (getLocalQualifiers T).

Definition getUnqualifiedType (T : QualType) : QualType :=
  mkQualType noQualifiers (getTypePtr T).

Definition isPointerType (T : QualType) : bool :=
  match getTypePtr T with
  | PointerType _ => true
  | _ => false
  end.

(** [Type::getPointeeType] gives the null type on a type that is no
    pointer; the pass only calls it behind [isPointerType]. *)
Definition getPointeeType (T : QualType) : option QualType :=
  match getTypePtr T with
  | PointerType p => Some p
  | _ => None
  end.

(** The types of [ASTContext] the pass compares with. *)
Definition VoidTy : QualType := mkQualType noQualifiers (BuiltinType Void).
Definition IntTy : QualType := mkQualType noQualifiers (BuiltinType Int).
Definition UnsignedIntTy : QualType :=
  mkQualType noQualifiers (BuiltinType UInt).

Definition SourceLocation : Set := Z.

Record ParmVarDecl : Set := mkParmVarDecl {
  pvdLocation : SourceLocation;
  pvdName : string;
  pvdType : QualType
}.

Record FunctionDecl : Set := mkFunctionDecl {
  fdLocation : SourceLocation;
  fdName : string;
  fdResultType : QualType;
  fdParams : list ParmVarDecl
}.

Definition getNumParams (FD : FunctionDecl) : nat :=
  List.length (fdParams FD).

(** What [operator<<] feeds into a diagnostic. *)
Inductive DiagArg : Set :=
| ArgString (s : string)
| ArgInt (n : Z)
| ArgType (T : QualType).

(** A report at level [DiagnosticsEngine::Error]. *)
Record Diagnostic : Set := mkError {
  diagLocation : SourceLocation;
  diagFormat : string;
  diagArgs : list DiagArg
}.

End clang.

Import clang.

(** ** Effects: the diagnostics engine, stderr and failed assertions *)

Inductive Event : Set :=
| Reported (d : Diagnostic)
| Stderr (line : string).

Definition Trace : Set := list Event.

(** A call either runs into a failed assertion (the process aborts), or
    returns; both carry what has been emitted up to that point, oldest
    first. *)
Inductive Outcome (A : Type) : Type :=
| Aborted (assertion : string) (out : Trace)
| Returned (a : A) (out : Trace).

Arguments Aborted {A} assertion out.
Arguments Returned {A} a out.

Definition Exec (A : Type) : Type := Trace -> Outcome A.

Definition ret {A} (a : A) : Exec A := fun out => Returned a out.

Definition bind {A B} (m : Exec A) (k : A -> Exec B) : Exec B :=
  fun out =>
    match m out with
    | Aborted msg out' => Aborted msg out'
    | Returned a out' => k a out'
    end.

Declare Scope exec_scope.
Delimit Scope exec_scope with exec.
Notation "x <- m ;; k" := (bind m (fun x => k))
  (at level 61, m at next level, right associativity) : exec_scope.
Notation "' p <- m ;; k" := (bind m (fun x => let p := x in k))
  (at level 61, p pattern, m at next level, right associativity) : exec_scope.
Notation "m ;; k" := (bind m (fun _ => k))
  (at level 61, right associativity) : exec_scope.
Local Open Scope exec_scope.

Definition emit (e : Event) : Exec unit :=
  fun out => Returned tt (out ++ [e]).

Definition Report (loc : SourceLocation) (fmt : string) (args : list DiagArg)
  : Exec unit :=
  emit (Reported (mkError loc fmt args)).

Definition fprintf_stderr (line : string) : Exec unit := emit (Stderr line).

Definition slangAssert (cond : bool) (text : string) : Exec unit :=
  fun out => if cond then Returned tt out else Aborted text out.

(** [FunctionDecl::getParamDecl] asserts that the index is in range. *)
Definition getParamDecl (FD : FunctionDecl) (i : nat) : Exec ParmVarDecl :=
  match nth_error (fdParams FD) i with
  | Some PVD => ret PVD
  | None => fun out => Aborted "i < getNumParams()" out
  end.

Definition isSome {A} (p : option A) : bool :=
  match p with Some _ => true | None => false end.

(** ** The pass *)

(** [RSExportType::ExportClass] (slang_rs_export_type.h). *)
Inductive ExportClass : Set :=
| ExportClassPrimitive
| ExportClassPointer
| ExportClassVector
| ExportClassMatrix
| ExportClassConstantArray
| ExportClassRecord.

Definition isExportClassRecord (c : ExportClass) : bool :=
  match c with ExportClassRecord => true | _ => false end.

Record RSContext : Set := mkRSContext {
  getTargetAPI : Z
}.

Section Slang.

(** slang_version.h is not among the sources: the API levels are taken as
    parameters, and so are the two macros of slang_rs_export_type.h that
    [Create] splices into the name of the parameter packet. *)
Variable SLANG_MINIMUM_TARGET_API : Z.
Variable SLANG_ICS_TARGET_API : Z.
Variable SLANG_JB_TARGET_API : Z.
Variable DUMMY_RS_TYPE_NAME_PREFIX : string.
Variable DUMMY_RS_TYPE_NAME_POSTFIX : string.

(** [isRootRSFunc] is an inline function of the header: a test on the
    name of the function against the reserved root name. *)
Variable isRootRSFunc : FunctionDecl -> bool.

(** The type exporter, [RSExportType::Create], lives in another file. It
    may report, may fail (NULL) and may abort. *)
Variable RSExportType : Type.
Variable getClass : RSExportType -> ExportClass.
Variable RSExportType_Create : RSContext -> Type_ -> Exec (option RSExportType).

(** The data members of [RSExportForEach]. A slot holds the parameter
    declaration it points to, NULL is [None]. *)
Record RSExportForEach : Type := mkRSExportForEach {
  mName : string;
  mParamPacketType : option RSExportType;
  mInType : option RSExportType;
  mOutType : option RSExportType;
  numParams : nat;
  mSignatureMetadata : Z;
  mIn : option ParmVarDecl;
  mOut : option ParmVarDecl;
  mUsrData : option ParmVarDecl;
  mX : option ParmVarDecl;
  mY : option ParmVarDecl;
  mDummyRoot : bool
}.

Definition set_mParamPacketType (this : RSExportForEach) v :=
  mkRSExportForEach (mName this) v (mInType this) (mOutType this)
    (numParams this) (mSignatureMetadata this) (mIn this) (mOut this)
    (mUsrData this) (mX this) (mY this) (mDummyRoot this).

Definition set_mInType (this : RSExportForEach) v :=
  mkRSExportForEach (mName this) (mParamPacketType this) v (mOutType this)
    (numParams this) (mSignatureMetadata this) (mIn this) (mOut this)
    (mUsrData this) (mX this) (mY this) (mDummyRoot this).

Definition set_mOutType (this : RSExportForEach) v :=
  mkRSExportForEach (mName this) (mParamPacketType this) (mInType this) v
    (numParams this) (mSignatureMetadata this) (mIn this) (mOut this)
    (mUsrData this) (mX this) (mY this) (mDummyRoot this).

Definition set_numParams (this : RSExportForEach) v :=
  mkRSExportForEach (mName this) (mParamPacketType this) (mInType this)
    (mOutType this) v (mSignatureMetadata this) (mIn this) (mOut this)
    (mUsrData this) (mX this) (mY this) (mDummyRoot this).

Definition set_mSignatureMetadata (this : RSExportForEach) v :=
  mkRSExportForEach (mName this) (mParamPacketType this) (mInType this)
    (mOutType this) (numParams this) v (mIn this) (mOut this)
    (mUsrData this) (mX this) (mY this) (mDummyRoot this).

Definition set_mIn (this : RSExportForEach) v :=
  mkRSExportForEach (mName this) (mParamPacketType this) (mInType this)
    (mOutType this) (numParams this) (mSignatureMetadata this) v (mOut this)
    (mUsrData this) (mX this) (mY this) (mDummyRoot this).

Definition set_mOut (this : RSExportForEach) v :=
  mkRSExportForEach (mName this) (mParamPacketType this) (mInType this)
    (mOutType this) (numParams this) (mSignatureMetadata this) (mIn this) v
    (mUsrData this) (mX this) (mY this) (mDummyRoot this).

Definition set_mUsrData (this : RSExportForEach) v :=
  mkRSExportForEach (mName this) (mParamPacketType this) (mInType this)
    (mOutType this) (numParams this) (mSignatureMetadata this) (mIn this)
    (mOut this) v (mX this) (mY this) (mDummyRoot this).

Definition set_mX (this : RSExportForEach) v :=
  mkRSExportForEach (mName this) (mParamPacketType this) (mInType this)
    (mOutType this) (numParams this) (mSignatureMetadata this) (mIn this)
    (mOut this) (mUsrData this) v (mY this) (mDummyRoot this).

Definition set_mY (this : RSExportForEach) v :=
  mkRSExportForEach (mName this) (mParamPacketType this) (mInType this)
    (mOutType this) (numParams this) (mSignatureMetadata this) (mIn this)
    (mOut this) (mUsrData this) (mX this) v (mDummyRoot this).

Definition set_mDummyRoot (this : RSExportForEach) v :=
  mkRSExportForEach (mName this) (mParamPacketType this) (mInType this)
    (mOutType this) (numParams this) (mSignatureMetadata this) (mIn this)
    (mOut this) (mUsrData this) (mX this) (mY this) v.

(** Modelled from the spec: the constructor of [RSExportForEach] is
    defined in the header, which is not among the sources. A new
    descriptor has its name, no role slot, no exported type, no parameter
    and a zero [signatureMetadata], and is no placeholder. *)
Definition new_RSExportForEach (Context : RSContext) (Name : string)
  : RSExportForEach :=
  mkRSExportForEach Name None None None 0%nat 0 None None None None None false.

(** *** The messages *)

Definition msgDuplicate : string :=
  "Duplicate parameter entry (by position/name): '%0'".
Definition msgNonRoot : string :=
  "Non-root compute kernel %0() is not supported in SDK levels %1-%2".
Definition msgReturnVoid : string :=
  "Compute kernel %0() is required to return a void type".
Definition msgInOrOut : string :=
  "Compute kernel %0() must have at least one parameter for in or out".
Definition msgUnexpected : string :=
  "Unexpected kernel %0() parameter '%1' of type '%2'".
Definition msgMayNotSkip : string :=
  "Compute kernel %0() targeting SDK levels %1-%2 may not skip parameters".

(** [ReportNameError], lines 37-49. *)
Definition ReportNameError (PVD : ParmVarDecl) : Exec unit :=
  Report (pvdLocation PVD) msgDuplicate [ArgString (pvdName PVD)].

Definition ReportUnexpected (FD : FunctionDecl) (PVD : ParmVarDecl)
  : Exec unit :=
  Report (pvdLocation PVD) msgUnexpected
    [ArgString (fdName FD); ArgString (pvdName PVD); ArgType (pvdType PVD)].

(** *** validateAndConstructParams, block by block

    The locals [valid] and [i] and the object [this] are passed from block
    to block. *)

(** Lines 96 and 126: [QT->isPointerType() &&
    QT->getPointeeType().isConstQualified()]. *)
Definition isPointerToConst (QT : QualType) : bool :=
  isPointerType QT
  && match getPointeeType QT with
     | Some P => isConstQualified P
     | None => false
     end.

(** Line 106: [QT->isPointerType() &&
    !QT->getPointeeType().isConstQualified()]. *)
Definition isPointerToNonConst (QT : QualType) : bool :=
  isPointerType QT
  && match getPointeeType QT with
     | Some P => negb (isConstQualified P)
     | None => false
     end.

(** Lines 79-87: the return type. *)
Definition checkResultType (FD : FunctionDecl) (valid : bool) : Exec bool :=
  if negb (QualType_eqb (getCanonicalType (fdResultType FD)) VoidTy) then
    Report (fdLocation FD) msgReturnVoid [ArgString (fdName FD)] ;;
    ret false
  else ret valid.

(** Lines 92-100: [const T1 *in] at position 0, read without a test on
    the number of parameters. *)
Definition matchIn (FD : FunctionDecl) (this : RSExportForEach) (i : nat)
  : Exec (RSExportForEach * nat) :=
  PVD <- getParamDecl FD i ;;
  let QT := getCanonicalType (pvdType PVD) in
  if isPointerToConst QT then ret (set_mIn this (Some PVD), S i)
  else ret (this, i).

(** Lines 102-110: [T2 *out]. *)
Definition matchOut (FD : FunctionDecl) (this : RSExportForEach) (i : nat)
  : Exec (RSExportForEach * nat) :=
  if (i <? numParams this)%nat then
    PVD <- getParamDecl FD i ;;
    let QT := getCanonicalType (pvdType PVD) in
    if isPointerToNonConst QT then ret (set_mOut this (Some PVD), S i)
    else ret (this, i)
  else ret (this, i).

(** Lines 112-120: one of the two is needed. *)
Definition checkInOrOut (FD : FunctionDecl) (this : RSExportForEach)
  (valid : bool) : Exec bool :=
  if negb (isSome (mIn this)) && negb (isSome (mOut this)) then
    Report (fdLocation FD) msgInOrOut [ArgString (fdName FD)] ;;
    ret false
  else ret valid.

(** Lines 122-130: [const T3 *usrData]. *)
Definition matchUsrData (FD : FunctionDecl) (this : RSExportForEach) (i : nat)
  : Exec (RSExportForEach * nat) :=
  if (i <? numParams this)%nat then
    PVD <- getParamDecl FD i ;;
    let QT := getCanonicalType (pvdType PVD) in
    if isPointerToConst QT then ret (set_mUsrData this (Some PVD), S i)
    else ret (this, i)
  else ret (this, i).

(** Lines 133-181: the body of the loop over the remaining parameters, at
    the parameter [PVD]. *)
Definition scanParam (FD : FunctionDecl) (PVD : ParmVarDecl)
  (st : bool * RSExportForEach) : Exec (bool * RSExportForEach) :=
  let '(valid, this) := st in
  let QT := getCanonicalType (pvdType PVD) in
  if negb (QualType_eqb (getUnqualifiedType QT) UnsignedIntTy) then
    ReportUnexpected FD PVD ;;
    ret (false, this)
  else
    let ParamName := pvdName PVD in
    if String.eqb ParamName "x" then
      if isSome (mX this) then
        ReportNameError PVD ;;
        ret (false, this)
      else if isSome (mY this) then
        (* Can't go back to X after skipping Y *)
        ReportNameError PVD ;;
        ret (false, this)
      else ret (valid, set_mX this (Some PVD))
    else if String.eqb ParamName "y" then
      if isSome (mY this) then
        ReportNameError PVD ;;
        ret (false, this)
      else ret (valid, set_mY this (Some PVD))
    else
      if negb (isSome (mX this)) && negb (isSome (mY this)) then
        ret (valid, set_mX this (Some PVD))
      else if negb (isSome (mY this)) then
        ret (valid, set_mY this (Some PVD))
      else
        ReportUnexpected FD PVD ;;
        ret (false, this).

(** Lines 132-184: [while (i < numParams)], over the parameters from
    position [i] on, in order. *)
Fixpoint scanParams (FD : FunctionDecl) (rest : list ParmVarDecl)
  (st : bool * RSExportForEach) : Exec (bool * RSExportForEach) :=
  match rest with
  | [] => ret st
  | PVD :: rest' =>
      st' <- scanParam FD PVD st ;;
      scanParams FD rest' st'
  end.

(** Lines 186-194: the encoding for the runtime. *)
Definition setSignatureMetadata (valid : bool) (this : RSExportForEach)
  : RSExportForEach :=
  let this := set_mSignatureMetadata this 0 in
  if valid then
    let this := set_mSignatureMetadata this
      (Z.lor (mSignatureMetadata this) (if isSome (mIn this) then 0x01 else 0)) in
    let this := set_mSignatureMetadata this
      (Z.lor (mSignatureMetadata this) (if isSome (mOut this) then 0x02 else 0)) in
    let this := set_mSignatureMetadata this
      (Z.lor (mSignatureMetadata this)
             (if isSome (mUsrData this) then 0x04 else 0)) in
    let this := set_mSignatureMetadata this
      (Z.lor (mSignatureMetadata this) (if isSome (mX this) then 0x08 else 0)) in
    let this := set_mSignatureMetadata this
      (Z.lor (mSignatureMetadata this) (if isSome (mY this) then 0x10 else 0)) in
    this
  else this.

(** Line 199-203: the condition under which a target before ICS reports
    skipped parameters. *)
Definition skipsParameters (metadata : Z) : bool :=
  negb (metadata =? 0x1f) && negb (metadata =? 0x0f)
  && negb (metadata =? 0x07) && negb (metadata =? 0x03)
  && negb (metadata =? 0x01).

(** Lines 196-214. *)
Definition checkSkip (Context : RSContext) (FD : FunctionDecl)
  (this : RSExportForEach) (valid : bool) : Exec bool :=
  if getTargetAPI Context <? SLANG_ICS_TARGET_API then
    if skipsParameters (mSignatureMetadata this) then
      Report (fdLocation FD) msgMayNotSkip
        [ArgString (fdName FD); ArgInt SLANG_MINIMUM_TARGET_API;
         ArgInt (SLANG_ICS_TARGET_API - 1)] ;;
      ret false
    else ret valid
  else ret valid.

(** Lines 55-217. The result is the returned [bool] and the object. *)
Definition validateAndConstructParams (Context : RSContext)
  (FD : FunctionDecl) (this : RSExportForEach)
  : Exec (bool * RSExportForEach) :=
  let valid := true in
  let this := set_numParams this (getNumParams FD) in
  slangAssert (0 <? numParams this)%nat "numParams > 0" ;;
  if (getTargetAPI Context <? SLANG_JB_TARGET_API) && negb (isRootRSFunc FD)
  then
    Report (fdLocation FD) msgNonRoot
      [ArgString (fdName FD); ArgInt SLANG_MINIMUM_TARGET_API;
       ArgInt (SLANG_JB_TARGET_API - 1)] ;;
    ret (false, this)
  else
    valid <- checkResultType FD valid ;;
    let i := 0%nat in
    '(this, i) <- matchIn FD this i ;;
    '(this, i) <- matchOut FD this i ;;
    valid <- checkInOrOut FD this valid ;;
    '(this, i) <- matchUsrData FD this i ;;
    '(valid, this) <- scanParams FD (skipn i (fdParams FD)) (valid, this) ;;
    let this := setSignatureMetadata valid this in
    valid <- checkSkip Context FD this valid ;;
    ret (valid, this).

(** *** Create, lines 219-304 *)

(** Lines 239-291: the parameter packet of [usrData]; [None] is the
    [return NULL] of line 283. *)
Definition extractUsrData (Context : RSContext) (FE : RSExportForEach)
  (Id : string) : Exec (option RSExportForEach) :=
  match mUsrData FE with
  | Some PVD =>
      let QT := getCanonicalType (pvdType PVD) in
      slangAssert (isPointerToConst QT)
        "QT->isPointerType() && QT->getPointeeType().isConstQualified()" ;;
      match getPointeeType QT with
      | None => fun out => Aborted "null pointee type" out
      | Some Pointee =>
          if QualType_eqb (getUnqualifiedType (getCanonicalType Pointee)) VoidTy
          then
            (* const void*: fall back to reflecting the ain/aout parameters *)
            ret (Some (set_mUsrData FE None))
          else
            let RD := mkRecordDecl Id [mkFieldDecl (pvdName PVD) Pointee] in
            let T := mkQualType noQualifiers (RecordType RD) in
            ET <- RSExportType_Create Context (getTypePtr T) ;;
            match ET with
            | None =>
                fprintf_stderr
                  (String.append "Failed to export the function "
                     (String.append (mName FE)
                        (String.append
                           ". There's at least one parameter whose type is not supported by the reflection"
                           (String (Ascii.ascii_of_nat 10) EmptyString)))) ;;
                ret None
            | Some ET' =>
                slangAssert (isExportClassRecord (getClass ET'))
                  "Parameter packet must be a record" ;;
                ret (Some (set_mParamPacketType FE (Some ET')))
            end
      end
  | None => ret (Some FE)
  end.

(** Lines 293-296. *)
Definition exportIn (Context : RSContext) (FE : RSExportForEach)
  : Exec RSExportForEach :=
  match mIn FE with
  | Some PVD =>
      let T := getTypePtr (getCanonicalType (pvdType PVD)) in
      ET <- RSExportType_Create Context T ;;
      ret (set_mInType FE ET)
  | None => ret FE
  end.

(** Lines 298-301. *)
Definition exportOut (Context : RSContext) (FE : RSExportForEach)
  : Exec RSExportForEach :=
  match mOut FE with
  | Some PVD =>
      let T := getTypePtr (getCanonicalType (pvdType PVD)) in
      ET <- RSExportType_Create Context T ;;
      ret (set_mOutType FE ET)
  | None => ret FE
  end.

(** The result is the returned pointer: [None] is NULL. *)
Definition Create (Context : RSContext) (FD : FunctionDecl)
  : Exec (option RSExportForEach) :=
  let Name := fdName FD in
  slangAssert (negb (String.eqb Name "")) "Function must have a name" ;;
  let FE := new_RSExportForEach Context Name in
  '(ok, FE) <- validateAndConstructParams Context FD FE ;;
  if negb ok then ret None
  else
    let Id :=
      String.append
        (String.append DUMMY_RS_TYPE_NAME_PREFIX "helper_foreach_param:")
        (String.append (mName FE) DUMMY_RS_TYPE_NAME_POSTFIX) in
    r <- extractUsrData Context FE Id ;;
    match r with
    | None => ret None
    | Some FE =>
        FE <- exportIn Context FE ;;
        FE <- exportOut Context FE ;;
        ret (Some FE)
    end.

(** Lines 306-312. *)
Definition CreateDummyRoot (Context : RSContext) : RSExportForEach :=
  let Name := "root" in
  let FE := new_RSExportForEach Context Name in
  set_mDummyRoot FE true.

(** Lines 314-334. *)
Definition isGraphicsRootRSFunc (targetAPI : Z) (FD : FunctionDecl) : bool :=
  if negb (isRootRSFunc FD) then false
  else if (getNumParams FD =? 0)%nat then
    (* Graphics root function *)
    true
  else if (targetAPI <? SLANG_ICS_TARGET_API) && (getNumParams FD =? 1)%nat
  then
    if QualType_eqb (getCanonicalType (fdResultType FD)) IntTy then true
    else false
  else false.

(** Lines 336-364. *)
Definition isRSForEachFunc (targetAPI : Z) (FD : FunctionDecl) : bool :=
  if isGraphicsRootRSFunc targetAPI FD then false
  else
    match fdParams FD with
    | PVD :: _ =>
        let QT := getCanonicalType (pvdType PVD) in
        if isPointerType QT then true
        else if isRootRSFunc FD then true
        else false
    | [] => false
    end.

(** *** Vocabulary of the statements *)

(** Lines 79-184 in one piece: everything between the gate on non-root
    kernels and the encoding, from [valid = true] and [i = 0]. *)
Definition classifyShape (FD : FunctionDecl) (this : RSExportForEach)
  : Exec (bool * RSExportForEach) :=
  valid <- checkResultType FD true ;;
  '(this, i) <- matchIn FD this 0%nat ;;
  '(this, i) <- matchOut FD this i ;;
  valid <- checkInOrOut FD this valid ;;
  '(this, i) <- matchUsrData FD this i ;;
  scanParams FD (skipn i (fdParams FD)) (valid, this).

(** The gate of lines 65-77 lets the function through. *)
Definition passesRootGate (Context : RSContext) (FD : FunctionDecl) : bool :=
  negb ((getTargetAPI Context <? SLANG_JB_TARGET_API)
        && negb (isRootRSFunc FD)).

(** The reports of lines 79-184: return type, missing in and out,
    unexpected parameter, duplicate entry. *)
Definition isShapeError (e : Event) : bool :=
  match e with
  | Reported d =>
      String.eqb (diagFormat d) msgReturnVoid
      || String.eqb (diagFormat d) msgInOrOut
      || String.eqb (diagFormat d) msgUnexpected
      || String.eqb (diagFormat d) msgDuplicate
  | Stderr _ => false
  end.

(** The report of lines 204-211. *)
Definition mayNotSkip (FD : FunctionDecl) : Event :=
  Reported (mkError (fdLocation FD) msgMayNotSkip
              [ArgString (fdName FD); ArgInt SLANG_MINIMUM_TARGET_API;
               ArgInt (SLANG_ICS_TARGET_API - 1)]).

Definition isSkipError (e : Event) : bool :=
  match e with
  | Reported d => String.eqb (diagFormat d) msgMayNotSkip
  | Stderr _ => false
  end.

(** [metadata & bit] is not zero. *)
Definition hasBit (metadata bit : Z) : bool :=
  negb (Z.land metadata bit =? 0).

(** The bits of [signatureMetadata] are those of the occupied slots. *)
Definition mirrorsSlots (this : RSExportForEach) : Prop :=
  hasBit (mSignatureMetadata this) 0x01 = isSome (mIn this)
  /\ hasBit (mSignatureMetadata this) 0x02 = isSome (mOut this)
  /\ hasBit (mSignatureMetadata this) 0x04 = isSome (mUsrData this)
  /\ hasBit (mSignatureMetadata this) 0x08 = isSome (mX this)
  /\ hasBit (mSignatureMetadata this) 0x10 = isSome (mY this)
  /\ 0 <= mSignatureMetadata this < 32.

(** The five values a target before ICS accepts. *)
Definition prefixComplete (metadata : Z) : Prop :=
  metadata = 0x01 \/ metadata = 0x03 \/ metadata = 0x07
  \/ metadata = 0x0f \/ metadata = 0x1f.

(** *** validateSpecialFuncDecl, lines 366-427 *)

(** [isInitRSFunc] and [isDtorRSFunc] are inline functions of the header,
    like [isRootRSFunc]: tests on the name of the function. *)
Variable isInitRSFunc : FunctionDecl -> bool.
Variable isDtorRSFunc : FunctionDecl -> bool.

Definition msgLegacyRootParam : string :=
  "invalid parameter type for legacy graphics root() function: %0".
Definition msgRootReturnsInt : string :=
  "root() is required to return an int for graphics usage".
Definition msgNoParameters : string :=
  "%0(void) is required to have no parameters".
Definition msgVoidReturn : string :=
  "%0(void) is required to have a void return type".

(** Lines 376-390: the parameter of the legacy graphics root. *)
Definition checkLegacyRootParam (targetAPI : Z) (FD : FunctionDecl)
  (valid : bool) : Exec bool :=
  if (targetAPI <? SLANG_ICS_TARGET_API) && (getNumParams FD =? 1)%nat then
    (* Legacy graphics root function *)
    PVD <- getParamDecl FD 0 ;;
    let QT := getCanonicalType (pvdType PVD) in
    if negb (QualType_eqb QT IntTy) then
      Report (pvdLocation PVD) msgLegacyRootParam [ArgType (pvdType PVD)] ;;
      ret false
    else ret valid
  else ret valid.

(** Lines 392-401: a graphics root returns an int. *)
Definition checkRootReturnsInt (FD : FunctionDecl) (valid : bool)
  : Exec bool :=
  if negb (QualType_eqb (getCanonicalType (fdResultType FD)) IntTy) then
    Report (fdLocation FD) msgRootReturnsInt [] ;;
    ret false
  else ret valid.

(** Lines 403-411: init and the destructor take no parameter. *)
Definition checkNoParameters (FD : FunctionDecl) (valid : bool) : Exec bool :=
  if negb (getNumParams FD =? 0)%nat then
    Report (fdLocation FD) msgNoParameters [ArgString (fdName FD)] ;;
    ret false
  else ret valid.

(** Lines 413-421: init and the destructor return void. *)
Definition checkVoidReturn (FD : FunctionDecl) (valid : bool) : Exec bool :=
  if negb (QualType_eqb (getCanonicalType (fdResultType FD)) VoidTy) then
    Report (fdLocation FD) msgVoidReturn [ArgString (fdName FD)] ;;
    ret false
  else ret valid.

Definition validateSpecialFuncDecl (targetAPI : Z) (FD : FunctionDecl)
  : Exec bool :=
  let valid := true in
  if isGraphicsRootRSFunc targetAPI FD then
    valid <- checkLegacyRootParam targetAPI FD valid ;;
    (* Graphics root function, so verify that it returns an int *)
    valid <- checkRootReturnsInt FD valid ;;
    ret valid
  else if isInitRSFunc FD || isDtorRSFunc FD then
    valid <- checkNoParameters FD valid ;;
    valid <- checkVoidReturn FD valid ;;
    ret valid
  else
    slangAssert false "must be called on root, init or .rs.dtor function!" ;;
    ret valid.

(** *** More vocabulary *)

Definition optList {A} (p : option A) : list A :=
  match p with Some a => [a] | None => [] end.

(** The parameters in the slots, in the order of the bits. *)
Definition slotList (this : RSExportForEach) : list ParmVarDecl :=
  optList (mIn this) ++ optList (mOut this) ++ optList (mUsrData this)
  ++ optList (mX this) ++ optList (mY this).

(** What a slot holds has the shape the slot is for. *)
Definition slotOf (shape : QualType -> bool) (slot : option ParmVarDecl)
  : Prop :=
  forall PVD, slot = Some PVD -> shape (getCanonicalType (pvdType PVD)) = true.

Definition isUnsignedInt (QT : QualType) : bool :=
  QualType_eqb (getUnqualifiedType QT) UnsignedIntTy.

Definition slotsWellShaped (this : RSExportForEach) : Prop :=
  slotOf isPointerToConst (mIn this)
  /\ slotOf isPointerToNonConst (mOut this)
  /\ slotOf isPointerToConst (mUsrData this)
  /\ slotOf isUnsignedInt (mX this)
  /\ slotOf isUnsignedInt (mY this).

(** The diagnostics in a trace. *)
Definition isReport (e : Event) : bool :=
  match e with Reported _ => true | Stderr _ => false end.

(** Parameters that the coordinate loop takes without a report, from
    empty coordinate slots: none, one unsigned int, or two of which the
    first is not called "y" and the second is not called "x". *)
Definition coordinatesFit (C : list ParmVarDecl) : bool :=
  match C with
  | [] => true
  | [c] => isUnsignedInt (getCanonicalType (pvdType c))
  | [c1; c2] =>
      isUnsignedInt (getCanonicalType (pvdType c1))
      && isUnsignedInt (getCanonicalType (pvdType c2))
      && negb (String.eqb (pvdName c1) "y")
      && negb (String.eqb (pvdName c2) "x")
  | _ => false
  end.

End Slang.

(** ** The pass at the API levels of the Android releases

    Honeycomb is level 11, Ice Cream Sandwich level 14 and Jelly Bean
    level 16; the root function is the one called [root]. The exporter
    of this instance accepts every type and knows records from the
    rest. *)

Module Droid.

Definition isRootRSFunc (FD : FunctionDecl) : bool :=
  String.eqb (fdName FD) "root".

Definition exportType (Context : RSContext) (T : Type_)
  : Exec (option ExportClass) :=
  ret (Some match T with
            | RecordType _ => ExportClassRecord
            | PointerType _ => ExportClassPointer
            | BuiltinType _ => ExportClassPrimitive
            end).

Definition validate :=
  validateAndConstructParams 11 14 16 isRootRSFunc (RSExportType := ExportClass).

Definition create :=
  Create 11 14 16 "<" ">" isRootRSFunc (fun c : ExportClass => c) exportType.

Definition fresh (Name : string) : RSExportForEach ExportClass :=
  new_RSExportForEach ExportClass (mkRSContext 16) Name.

Definition constOf (T : QualType) : QualType :=
  mkQualType (mkQualifiers true false false) (getTypePtr T).
Definition ptrTo (T : QualType) : QualType :=
  mkQualType noQualifiers (PointerType T).
Definition FloatTy : QualType := mkQualType noQualifiers (BuiltinType Float).

(** Sample parameters: [const int *in], [int *out], [const void *usr],
    [const float *data], [unsigned x], [unsigned y], [unsigned z],
    [unsigned a], [float f]. *)
Definition p_in : ParmVarDecl := mkParmVarDecl 1 "in" (ptrTo (constOf IntTy)).
Definition p_out : ParmVarDecl := mkParmVarDecl 2 "out" (ptrTo IntTy).
Definition p_usr : ParmVarDecl :=
  mkParmVarDecl 3 "usr" (ptrTo (constOf VoidTy)).
Definition p_data : ParmVarDecl :=
  mkParmVarDecl 3 "data" (ptrTo (constOf FloatTy)).
Definition p_x : ParmVarDecl := mkParmVarDecl 4 "x" UnsignedIntTy.
Definition p_y : ParmVarDecl := mkParmVarDecl 5 "y" UnsignedIntTy.
Definition p_z : ParmVarDecl := mkParmVarDecl 6 "z" UnsignedIntTy.
Definition p_a : ParmVarDecl := mkParmVarDecl 7 "a" UnsignedIntTy.
Definition p_f : ParmVarDecl := mkParmVarDecl 8 "f" FloatTy.

(** [void foo(const int *in, int *out, const void *usr, unsigned x,
    unsigned y)] *)
Definition kernelVoidUsr : FunctionDecl :=
  mkFunctionDecl 0 "foo" VoidTy [p_in; p_out; p_usr; p_x; p_y].

(** [void foo(const int *in, int *out, const float *data, unsigned x,
    unsigned y)] *)
Definition kernelFull : FunctionDecl :=
  mkFunctionDecl 0 "foo" VoidTy [p_in; p_out; p_data; p_x; p_y].

(** [void foo(unsigned x)] *)
Definition kernelXOnly : FunctionDecl := mkFunctionDecl 0 "foo" VoidTy [p_x].

(** [int foo(float f, unsigned x)] *)
Definition kernelFloatX : FunctionDecl :=
  mkFunctionDecl 0 "foo" IntTy [p_f; p_x].

(** [void foo(const int *in, unsigned y, unsigned z)] *)
Definition kernelInYZ : FunctionDecl :=
  mkFunctionDecl 0 "foo" VoidTy [p_in; p_y; p_z].

(** [void foo(const int *in, unsigned a, unsigned x)] *)
Definition kernelInAX : FunctionDecl :=
  mkFunctionDecl 0 "foo" VoidTy [p_in; p_a; p_x].

(** [void root(int *out)] *)
Definition rootOut : FunctionDecl := mkFunctionDecl 0 "root" VoidTy [p_out].

(** [void root(const int *in, int *out, unsigned x)] *)
Definition rootInOutX : FunctionDecl :=
  mkFunctionDecl 0 "root" VoidTy [p_in; p_out; p_x].

(** [void root(const int *in, int *out, const float *data)] *)
Definition rootInOutData : FunctionDecl :=
  mkFunctionDecl 0 "root" VoidTy [p_in; p_out; p_data].

(** [int root(const int *in)] *)
Definition rootIntIn : FunctionDecl := mkFunctionDecl 0 "root" IntTy [p_in].

(** [void foo(void)] *)
Definition kernelNoParams : FunctionDecl := mkFunctionDecl 0 "foo" VoidTy [].

(** The descriptor of [kernelInYZ] when the loop reaches [z], and that of
    [kernelInAX] when it reaches [x]. *)
Definition afterInY : RSExportForEach ExportClass :=
  mkRSExportForEach "foo" None None None 3%nat 0
    (Some p_in) None None None (Some p_y) false.
Definition afterInA : RSExportForEach ExportClass :=
  mkRSExportForEach "foo" None None None 3%nat 0
    (Some p_in) None None (Some p_a) None false.

(** What [create] returns on [kernelFull] and on [kernelVoidUsr] for a
    JB target. *)
Definition packetOfFull : ExportClass := ExportClassRecord.
Definition createdFull : RSExportForEach ExportClass :=
  mkRSExportForEach "foo" (Some packetOfFull) (Some ExportClassPointer)
    (Some ExportClassPointer) 5%nat 0x1f
    (Some p_in) (Some p_out) (Some p_data) (Some p_x) (Some p_y) false.
Definition createdVoidUsr : RSExportForEach ExportClass :=
  mkRSExportForEach "foo" None (Some ExportClassPointer)
    (Some ExportClassPointer) 5%nat 0x1f
    (Some p_in) (Some p_out) None (Some p_x) (Some p_y) false.

(** Descriptors with the bitmasks 0x07 and 0x0B, as classification leaves
    them on [rootInOutData] and [rootInOutX]. *)
Definition withMask07 : RSExportForEach ExportClass :=
  mkRSExportForEach "root" None None None 3%nat 0x07
    (Some p_in) (Some p_out) (Some p_data) None None false.
Definition withMask0b : RSExportForEach ExportClass :=
  mkRSExportForEach "root" None None None 3%nat 0x0b
    (Some p_in) (Some p_out) None (Some p_x) None false.

Definition JB : RSContext := mkRSContext 16.
Definition ICS : RSContext := mkRSContext 14.
Definition HC : RSContext := mkRSContext 11.

(** The other two reserved names. *)
Definition isInitRSFunc (FD : FunctionDecl) : bool :=
  String.eqb (fdName FD) "init".
Definition isDtorRSFunc (FD : FunctionDecl) : bool :=
  String.eqb (fdName FD) ".rs.dtor".

Definition special :=
  validateSpecialFuncDecl 14 isRootRSFunc isInitRSFunc isDtorRSFunc.

Definition forEachFunc := isRSForEachFunc 14 isRootRSFunc.

(** An exporter that supports no type at all. *)
Definition exportNothing (Context : RSContext) (T : Type_)
  : Exec (option ExportClass) :=
  ret None.

Definition createWithout :=
  Create 11 14 16 "<" ">" isRootRSFunc (fun c : ExportClass => c)
    exportNothing.

(** More samples: [int root(void)], [int root(int n)],
    [void root(float f)], [int init(int n)], [void helper(int n)],
    [void foo(const int *in, int *out, const float *data, unsigned x,
    unsigned y, unsigned z)], [void foo(const int *in)],
    [void foo(const int *in, unsigned y)]. *)
Definition p_n : ParmVarDecl := mkParmVarDecl 9 "n" IntTy.
Definition rootGraphics : FunctionDecl := mkFunctionDecl 0 "root" IntTy [].
Definition rootLegacy : FunctionDecl := mkFunctionDecl 0 "root" IntTy [p_n].
Definition rootFloat : FunctionDecl := mkFunctionDecl 0 "root" VoidTy [p_f].
Definition initBad : FunctionDecl := mkFunctionDecl 0 "init" IntTy [p_n].
Definition helper : FunctionDecl := mkFunctionDecl 0 "helper" VoidTy [p_n].
Definition kernelSix : FunctionDecl :=
  mkFunctionDecl 0 "foo" VoidTy [p_in; p_out; p_data; p_x; p_y; p_z].
Definition kernelIn : FunctionDecl := mkFunctionDecl 0 "foo" VoidTy [p_in].
Definition kernelInY : FunctionDecl :=
  mkFunctionDecl 0 "foo" VoidTy [p_in; p_y].
Definition rootIn : FunctionDecl := mkFunctionDecl 0 "root" VoidTy [p_in].

(** What the classification leaves on [kernelFull] (accepted on JB), on
    [rootIn] (accepted everywhere), on [kernelInY] (accepted from ICS
    on) and on [kernelXOnly] (rejected). *)
Definition classifiedFull : RSExportForEach ExportClass :=
  mkRSExportForEach "foo" None None None 5%nat 0x1f
    (Some p_in) (Some p_out) (Some p_data) (Some p_x) (Some p_y) false.
Definition classifiedRootIn : RSExportForEach ExportClass :=
  mkRSExportForEach "root" None None None 1%nat 0x01
    (Some p_in) None None None None false.
Definition classifiedInY : RSExportForEach ExportClass :=
  mkRSExportForEach "foo" None None None 2%nat 0x11
    (Some p_in) None None None (Some p_y) false.
Definition rejectedXOnly : RSExportForEach ExportClass :=
  mkRSExportForEach "foo" None None None 1%nat 0
    None None None (Some p_x) None false.

End Droid.

(** ** Facts *)

Unset Implicit Arguments.

(** *** Comparison with the types of the context *)

Lemma QualType_eqb_VoidTy (T : QualType) :
  QualType_eqb T VoidTy = true <-> T = VoidTy.
Proof.
  destruct T as [[c v r] [k | p | d]]; destruct c, v, r; try destruct k;
    cbn; split; intros H; first [reflexivity | discriminate H].
Qed.

Lemma QualType_eqb_IntTy (T : QualType) :
  QualType_eqb T IntTy = true <-> T = IntTy.
Proof.
  destruct T as [[c v r] [k | p | d]]; destruct c, v, r; try destruct k;
    cbn; split; intros H; first [reflexivity | discriminate H].
Qed.

Lemma QualType_eqb_UnsignedIntTy (T : QualType) :
  QualType_eqb T UnsignedIntTy = true <-> T = UnsignedIntTy.
Proof.
  destruct T as [[c v r] [k | p | d]]; destruct c, v, r; try destruct k;
    cbn; split; intros H; first [reflexivity | discriminate H].
Qed.

Lemma isPointerToConst_isPointerType (T : QualType) :
  isPointerToConst T = true -> isPointerType T = true.
Proof. unfold isPointerToConst. intros H. apply andb_true_iff in H. tauto. Qed.

Lemma isPointerToNonConst_isPointerType (T : QualType) :
  isPointerToNonConst T = true -> isPointerType T = true.
Proof.
  unfold isPointerToNonConst. intros H. apply andb_true_iff in H. tauto.
Qed.

(** A pointer is one of the two. *)
Lemma pointer_const_or_not (T : QualType) :
  isPointerType T = true ->
  isPointerToConst T = negb (isPointerToNonConst T).
Proof.
  unfold isPointerToConst, isPointerToNonConst, isPointerType, getPointeeType.
  destruct (getTypePtr T); try discriminate. intros _.
  cbn. now destruct (isConstQualified pointee).
Qed.

Lemma not_pointer_neither (T : QualType) :
  isPointerType T = false ->
  isPointerToConst T = false /\ isPointerToNonConst T = false.
Proof.
  unfold isPointerToConst, isPointerToNonConst. now intros ->.
Qed.

Section SlangFacts.

Variable SLANG_MINIMUM_TARGET_API : Z.
Variable SLANG_ICS_TARGET_API : Z.
Variable SLANG_JB_TARGET_API : Z.
Variable DUMMY_RS_TYPE_NAME_PREFIX : string.
Variable DUMMY_RS_TYPE_NAME_POSTFIX : string.
Variable isRootRSFunc : FunctionDecl -> bool.
Variable RSExportType : Type.
Variable getClass : RSExportType -> ExportClass.
Variable RSExportType_Create : RSContext -> Type_ -> Exec (option RSExportType).

Local Abbreviation Descriptor := (RSExportForEach RSExportType).
Local Abbreviation validate :=
  (validateAndConstructParams (RSExportType := RSExportType)
     SLANG_MINIMUM_TARGET_API SLANG_ICS_TARGET_API SLANG_JB_TARGET_API
     isRootRSFunc).
Local Abbreviation check_skip :=
  (checkSkip (RSExportType := RSExportType)
     SLANG_MINIMUM_TARGET_API SLANG_ICS_TARGET_API).
Local Abbreviation passes_gate :=
  (passesRootGate SLANG_JB_TARGET_API isRootRSFunc).
Local Abbreviation may_not_skip :=
  (mayNotSkip SLANG_MINIMUM_TARGET_API SLANG_ICS_TARGET_API).
Local Abbreviation create :=
  (Create SLANG_MINIMUM_TARGET_API SLANG_ICS_TARGET_API SLANG_JB_TARGET_API
     DUMMY_RS_TYPE_NAME_PREFIX DUMMY_RS_TYPE_NAME_POSTFIX isRootRSFunc
     getClass RSExportType_Create).
Local Abbreviation graphics_root :=
  (isGraphicsRootRSFunc SLANG_ICS_TARGET_API isRootRSFunc).

(** *** The loop over the coordinates *)

(** One parameter: the loop body returns, only adds shape errors, keeps
    [valid] exactly when it reports nothing, and touches no member but
    [mX] and [mY]. *)
Lemma scanParam_run (FD : FunctionDecl) (PVD : ParmVarDecl) (valid : bool)
  (this : Descriptor) (out : Trace) :
  exists valid' this' new,
    scanParam FD PVD (valid, this) out = Returned (valid', this') (out ++ new)
    /\ Forall (fun e => isShapeError e = true) new
    /\ (new = [] -> valid' = valid)
    /\ (new <> [] -> valid' = false)
    /\ set_mY (set_mX this' (mX this)) (mY this) = this.
Proof.
  assert (Hid : set_mY (set_mX this (mX this)) (mY this) = this)
    by now destruct this.
  unfold scanParam, ReportUnexpected, ReportNameError, Report, emit, bind, ret.
  repeat match goal with
    | |- context [if ?c then _ else _] => destruct c eqn:?
    end;
    first
      [ exists false, this; eexists; split; [reflexivity |];
        split; [repeat constructor |];
        split; [discriminate |]; split; [reflexivity | exact Hid]
      | exists valid; eexists; exists [];
        rewrite app_nil_r; split; [reflexivity |];
        split; [constructor |];
        split; [reflexivity |]; split; [congruence |];
        now destruct this ].
Qed.

Lemma scanParams_run (FD : FunctionDecl) (rest : list ParmVarDecl) :
  forall (valid : bool) (this : Descriptor) (out : Trace),
  exists valid' this' new,
    scanParams FD rest (valid, this) out = Returned (valid', this') (out ++ new)
    /\ Forall (fun e => isShapeError e = true) new
    /\ (new = [] -> valid' = valid)
    /\ (new <> [] -> valid' = false)
    /\ set_mY (set_mX this' (mX this)) (mY this) = this.
Proof.
  induction rest as [| PVD rest IH]; intros valid this out.
  - exists valid, this, []. rewrite app_nil_r. cbn.
    repeat split; try constructor; try congruence. now destruct this.
  - destruct (scanParam_run FD PVD valid this out)
      as (v1 & t1 & n1 & E1 & F1 & V1 & W1 & S1).
    destruct (IH v1 t1 (out ++ n1)) as (v2 & t2 & n2 & E2 & F2 & V2 & W2 & S2).
    exists v2, t2, (n1 ++ n2). cbn [scanParams]. unfold bind.
    rewrite E1, E2.
    rewrite app_assoc. split; [reflexivity |].
    split; [now apply Forall_app |].
    split; [| split].
    + intros H. apply app_eq_nil in H as [-> ->].
      now rewrite V2, V1.
    + intros H. destruct n2 as [| e n2].
      * rewrite V2 by reflexivity. apply W1. now rewrite app_nil_r in H.
      * now apply W2.
    + rewrite <- S1 in *. rewrite <- S2. now destruct t2, t1.
Qed.

(** *** The blocks before the loop *)

Lemma getParamDecl_in_range (FD : FunctionDecl) (i : nat) (out : Trace) :
  (i < getNumParams FD)%nat ->
  exists PVD,
    nth_error (fdParams FD) i = Some PVD
    /\ getParamDecl FD i out = Returned PVD out.
Proof.
  unfold getParamDecl, getNumParams. intros Hi.
  destruct (nth_error (fdParams FD) i) as [PVD |] eqn:E.
  - now exists PVD.
  - apply nth_error_None in E. lia.
Qed.

Lemma checkResultType_run (FD : FunctionDecl) (valid : bool) (out : Trace) :
  exists valid' new,
    checkResultType FD valid out = Returned valid' (out ++ new)
    /\ Forall (fun e => isShapeError e = true) new
    /\ (new = [] -> valid' = valid)
    /\ (new <> [] -> valid' = false).
Proof.
  unfold checkResultType, Report, emit, bind, ret.
  destruct (negb _).
  - exists false. eexists. split; [reflexivity |].
    split; [repeat constructor |]. split; [discriminate | reflexivity].
  - exists valid, []. rewrite app_nil_r. split; [reflexivity |].
    split; [constructor |]. split; [reflexivity | congruence].
Qed.

Lemma checkInOrOut_run (FD : FunctionDecl) (this : Descriptor) (valid : bool)
  (out : Trace) :
  exists valid' new,
    checkInOrOut FD this valid out = Returned valid' (out ++ new)
    /\ Forall (fun e => isShapeError e = true) new
    /\ (new = [] -> valid' = valid)
    /\ (new <> [] -> valid' = false).
Proof.
  unfold checkInOrOut, Report, emit, bind, ret.
  destruct (_ && _).
  - exists false. eexists. split; [reflexivity |].
    split; [repeat constructor |]. split; [discriminate | reflexivity].
  - exists valid, []. rewrite app_nil_r. split; [reflexivity |].
    split; [constructor |]. split; [reflexivity | congruence].
Qed.

Lemma matchIn_run (FD : FunctionDecl) (this : Descriptor) (out : Trace)
  (p0 : ParmVarDecl) (rest : list ParmVarDecl) :
  fdParams FD = p0 :: rest ->
  matchIn FD this 0 out =
    Returned (if isPointerToConst (pvdType p0)
              then (set_mIn this (Some p0), 1%nat) else (this, 0%nat)) out.
Proof.
  intros E. unfold matchIn, getParamDecl, bind, ret. rewrite E. cbn.
  unfold getCanonicalType. now destruct (isPointerToConst _).
Qed.

Lemma matchOut_run (FD : FunctionDecl) (this : Descriptor) (i : nat)
  (out : Trace) :
  numParams this = getNumParams FD ->
  exists this' i',
    matchOut FD this i out = Returned (this', i') out
    /\ numParams this' = numParams this
    /\ set_mOut this' (mOut this) = this.
Proof.
  assert (Hid : set_mOut this (mOut this) = this) by now destruct this.
  intros Hn. unfold matchOut. destruct (i <? numParams this)%nat eqn:Hi.
  - apply Nat.ltb_lt in Hi. rewrite Hn in Hi.
    destruct (getParamDecl_in_range FD i out Hi) as (PVD & _ & E).
    unfold bind. rewrite E.
    destruct (isPointerToNonConst _); eexists _, _;
      (split; [reflexivity |]); (split; [reflexivity |]);
      [now destruct this | exact Hid].
  - now exists this, i.
Qed.

Lemma matchUsrData_run (FD : FunctionDecl) (this : Descriptor) (i : nat)
  (out : Trace) :
  numParams this = getNumParams FD ->
  exists this' i',
    matchUsrData FD this i out = Returned (this', i') out
    /\ numParams this' = numParams this
    /\ set_mUsrData this' (mUsrData this) = this.
Proof.
  assert (Hid : set_mUsrData this (mUsrData this) = this) by now destruct this.
  intros Hn. unfold matchUsrData. destruct (i <? numParams this)%nat eqn:Hi.
  - apply Nat.ltb_lt in Hi. rewrite Hn in Hi.
    destruct (getParamDecl_in_range FD i out Hi) as (PVD & _ & E).
    unfold bind. rewrite E.
    destruct (isPointerToConst _); eexists _, _;
      (split; [reflexivity |]); (split; [reflexivity |]);
      [now destruct this | exact Hid].
  - now exists this, i.
Qed.

(** Lines 79-184 return once there is a parameter 0; what they report
    are shape errors, and [valid] stays exactly when they report
    nothing. *)
Lemma classifyShape_run (FD : FunctionDecl) (this : Descriptor) (out : Trace) :
  fdParams FD <> [] ->
  numParams this = getNumParams FD ->
  exists valid this' new,
    classifyShape FD this out = Returned (valid, this') (out ++ new)
    /\ Forall (fun e => isShapeError e = true) new
    /\ (valid = true <-> new = []).
Proof.
  intros Hne Hn. destruct (fdParams FD) as [| p0 rest] eqn:Eparams;
    [congruence | clear Hne].
  unfold classifyShape.
  destruct (checkResultType_run FD true out) as (v1 & n1 & E1 & F1 & V1 & W1).
  unfold bind at 1. rewrite E1.
  unfold bind at 1. rewrite (matchIn_run FD this (out ++ n1) p0 rest Eparams).
  set (r1 := if isPointerToConst _ then _ else _).
  assert (Hn1 : numParams (fst r1) = getNumParams FD)
    by (subst r1; destruct (isPointerToConst _); exact Hn).
  destruct r1 as [this1 i1]. cbn [fst] in Hn1.
  destruct (matchOut_run FD this1 i1 (out ++ n1) Hn1)
    as (this2 & i2 & E2 & Hn2 & _).
  unfold bind at 1. rewrite E2.
  destruct (checkInOrOut_run FD this2 v1 (out ++ n1))
    as (v3 & n3 & E3 & F3 & V3 & W3).
  unfold bind at 1. rewrite E3.
  assert (Hn2' : numParams this2 = getNumParams FD) by congruence.
  destruct (matchUsrData_run FD this2 i2 ((out ++ n1) ++ n3) Hn2')
    as (this4 & i4 & E4 & _ & _).
  unfold bind at 1. rewrite E4. rewrite Eparams.
  destruct (scanParams_run FD (skipn i4 (p0 :: rest)) v3 this4
              ((out ++ n1) ++ n3))
    as (v5 & this5 & n5 & E5 & F5 & V5 & W5 & _).
  exists v5, this5, (n1 ++ n3 ++ n5). rewrite E5.
  split; [now rewrite !app_assoc |].
  split; [apply Forall_app; split; [| apply Forall_app; split]; assumption |].
  split.
  - intros Hv. destruct n5 as [| e5 n5];
      [| rewrite W5 in Hv by discriminate; discriminate Hv].
    rewrite V5 in Hv by reflexivity.
    destruct n3 as [| e3 n3];
      [| rewrite W3 in Hv by discriminate; discriminate Hv].
    rewrite V3 in Hv by reflexivity.
    destruct n1 as [| e1 n1];
      [reflexivity | rewrite W1 in Hv by discriminate; discriminate Hv].
  - intros H. apply app_eq_nil in H as [-> H]. apply app_eq_nil in H as [-> ->].
    now rewrite V5, V3, V1.
Qed.

(** *** The blocks as equations *)

Lemma bind_returned {A B} (m : Exec A) (k : A -> Exec B) (out out' : Trace)
  (a : A) :
  m out = Returned a out' -> bind m k out = k a out'.
Proof. unfold bind. now intros ->. Qed.

Lemma bind_aborted {A B} (m : Exec A) (k : A -> Exec B) (out out' : Trace)
  (text : string) :
  m out = Aborted text out' -> bind m k out = Aborted text out'.
Proof. unfold bind. now intros ->. Qed.

Ltac run_block E :=
  rewrite (bind_returned _ _ _ _ _ E); cbv beta iota.

Lemma checkResultType_eq (FD : FunctionDecl) (valid : bool) (out : Trace) :
  checkResultType FD valid out =
    if QualType_eqb (fdResultType FD) VoidTy then Returned valid out
    else Returned false
           (out ++ [Reported (mkError (fdLocation FD) msgReturnVoid
                      [ArgString (fdName FD)])]).
Proof.
  unfold checkResultType, getCanonicalType.
  now destruct (QualType_eqb _ _).
Qed.

Lemma checkInOrOut_eq (FD : FunctionDecl) (this : Descriptor) (valid : bool)
  (out : Trace) :
  checkInOrOut FD this valid out =
    if isSome (mIn this) || isSome (mOut this) then Returned valid out
    else Returned false
           (out ++ [Reported (mkError (fdLocation FD) msgInOrOut
                      [ArgString (fdName FD)])]).
Proof.
  unfold checkInOrOut. now destruct (isSome (mIn this)), (isSome (mOut this)).
Qed.

Lemma matchOut_at (FD : FunctionDecl) (this : Descriptor) (i : nat)
  (out : Trace) (PVD : ParmVarDecl) :
  nth_error (fdParams FD) i = Some PVD ->
  numParams this = getNumParams FD ->
  matchOut FD this i out =
    Returned (if isPointerToNonConst (pvdType PVD)
              then (set_mOut this (Some PVD), S i) else (this, i)) out.
Proof.
  intros E Hn. unfold matchOut, getParamDecl, getCanonicalType, bind, ret.
  assert (Hi : (i <? numParams this)%nat = true).
  { apply Nat.ltb_lt. rewrite Hn. unfold getNumParams.
    apply nth_error_Some. congruence. }
  rewrite Hi, E. now destruct (isPointerToNonConst _).
Qed.

Lemma matchUsrData_at (FD : FunctionDecl) (this : Descriptor) (i : nat)
  (out : Trace) (PVD : ParmVarDecl) :
  nth_error (fdParams FD) i = Some PVD ->
  numParams this = getNumParams FD ->
  matchUsrData FD this i out =
    Returned (if isPointerToConst (pvdType PVD)
              then (set_mUsrData this (Some PVD), S i) else (this, i)) out.
Proof.
  intros E Hn. unfold matchUsrData, getParamDecl, getCanonicalType, bind, ret.
  assert (Hi : (i <? numParams this)%nat = true).
  { apply Nat.ltb_lt. rewrite Hn. unfold getNumParams.
    apply nth_error_Some. congruence. }
  rewrite Hi, E. now destruct (isPointerToConst _).
Qed.

Lemma matchOut_at_end (FD : FunctionDecl) (this : Descriptor) (i : nat)
  (out : Trace) :
  (numParams this <= i)%nat ->
  matchOut FD this i out = Returned (this, i) out.
Proof.
  intros Hi. unfold matchOut. apply Nat.ltb_ge in Hi. now rewrite Hi.
Qed.

Lemma matchUsrData_at_end (FD : FunctionDecl) (this : Descriptor) (i : nat)
  (out : Trace) :
  (numParams this <= i)%nat ->
  matchUsrData FD this i out = Returned (this, i) out.
Proof.
  intros Hi. unfold matchUsrData. apply Nat.ltb_ge in Hi. now rewrite Hi.
Qed.

Lemma scanParams_cons (FD : FunctionDecl) (PVD : ParmVarDecl)
  (rest : list ParmVarDecl) (st st' : bool * Descriptor) (out out' : Trace) :
  scanParam FD PVD st out = Returned st' out' ->
  scanParams FD (PVD :: rest) st out = scanParams FD rest st' out'.
Proof. intros E. cbn [scanParams]. now apply bind_returned. Qed.

(** *** The whole of validateAndConstructParams *)

(** A non-root kernel on a target before JB: one report, and nothing but
    [numParams] is written. *)
Lemma validate_at_gate (Context : RSContext) (FD : FunctionDecl)
  (this : Descriptor) (out : Trace) :
  fdParams FD <> [] ->
  passes_gate Context FD = false ->
  validate Context FD this out =
    Returned (false, set_numParams this (getNumParams FD))
      (out ++ [Reported (mkError (fdLocation FD) msgNonRoot
                 [ArgString (fdName FD); ArgInt SLANG_MINIMUM_TARGET_API;
                  ArgInt (SLANG_JB_TARGET_API - 1)])]).
Proof.
  intros Hne Hg. unfold passesRootGate in Hg. apply negb_false_iff in Hg.
  unfold validateAndConstructParams, slangAssert, bind, getNumParams.
  destruct (fdParams FD) as [| p0 rest]; [congruence |].
  cbn [List.length numParams set_numParams Nat.ltb Nat.leb].
  now rewrite Hg.
Qed.

(** Past the gate: lines 79-184, then the encoding, then the check for
    targets before ICS. *)
Lemma validate_via_shape (Context : RSContext) (FD : FunctionDecl)
  (this this' : Descriptor) (valid : bool) (out out' : Trace) :
  passes_gate Context FD = true ->
  classifyShape FD (set_numParams this (getNumParams FD)) out =
    Returned (valid, this') out' ->
  validate Context FD this out =
    (v <- check_skip Context FD (setSignatureMetadata valid this') valid ;;
     ret (v, setSignatureMetadata valid this')) out'.
Proof.
  intros Hg E. unfold passesRootGate in Hg. apply negb_true_iff in Hg.
  unfold classifyShape in E.
  unfold validateAndConstructParams, slangAssert, getNumParams in *.
  destruct (fdParams FD) as [| p0 rest] eqn:Eparams.
  - unfold bind at 1 2, checkResultType, matchIn, getParamDecl in E.
    rewrite Eparams in E. cbn [nth_error] in E.
    destruct (if negb _ then _ else _) in E; discriminate E.
  - cbn [List.length numParams set_numParams Nat.ltb Nat.leb].
    unfold bind at 1. rewrite Hg.
    unfold bind in *.
    destruct (checkResultType FD true out) as [| v1 o1]; [discriminate |].
    destruct (matchIn _ _ _ o1) as [| [t2 i2] o2]; [discriminate |].
    destruct (matchOut _ _ _ o2) as [| [t3 i3] o3]; [discriminate |].
    destruct (checkInOrOut _ _ _ o3) as [| v4 o4]; [discriminate |].
    destruct (matchUsrData _ _ _ o4) as [| [t5 i5] o5]; [discriminate |].
    now rewrite E.
Qed.

Lemma validate_past_gate (Context : RSContext) (FD : FunctionDecl)
  (this : Descriptor) (out : Trace) :
  fdParams FD <> [] ->
  passes_gate Context FD = true ->
  exists valid this' shape,
    classifyShape FD (set_numParams this (getNumParams FD)) out =
      Returned (valid, this') (out ++ shape)
    /\ Forall (fun e => isShapeError e = true) shape
    /\ (valid = true <-> shape = [])
    /\ validate Context FD this out =
         (v <- check_skip Context FD (setSignatureMetadata valid this') valid ;;
          ret (v, setSignatureMetadata valid this')) (out ++ shape).
Proof.
  intros Hne Hg.
  destruct (classifyShape_run FD (set_numParams this (getNumParams FD)) out Hne)
    as (valid & this' & shape & E & F & V); [reflexivity |].
  exists valid, this', shape. repeat split; try assumption; try apply V.
  now apply validate_via_shape.
Qed.

(** The encoding of lines 186-194 mirrors the slots when [valid] holds and
    is zero otherwise. *)
Lemma setSignatureMetadata_valid (this : Descriptor) :
  mirrorsSlots (setSignatureMetadata true this)
  /\ mIn (setSignatureMetadata true this) = mIn this
  /\ mOut (setSignatureMetadata true this) = mOut this
  /\ mUsrData (setSignatureMetadata true this) = mUsrData this
  /\ mX (setSignatureMetadata true this) = mX this
  /\ mY (setSignatureMetadata true this) = mY this.
Proof.
  unfold mirrorsSlots, setSignatureMetadata.
  destruct this as [n pt it ot np sm i o u x y d]; cbn.
  destruct i, o, u, x, y; cbn; repeat split; lia.
Qed.

Lemma setSignatureMetadata_invalid (this : Descriptor) :
  mSignatureMetadata (setSignatureMetadata false this) = 0.
Proof. reflexivity. Qed.

Lemma checkSkip_run (Context : RSContext) (FD : FunctionDecl)
  (this : Descriptor) (valid : bool) (out : Trace) :
  check_skip Context FD this valid out =
    if (getTargetAPI Context <? SLANG_ICS_TARGET_API)
       && skipsParameters (mSignatureMetadata this)
    then Returned false (out ++ [may_not_skip FD])
    else Returned valid out.
Proof.
  unfold checkSkip, mayNotSkip, Report, emit, bind, ret.
  destruct (_ <? _); [| reflexivity]. now destruct (skipsParameters _).
Qed.

Lemma skipsParameters_spec (metadata : Z) :
  skipsParameters metadata = false <-> prefixComplete metadata.
Proof.
  unfold skipsParameters, prefixComplete.
  rewrite !andb_false_iff, !negb_false_iff, !Z.eqb_eq. tauto.
Qed.

Lemma shape_error_not_skip (e : Event) :
  isShapeError e = true -> isSkipError e = false.
Proof.
  destruct e as [[loc fmt args] | line]; cbn; [| reflexivity].
  rewrite !orb_true_iff, !String.eqb_eq.
  intros [[[-> | ->] | ->] | ->]; reflexivity.
Qed.

(** *** Claims on the loop body *)

Lemma scanParam_unsigned (FD : FunctionDecl) (PVD : ParmVarDecl)
  (st : bool * Descriptor) :
  getUnqualifiedType (pvdType PVD) = UnsignedIntTy ->
  scanParam FD PVD st =
    let '(valid, this) := st in
    if String.eqb (pvdName PVD) "x" then
      if isSome (mX this) then ReportNameError PVD ;; ret (false, this)
      else if isSome (mY this) then ReportNameError PVD ;; ret (false, this)
      else ret (valid, set_mX this (Some PVD))
    else if String.eqb (pvdName PVD) "y" then
      if isSome (mY this) then ReportNameError PVD ;; ret (false, this)
      else ret (valid, set_mY this (Some PVD))
    else
      if negb (isSome (mX this)) && negb (isSome (mY this)) then
        ret (valid, set_mX this (Some PVD))
      else if negb (isSome (mY this)) then
        ret (valid, set_mY this (Some PVD))
      else ReportUnexpected FD PVD ;; ret (false, this).
Proof.
  intros HT. destruct st as [valid this]. unfold scanParam, getCanonicalType.
  apply QualType_eqb_UnsignedIntTy in HT. now rewrite HT.
Qed.

(** C3 (as amended). In the coordinate scan, an unsigned-integer
    parameter named neither "x" nor "y" is assigned to CoordX only when
    both CoordX and CoordY are empty, otherwise to CoordY when CoordY is
    empty, and otherwise (CoordY occupied, whatever CoordX is) it is
    reported as an unexpected parameter and no slot changes. *)
Theorem unnamed_coordinate_assignment (FD : FunctionDecl) (PVD : ParmVarDecl)
  (valid : bool) (this : Descriptor) (out : Trace) :
  getUnqualifiedType (pvdType PVD) = UnsignedIntTy ->
  pvdName PVD <> "x" ->
  pvdName PVD <> "y" ->
  (mX this = None -> mY this = None ->
   scanParam FD PVD (valid, this) out =
     Returned (valid, set_mX this (Some PVD)) out)
  /\ (mX this <> None -> mY this = None ->
      scanParam FD PVD (valid, this) out =
        Returned (valid, set_mY this (Some PVD)) out)
  /\ (mY this <> None ->
      scanParam FD PVD (valid, this) out =
        Returned (false, this)
          (out ++ [Reported (mkError (pvdLocation PVD) msgUnexpected
                     [ArgString (fdName FD); ArgString (pvdName PVD);
                      ArgType (pvdType PVD)])])).
Proof.
  intros HT Hx Hy. rewrite (scanParam_unsigned FD PVD (valid, this) HT).
  apply String.eqb_neq in Hx, Hy. rewrite Hx, Hy.
  repeat split.
  - now intros -> ->.
  - intros HX ->. now destruct (mX this).
  - intros HY. destruct (mY this); [| congruence].
    now destruct (mX this).
Qed.

(** C7. In the coordinate scan, an unsigned-integer parameter named
    exactly "x" is rejected with the duplicate-entry report when CoordX
    is occupied, however it came to be, and also when CoordX is empty
    and CoordY is occupied; no slot changes. *)
Theorem named_x_rejected (FD : FunctionDecl) (PVD : ParmVarDecl)
  (valid : bool) (this : Descriptor) (out : Trace) :
  getUnqualifiedType (pvdType PVD) = UnsignedIntTy ->
  pvdName PVD = "x" ->
  mX this <> None \/ (mX this = None /\ mY this <> None) ->
  scanParam FD PVD (valid, this) out =
    Returned (false, this)
      (out ++ [Reported (mkError (pvdLocation PVD) msgDuplicate
                 [ArgString "x"])]).
Proof.
  intros HT Hx H. rewrite (scanParam_unsigned FD PVD (valid, this) HT).
  unfold ReportNameError. rewrite Hx. cbn [String.eqb Ascii.eqb Bool.eqb].
  destruct H as [H | [-> H]].
  - destruct (mX this); [reflexivity | congruence].
  - destruct (mY this); [reflexivity | congruence].
Qed.

(** *** Claims on the check for targets before ICS *)

(** C5. On a target before ICS, the check of lines 196-214 lets a bitmask
    through (no report, [valid] unchanged) exactly when it is one of
    0x01, 0x03, 0x07, 0x0F, 0x1F, and reports and fails otherwise; on a
    target at or after ICS it lets every bitmask through. 0x07 is among
    the five and 0x0B is not. *)
Theorem generation_check (Context : RSContext) (FD : FunctionDecl)
  (this : Descriptor) (valid : bool) (out : Trace) :
  (getTargetAPI Context < SLANG_ICS_TARGET_API ->
   (check_skip Context FD this valid out = Returned valid out
    <-> prefixComplete (mSignatureMetadata this))
   /\ (~ prefixComplete (mSignatureMetadata this) ->
       check_skip Context FD this valid out =
         Returned false (out ++ [may_not_skip FD])))
  /\ (SLANG_ICS_TARGET_API <= getTargetAPI Context ->
      check_skip Context FD this valid out = Returned valid out)
  /\ prefixComplete 0x07
  /\ ~ prefixComplete 0x0b.
Proof.
  rewrite checkSkip_run. repeat split.
  - apply Z.ltb_lt in H. rewrite H. cbn [andb].
    destruct (skipsParameters _) eqn:E.
    + intros Hr. exfalso. inversion Hr as [[Hv Ho]].
      apply (f_equal (@List.length Event)) in Ho.
      rewrite length_app in Ho. cbn in Ho. lia.
    + intros _. now apply skipsParameters_spec.
  - intros Hp. apply Z.ltb_lt in H. rewrite H.
    apply skipsParameters_spec in Hp. now rewrite Hp.
  - intros Hp. apply Z.ltb_lt in H. rewrite H. cbn [andb].
    destruct (skipsParameters _) eqn:E; [reflexivity |].
    now apply skipsParameters_spec in E.
  - intros H. apply Z.ltb_ge in H. now rewrite H.
  - right. right. left. reflexivity.
  - intros [H | [H | [H | [H | H]]]]; discriminate H.
Qed.

(** *** Claims on the graphics root *)

(** C8. [isGraphicsRootRSFunc] holds exactly for a function with the
    root name that either has no parameter, or has one parameter and the
    return type [int] on a target before ICS. *)
Theorem graphics_root_iff (targetAPI : Z) (FD : FunctionDecl) :
  graphics_root targetAPI FD = true
  <-> isRootRSFunc FD = true
      /\ (getNumParams FD = 0%nat
          \/ (targetAPI < SLANG_ICS_TARGET_API
              /\ getNumParams FD = 1%nat
              /\ fdResultType FD = IntTy)).
Proof.
  unfold isGraphicsRootRSFunc, getCanonicalType.
  destruct (isRootRSFunc FD); cbn [negb]; [| split; [discriminate | tauto]].
  destruct (getNumParams FD =? 0)%nat eqn:E0.
  - apply Nat.eqb_eq in E0. tauto.
  - apply Nat.eqb_neq in E0.
    destruct (targetAPI <? SLANG_ICS_TARGET_API) eqn:EA; cbn [andb].
    + apply Z.ltb_lt in EA.
      destruct (getNumParams FD =? 1)%nat eqn:E1.
      * apply Nat.eqb_eq in E1.
        destruct (QualType_eqb (fdResultType FD) IntTy) eqn:ER.
        -- apply QualType_eqb_IntTy in ER. tauto.
        -- split; [discriminate |]. intros [_ [H | (_ & _ & H)]];
             [contradiction |].
           apply QualType_eqb_IntTy in H. congruence.
      * apply Nat.eqb_neq in E1. split; [discriminate |].
        intros [_ [H | (_ & H & _)]]; contradiction.
    + apply Z.ltb_ge in EA. split; [discriminate |].
      intros [_ [H | (H & _)]]; [contradiction | lia].
Qed.

(** *** Claims on the whole classification *)

Lemma validate_without_parameter (Context : RSContext) (FD : FunctionDecl)
  (this : Descriptor) (out : Trace) :
  fdParams FD = [] ->
  validate Context FD this out = Aborted "numParams > 0" out.
Proof.
  intros E. unfold validateAndConstructParams, slangAssert, bind, getNumParams.
  now rewrite E.
Qed.

(** C10. On a function without parameters, [validateAndConstructParams]
    stops at its assertion [numParams > 0] before it reports anything;
    the read of parameter 0 at lines 92-93 is under no test and would
    fail as well; and [Create] ends in a failed assertion too, never in
    a diagnostic. *)
Theorem no_parameter_is_an_assertion (Context : RSContext)
  (FD : FunctionDecl) (this : Descriptor) (out : Trace) :
  getNumParams FD = 0%nat ->
  validate Context FD this out = Aborted "numParams > 0" out
  /\ matchIn FD this 0 out = Aborted "i < getNumParams()" out
  /\ exists text, create Context FD out = Aborted text out.
Proof.
  unfold getNumParams. intros H0.
  destruct (fdParams FD) as [| p0 rest] eqn:E; [clear H0 | discriminate].
  split; [now apply validate_without_parameter |]. split.
  - unfold matchIn, getParamDecl, bind. now rewrite E.
  - unfold Create, slangAssert, bind at 1.
    destruct (negb _); [| now eexists].
    unfold bind at 1. rewrite validate_without_parameter by exact E.
    now eexists.
Qed.

(** C4 (as amended). A classification of a new descriptor returns once
    the function has a parameter. If anything but the report of skipped
    parameters was recorded, it fails and [signatureMetadata] is 0. If
    nothing else was recorded, [signatureMetadata] is computed from the
    role slots: a rejection by the check for targets before ICS alone
    leaves the computed bitmask in place. *)
Theorem metadata_after_classification (Context : RSContext)
  (FD : FunctionDecl) (Name : string) (out : Trace) :
  fdParams FD <> [] ->
  exists valid this' new,
    validate Context FD (new_RSExportForEach RSExportType Context Name) out =
      Returned (valid, this') (out ++ new)
    /\ ((exists e, In e new /\ isSkipError e = false) ->
        valid = false /\ mSignatureMetadata this' = 0)
    /\ ((forall e, In e new -> isSkipError e = true) ->
        mirrorsSlots this'
        /\ (valid = true <-> new = [])).
Proof.
  intros Hne. destruct (passes_gate Context FD) eqn:Hg.
  - destruct (validate_past_gate Context FD
                (new_RSExportForEach RSExportType Context Name) out Hne Hg)
      as (validS & thisS & shape & _ & F & V & E).
    rewrite E. unfold bind at 1. rewrite checkSkip_run. unfold ret.
    rewrite Forall_forall in F.
    destruct (_ && _) eqn:Ec.
    + exists false, (setSignatureMetadata validS thisS),
        (shape ++ [may_not_skip FD]).
      split; [now rewrite app_assoc |]. split.
      * intros (e & Hin & He). split; [reflexivity |].
        apply in_app_or in Hin as [Hin | [<- | []]]; [| discriminate He].
        destruct validS; [| reflexivity].
        destruct V as [V _]. rewrite V in Hin by reflexivity. destruct Hin.
      * intros Hall. assert (Hs : shape = []).
        { destruct shape as [| e shape]; [reflexivity |].
          assert (He : isSkipError e = true)
            by (apply Hall; now left).
          rewrite shape_error_not_skip in He; [discriminate |].
          apply F. now left. }
        destruct V as [_ V]. rewrite (V Hs). split.
        -- apply setSignatureMetadata_valid.
        -- subst shape. split; discriminate.
    + exists validS, (setSignatureMetadata validS thisS), shape.
      split; [reflexivity |]. split.
      * intros (e & Hin & He). destruct validS; [| now split].
        destruct V as [V _]. rewrite V in Hin by reflexivity. destruct Hin.
      * intros Hall. assert (Hs : shape = []).
        { destruct shape as [| e shape]; [reflexivity |].
          assert (He : isSkipError e = true)
            by (apply Hall; now left).
          rewrite shape_error_not_skip in He; [discriminate |].
          apply F. now left. }
        destruct V as [V1 V2]. rewrite (V2 Hs). split.
        -- apply setSignatureMetadata_valid.
        -- now subst shape.
  - rewrite (validate_at_gate Context FD _ out Hne Hg).
    eexists _, _, _. split; [reflexivity |]. split.
    + intros _. now split.
    + intros Hall. specialize (Hall _ (or_introl eq_refl)). discriminate Hall.
Qed.

(** C9. On a target before ICS, a classification returns once the
    function has a parameter, and if it recorded a shape error, then it
    failed, [signatureMetadata] is 0, and the report that parameters may
    not be skipped was emitted as well, after the shape errors. *)
Theorem shape_error_adds_skip_report (Context : RSContext)
  (FD : FunctionDecl) (this : Descriptor) (out : Trace) :
  fdParams FD <> [] ->
  getTargetAPI Context < SLANG_ICS_TARGET_API ->
  exists valid this' new,
    validate Context FD this out = Returned (valid, this') (out ++ new)
    /\ ((exists e, In e new /\ isShapeError e = true) ->
        valid = false
        /\ mSignatureMetadata this' = 0
        /\ exists shape,
             new = shape ++ [may_not_skip FD]
             /\ shape <> []
             /\ Forall (fun e => isShapeError e = true) shape).
Proof.
  intros Hne Hapi. destruct (passes_gate Context FD) eqn:Hg.
  - destruct (validate_past_gate Context FD this out Hne Hg)
      as (validS & thisS & shape & _ & F & V & E).
    rewrite E. unfold bind at 1. rewrite checkSkip_run. unfold ret.
    apply Z.ltb_lt in Hapi. rewrite Hapi. cbn [andb].
    destruct validS.
    + destruct V as [V _]. rewrite V by reflexivity. rewrite app_nil_r.
      destruct (skipsParameters _);
        [exists false, (setSignatureMetadata true thisS), [may_not_skip FD]
        | exists true, (setSignatureMetadata true thisS), [];
          rewrite app_nil_r];
        (split; [reflexivity |]); intros (e & Hin & He).
      * destruct Hin as [<- | []]. discriminate He.
      * destruct Hin.
    + cbn [setSignatureMetadata set_mSignatureMetadata mSignatureMetadata
             skipsParameters Z.eqb negb andb].
      exists false, (set_mSignatureMetadata thisS 0),
        (shape ++ [may_not_skip FD]).
      split; [now rewrite app_assoc |]. intros _.
      split; [reflexivity |]. split; [reflexivity |].
      exists shape. split; [reflexivity |]. split; [| exact F].
      intros Hs. destruct V as [_ V]. now discriminate (V Hs).
  - rewrite (validate_at_gate Context FD this out Hne Hg).
    eexists _, _, _. split; [reflexivity |].
    intros (e & [<- | []] & He). discriminate He.
Qed.

(** C6 (as amended). For a function that passes the gate on non-root
    kernels (it is the root function, or the target is JB or later),
    returns void and has the parameters (pointer to const, pointer to
    non-const, pointer to const, unsigned int "x", unsigned int "y"),
    classification succeeds without a report, with signatureMetadata
    0x1F and the five parameters in the slots Input, Output, UserData,
    CoordX, CoordY in that order. *)
Theorem full_signature_classified (Context : RSContext) (FD : FunctionDecl)
  (Name : string) (out : Trace) (a b c x y : ParmVarDecl) :
  passes_gate Context FD = true ->
  fdResultType FD = VoidTy ->
  fdParams FD = [a; b; c; x; y] ->
  isPointerToConst (pvdType a) = true ->
  isPointerToNonConst (pvdType b) = true ->
  isPointerToConst (pvdType c) = true ->
  getUnqualifiedType (pvdType x) = UnsignedIntTy ->
  pvdName x = "x" ->
  getUnqualifiedType (pvdType y) = UnsignedIntTy ->
  pvdName y = "y" ->
  validate Context FD (new_RSExportForEach RSExportType Context Name) out =
    Returned
      (true,
       mkRSExportForEach Name None None None 5%nat 0x1f
         (Some a) (Some b) (Some c) (Some x) (Some y) false)
      out.
Proof.
  intros Hg Hres Hparams Ha Hb Hc Hx Hxn Hy Hyn.
  assert (Hn : getNumParams FD = 5%nat)
    by (unfold getNumParams; now rewrite Hparams).
  set (this0 := set_numParams (new_RSExportForEach RSExportType Context Name)
                  (getNumParams FD)).
  assert (Hshape :
    classifyShape FD this0 out =
      Returned (true,
                set_mY (set_mX (set_mUsrData (set_mOut (set_mIn this0 (Some a))
                  (Some b)) (Some c)) (Some x)) (Some y)) out).
  { unfold classifyShape.
    assert (E1 : checkResultType FD true out = Returned true out)
      by (now rewrite checkResultType_eq, Hres).
    run_block E1.
    run_block (matchIn_run FD this0 out _ _ Hparams). rewrite Ha.
    assert (E2 : nth_error (fdParams FD) 1 = Some b) by now rewrite Hparams.
    run_block (matchOut_at FD (set_mIn this0 (Some a)) 1 out b E2 eq_refl).
    rewrite Hb.
    run_block (checkInOrOut_eq FD (set_mOut (set_mIn this0 (Some a)) (Some b))
                 true out).
    assert (E3 : nth_error (fdParams FD) 2 = Some c) by now rewrite Hparams.
    run_block (matchUsrData_at FD
                 (set_mOut (set_mIn this0 (Some a)) (Some b)) 2 out c E3 eq_refl).
    rewrite Hc, Hparams. cbn [skipn].
    erewrite scanParams_cons
      by (rewrite (scanParam_unsigned FD x _ Hx), Hxn; reflexivity).
    erewrite scanParams_cons
      by (rewrite (scanParam_unsigned FD y _ Hy), Hyn; reflexivity).
    reflexivity. }
  rewrite (validate_via_shape Context FD _ _ _ out _ Hg Hshape).
  unfold bind, ret. rewrite checkSkip_run.
  subst this0. rewrite Hn.
  destruct (getTargetAPI Context <? SLANG_ICS_TARGET_API);
    vm_compute; reflexivity.
Qed.

(** *** When neither in nor out is found *)

(** Lines 112-184 write neither [mIn] nor [mOut]. *)
Lemma shape_tail_keeps_in_out (FD : FunctionDecl) (this this' : Descriptor)
  (i : nat) (valid valid' : bool) (out out' : Trace) :
  numParams this = getNumParams FD ->
  (valid <- checkInOrOut FD this valid ;;
   '(this, i) <- matchUsrData FD this i ;;
   scanParams FD (skipn i (fdParams FD)) (valid, this)) out =
    Returned (valid', this') out' ->
  mIn this' = mIn this /\ mOut this' = mOut this.
Proof.
  intros Hn E.
  destruct (checkInOrOut_run FD this valid out) as (v3 & n3 & E3 & _).
  rewrite (bind_returned _ _ _ _ _ E3) in E.
  destruct (matchUsrData_run FD this i (out ++ n3) Hn)
    as (t4 & i4 & E4 & _ & S4).
  rewrite (bind_returned _ _ _ _ _ E4) in E. cbv beta iota in E.
  destruct (scanParams_run FD (skipn i4 (fdParams FD)) v3 t4 (out ++ n3))
    as (v5 & t5 & n5 & E5 & _ & _ & _ & S5).
  rewrite E5 in E. injection E as _ <- _.
  split.
  - transitivity (mIn t4).
    + now rewrite <- S5.
    + now rewrite <- S4.
  - transitivity (mOut t4).
    + now rewrite <- S5.
    + now rewrite <- S4.
Qed.

(** A pointer at position 0 ends up in [mIn] or in [mOut]. *)
Lemma classifyShape_pointer_first (FD : FunctionDecl) (this this' : Descriptor)
  (valid : bool) (out out' : Trace) (p0 : ParmVarDecl)
  (rest : list ParmVarDecl) :
  fdParams FD = p0 :: rest ->
  numParams this = getNumParams FD ->
  isPointerType (pvdType p0) = true ->
  classifyShape FD this out = Returned (valid, this') out' ->
  mIn this' = Some p0 \/ mOut this' = Some p0.
Proof.
  intros Hp Hn Hptr E. unfold classifyShape in E.
  destruct (checkResultType_run FD true out) as (v1 & n1 & E1 & _).
  rewrite (bind_returned _ _ _ _ _ E1) in E.
  rewrite (bind_returned _ _ _ _ _ (matchIn_run FD this (out ++ n1) p0 rest Hp))
    in E.
  destruct (isPointerToConst (pvdType p0)) eqn:Hc; cbv beta iota in E.
  - destruct (matchOut_run FD (set_mIn this (Some p0)) 1 (out ++ n1) Hn)
      as (t2 & i2 & E2 & Hn2 & S2).
    rewrite (bind_returned _ _ _ _ _ E2) in E. cbv beta iota in E.
    apply shape_tail_keeps_in_out in E as [EI _];
      [| now rewrite Hn2].
    left. rewrite EI. transitivity (mIn (set_mOut t2 (mOut (set_mIn this (Some p0)))));
      [reflexivity | now rewrite S2].
  - assert (Hnc : isPointerToNonConst (pvdType p0) = true).
    { rewrite (pointer_const_or_not _ Hptr) in Hc.
      now apply negb_false_iff in Hc. }
    assert (E0 : nth_error (fdParams FD) 0 = Some p0) by now rewrite Hp.
    rewrite (bind_returned _ _ _ _ _ (matchOut_at FD this 0 (out ++ n1) p0 E0 Hn))
      in E.
    rewrite Hnc in E. cbv beta iota in E.
    apply shape_tail_keeps_in_out in E as [_ EO]; [| exact Hn].
    right. now rewrite EO.
Qed.

(** Without a pointer at position 0, lines 79-130 report the missing in
    and out after the return type, assign nothing and leave [i] at 0:
    the loop then runs over all the parameters. *)
Lemma classifyShape_no_pointer (FD : FunctionDecl) (this : Descriptor)
  (out : Trace) (p0 : ParmVarDecl) (rest : list ParmVarDecl) :
  fdParams FD = p0 :: rest ->
  numParams this = getNumParams FD ->
  isPointerType (pvdType p0) = false ->
  mIn this = None ->
  mOut this = None ->
  classifyShape FD this out =
    scanParams FD (fdParams FD) (false, this)
      (out
       ++ (if QualType_eqb (fdResultType FD) VoidTy then []
           else [Reported (mkError (fdLocation FD) msgReturnVoid
                   [ArgString (fdName FD)])])
       ++ [Reported (mkError (fdLocation FD) msgInOrOut
              [ArgString (fdName FD)])]).
Proof.
  intros Hp Hn Hptr HI HO. unfold classifyShape.
  destruct (not_pointer_neither _ Hptr) as [Hc Hnc].
  assert (E0 : nth_error (fdParams FD) 0 = Some p0) by now rewrite Hp.
  set (out1 := out ++ (if QualType_eqb (fdResultType FD) VoidTy then []
                       else [Reported (mkError (fdLocation FD) msgReturnVoid
                               [ArgString (fdName FD)])])).
  assert (E1 : exists v1, checkResultType FD true out = Returned v1 out1).
  { rewrite checkResultType_eq. subst out1.
    destruct (QualType_eqb _ _); eexists; [now rewrite app_nil_r | reflexivity]. }
  destruct E1 as [v1 E1]. run_block E1.
  run_block (matchIn_run FD this out1 p0 rest Hp). rewrite Hc.
  run_block (matchOut_at FD this 0 out1 p0 E0 Hn). rewrite Hnc.
  assert (E3 : checkInOrOut FD this v1 out1 =
               Returned false
                 (out1 ++ [Reported (mkError (fdLocation FD) msgInOrOut
                              [ArgString (fdName FD)])]))
    by (now rewrite checkInOrOut_eq, HI, HO).
  run_block E3.
  run_block (matchUsrData_at FD this 0
               (out1 ++ [Reported (mkError (fdLocation FD) msgInOrOut
                            [ArgString (fdName FD)])]) p0 E0 Hn).
  rewrite Hc. cbn [skipn]. subst out1. now rewrite <- app_assoc.
Qed.

(** C2 (as amended). Past the gate on non-root kernels, a classification
    of a new descriptor that ends with neither Input nor Output assigned
    has recorded the "must have at least one parameter for in or out"
    error, after the return-type error if there was one, fails, and
    leaves signatureMetadata 0 and UserData unassigned. The scan for
    coordinates is not skipped: it runs over all the parameters from
    position 0, may assign CoordX and CoordY and may record further
    errors, and the check for targets before ICS follows it. *)
Theorem missing_in_and_out (Context : RSContext) (FD : FunctionDecl)
  (Name : string) (out : Trace) :
  passes_gate Context FD = true ->
  fdParams FD <> [] ->
  exists valid this' new,
    validate Context FD (new_RSExportForEach RSExportType Context Name) out =
      Returned (valid, this') (out ++ new)
    /\ (mIn this' = None -> mOut this' = None ->
        let this0 :=
          set_numParams (new_RSExportForEach RSExportType Context Name)
            (getNumParams FD) in
        let pre :=
          (if QualType_eqb (fdResultType FD) VoidTy then []
           else [Reported (mkError (fdLocation FD) msgReturnVoid
                   [ArgString (fdName FD)])])
          ++ [Reported (mkError (fdLocation FD) msgInOrOut
                 [ArgString (fdName FD)])] in
        valid = false
        /\ mSignatureMetadata this' = 0
        /\ mUsrData this' = None
        /\ exists this1 scanned,
             scanParams FD (fdParams FD) (false, this0) (out ++ pre) =
               Returned (false, this1) ((out ++ pre) ++ scanned)
             /\ this' = setSignatureMetadata false this1
             /\ new = pre ++ scanned
                      ++ (if getTargetAPI Context <? SLANG_ICS_TARGET_API
                          then [may_not_skip FD] else [])).
Proof.
  intros Hg Hne.
  set (this0 := set_numParams (new_RSExportForEach RSExportType Context Name)
                  (getNumParams FD)).
  destruct (validate_past_gate Context FD
              (new_RSExportForEach RSExportType Context Name) out Hne Hg)
    as (validS & thisS & shape & ES & _ & _ & E).
  fold this0 in ES.
  assert (Hret : exists valid new,
             validate Context FD
               (new_RSExportForEach RSExportType Context Name) out =
               Returned (valid, setSignatureMetadata validS thisS) (out ++ new)).
  { rewrite E. unfold bind, ret. rewrite checkSkip_run.
    destruct (_ && _); eexists _, _;
      [rewrite <- app_assoc |]; reflexivity. }
  destruct Hret as (valid & new & Hret).
  exists valid, (setSignatureMetadata validS thisS), new.
  split; [exact Hret |].
  intros HI HO.
  destruct (fdParams FD) as [| p0 rest] eqn:Hp; [congruence |].
  assert (HI' : mIn thisS = None) by (now destruct validS).
  assert (HO' : mOut thisS = None) by (now destruct validS).
  destruct (isPointerType (pvdType p0)) eqn:Hptr.
  { destruct (classifyShape_pointer_first FD this0 thisS validS out
                (out ++ shape) p0 rest Hp eq_refl Hptr ES); congruence. }
  rewrite (classifyShape_no_pointer FD this0 out p0 rest Hp eq_refl Hptr
             eq_refl eq_refl) in ES.
  rewrite Hp in ES. cbv zeta.
  match type of ES with
  | scanParams _ _ _ (out ++ ?p) = _ => set (pre := p) in *
  end.
  destruct (scanParams_run FD (p0 :: rest) false this0 (out ++ pre))
    as (v5 & this1 & scanned & E5 & _ & V5 & W5 & S5).
  assert (Hv5 : v5 = false).
  { destruct scanned; [now apply V5 | now apply W5]. }
  subst v5. rewrite E5 in ES. injection ES as <- <- Hshape.
  rewrite E in Hret. unfold bind, ret in Hret. rewrite checkSkip_run in Hret.
  rewrite <- Hshape in Hret.
  change (skipsParameters
            (mSignatureMetadata (setSignatureMetadata false this1)))
    with true in Hret.
  rewrite andb_true_r in Hret.
  assert (HU : mUsrData this1 = None).
  { transitivity (mUsrData (set_mY (set_mX this1 (mX this0)) (mY this0)));
      [reflexivity | now rewrite S5]. }
  destruct (getTargetAPI Context <? SLANG_ICS_TARGET_API);
    injection Hret as <- Hnew;
    (split; [reflexivity |]); (split; [reflexivity |]);
    (split; [exact HU |]);
    exists this1, scanned;
    (split; [exact E5 |]); (split; [reflexivity |]).
  - rewrite <- !app_assoc in Hnew. now apply app_inv_head in Hnew.
  - rewrite <- !app_assoc in Hnew. apply app_inv_head in Hnew.
    now rewrite app_nil_r.
Qed.

(** *** Create *)

(** A classification that returns true has encoded the slots. *)
Lemma validate_true_mirrors (Context : RSContext) (FD : FunctionDecl)
  (this this' : Descriptor) (out out' : Trace) :
  validate Context FD this out = Returned (true, this') out' ->
  mirrorsSlots this'.
Proof.
  intros E. destruct (fdParams FD) as [| p0 rest] eqn:Hp.
  - rewrite (validate_without_parameter Context FD this out Hp) in E.
    discriminate E.
  - assert (Hne : fdParams FD <> []) by (rewrite Hp; discriminate).
    destruct (passes_gate Context FD) eqn:Hg.
    + destruct (validate_past_gate Context FD this out Hne Hg)
        as (validS & thisS & shape & _ & _ & _ & E').
      rewrite E' in E. unfold bind, ret in E. rewrite checkSkip_run in E.
      destruct (_ && _); [discriminate E |].
      injection E as -> <- _. apply setSignatureMetadata_valid.
    + rewrite (validate_at_gate Context FD this out Hne Hg) in E.
      discriminate E.
Qed.

(** Lines 239-291 write [mUsrData] (to NULL, for a pointer to void) or
    [mParamPacketType], and nothing else. *)
Lemma extractUsrData_slots (Context : RSContext) (FE FE' : Descriptor)
  (Id : string) (out out' : Trace) :
  extractUsrData getClass RSExportType_Create Context FE Id out =
    Returned (Some FE') out' ->
  mSignatureMetadata FE' = mSignatureMetadata FE
  /\ mIn FE' = mIn FE /\ mOut FE' = mOut FE
  /\ mX FE' = mX FE /\ mY FE' = mY FE
  /\ (mUsrData FE' = mUsrData FE
      \/ (mUsrData FE' = None
          /\ exists PVD Pointee,
               mUsrData FE = Some PVD
               /\ getPointeeType (pvdType PVD) = Some Pointee
               /\ getUnqualifiedType Pointee = VoidTy)).
Proof.
  unfold extractUsrData, slangAssert, fprintf_stderr, emit, getCanonicalType,
    bind, ret.
  destruct (mUsrData FE) as [PVD |] eqn:EU.
  - destruct (isPointerToConst (pvdType PVD)); [| discriminate].
    destruct (getPointeeType (pvdType PVD)) as [Pointee |] eqn:EP;
      [| discriminate].
    destruct (QualType_eqb (getUnqualifiedType Pointee) VoidTy) eqn:EV.
    + intros E. injection E as <- _. repeat split.
      right. split; [reflexivity |]. exists PVD, Pointee.
      repeat split; try assumption. now apply QualType_eqb_VoidTy.
    + destruct (RSExportType_Create _ _ _) as [| [ET |] o]; try discriminate.
      destruct (isExportClassRecord _); [| discriminate].
      intros E. injection E as <- _. repeat split. now left.
  - intros E. injection E as <- _. repeat split. now left.
Qed.

Lemma exportIn_slots (Context : RSContext) (FE FE' : Descriptor)
  (out out' : Trace) :
  exportIn RSExportType_Create Context FE out = Returned FE' out' ->
  set_mInType FE' (mInType FE) = FE.
Proof.
  unfold exportIn, bind, ret. destruct (mIn FE).
  - destruct (RSExportType_Create _ _ _); [discriminate |].
    intros E. injection E as <- _. now destruct FE.
  - intros E. injection E as <- _. now destruct FE.
Qed.

Lemma exportOut_slots (Context : RSContext) (FE FE' : Descriptor)
  (out out' : Trace) :
  exportOut RSExportType_Create Context FE out = Returned FE' out' ->
  set_mOutType FE' (mOutType FE) = FE.
Proof.
  unfold exportOut, bind, ret. destruct (mOut FE).
  - destruct (RSExportType_Create _ _ _); [discriminate |].
    intros E. injection E as <- _. now destruct FE.
  - intros E. injection E as <- _. now destruct FE.
Qed.

(** C1 (as amended). A descriptor that [Create] returns comes from a
    classification that returned true, and its signatureMetadata is the
    one that classification computed: bit 0x01 is set iff Input is
    occupied, 0x02 iff Output, 0x08 iff CoordX, 0x10 iff CoordY, and bit
    0x04 is set iff the classification assigned UserData. The UserData
    slot of the descriptor is that of the classification, or has been
    cleared because the pointee is void, in which case bit 0x04 stays
    set. *)
Theorem create_signature_metadata (Context : RSContext) (FD : FunctionDecl)
  (FE : Descriptor) (out out' : Trace) :
  create Context FD out = Returned (Some FE) out' ->
  exists FE0 out0,
    validate Context FD (new_RSExportForEach RSExportType Context (fdName FD))
      out = Returned (true, FE0) out0
    /\ mSignatureMetadata FE = mSignatureMetadata FE0
    /\ hasBit (mSignatureMetadata FE) 0x01 = isSome (mIn FE)
    /\ hasBit (mSignatureMetadata FE) 0x02 = isSome (mOut FE)
    /\ hasBit (mSignatureMetadata FE) 0x04 = isSome (mUsrData FE0)
    /\ hasBit (mSignatureMetadata FE) 0x08 = isSome (mX FE)
    /\ hasBit (mSignatureMetadata FE) 0x10 = isSome (mY FE)
    /\ (mUsrData FE = mUsrData FE0
        \/ (mUsrData FE = None
            /\ exists PVD Pointee,
                 mUsrData FE0 = Some PVD
                 /\ getPointeeType (pvdType PVD) = Some Pointee
                 /\ getUnqualifiedType Pointee = VoidTy)).
Proof.
  unfold Create, slangAssert. unfold bind at 1.
  destruct (negb _); [| discriminate].
  unfold bind at 1.
  destruct (validate _ _ _ _) as [| [ok FE0] out0] eqn:EV; [discriminate |].
  destruct ok; cbn [negb]; [| discriminate].
  unfold bind at 1.
  destruct (extractUsrData _ _ _ _ _ _) as [| [FE1 |] out1] eqn:EX;
    try discriminate.
  unfold bind at 1.
  destruct (exportIn _ _ _ _) as [| FE2 out2] eqn:EI; [discriminate |].
  unfold bind at 1.
  destruct (exportOut _ _ _ _) as [| FE3 out3] eqn:EO; [discriminate |].
  intros E. injection E as <- _.
  apply validate_true_mirrors in EV as HM.
  apply extractUsrData_slots in EX as (X0 & X1 & X2 & X3 & X4 & X5).
  apply exportIn_slots in EI. apply exportOut_slots in EO.
  assert (H3 : mSignatureMetadata FE3 = mSignatureMetadata FE1
               /\ mIn FE3 = mIn FE1 /\ mOut FE3 = mOut FE1
               /\ mUsrData FE3 = mUsrData FE1
               /\ mX FE3 = mX FE1 /\ mY FE3 = mY FE1).
  { rewrite <- EI, <- EO. now destruct FE3. }
  destruct H3 as (Y0 & Y1 & Y2 & Y5 & Y3 & Y4).
  destruct HM as (M1 & M2 & M4 & M8 & M16 & _).
  exists FE0, out0. split; [reflexivity |].
  rewrite Y0, Y1, Y2, Y3, Y4, Y5, X0, X1, X2, X3, X4.
  repeat (split; [assumption || reflexivity |]).
  exact X5.
Qed.

(** ** Further facts *)

Variable isInitRSFunc : FunctionDecl -> bool.
Variable isDtorRSFunc : FunctionDecl -> bool.

Local Abbreviation special :=
  (validateSpecialFuncDecl SLANG_ICS_TARGET_API isRootRSFunc isInitRSFunc
     isDtorRSFunc).
Local Abbreviation for_each := (isRSForEachFunc SLANG_ICS_TARGET_API isRootRSFunc).

(** *** A loop that keeps [valid] *)

Lemma scanParam_success (FD : FunctionDecl) (PVD : ParmVarDecl) (valid : bool)
  (this this' : Descriptor) (out out' : Trace) :
  scanParam FD PVD (valid, this) out = Returned (true, this') out' ->
  valid = true /\ out' = out
  /\ isUnsignedInt (getCanonicalType (pvdType PVD)) = true
  /\ ((mX this = None /\ mY this = None /\ this' = set_mX this (Some PVD))
      \/ (mY this = None /\ this' = set_mY this (Some PVD))).
Proof.
  unfold scanParam, ReportUnexpected, ReportNameError, Report, emit, bind, ret,
    isUnsignedInt.
  destruct (QualType_eqb _ UnsignedIntTy); cbn [negb]; [| discriminate].
  destruct (String.eqb (pvdName PVD) "x").
  - destruct (mX this) eqn:EX; cbn [isSome]; [discriminate |].
    destruct (mY this) eqn:EY; cbn [isSome]; [discriminate |].
    intros E. injection E as -> <- <-. repeat split. now left.
  - destruct (String.eqb (pvdName PVD) "y").
    + destruct (mY this) eqn:EY; cbn [isSome]; [discriminate |].
      intros E. injection E as -> <- <-. repeat split. now right.
    + destruct (mX this) eqn:EX, (mY this) eqn:EY; cbn [isSome negb andb];
        try discriminate; intros E; injection E as -> <- <-; repeat split;
        [now right | now left].
Qed.

Lemma scanParams_true (FD : FunctionDecl) (rest : list ParmVarDecl)
  (valid : bool) (this this' : Descriptor) (out out' : Trace) :
  scanParams FD rest (valid, this) out = Returned (true, this') out' ->
  valid = true /\ out' = out.
Proof.
  intros E.
  destruct (scanParams_run FD rest valid this out)
    as (v & t & new & E' & _ & V & W & _).
  rewrite E' in E. injection E as -> _ <-.
  destruct new as [| e new].
  - rewrite app_nil_r. split; [| reflexivity]. symmetry. now apply V.
  - discriminate W. discriminate.
Qed.

Lemma scanParams_cons_true (FD : FunctionDecl) (PVD : ParmVarDecl)
  (rest : list ParmVarDecl) (valid : bool) (this this' : Descriptor)
  (out out' : Trace) :
  scanParams FD (PVD :: rest) (valid, this) out = Returned (true, this') out' ->
  exists this1,
    scanParam FD PVD (valid, this) out = Returned (true, this1) out
    /\ scanParams FD rest (true, this1) out = Returned (true, this') out'.
Proof.
  intros E.
  destruct (scanParam_run FD PVD valid this out)
    as (v1 & t1 & n1 & E1 & _).
  rewrite (scanParams_cons FD PVD rest (valid, this) (v1, t1) out (out ++ n1) E1)
    in E.
  destruct (scanParams_true FD rest v1 t1 this' (out ++ n1) out' E) as [-> ->].
  pose proof E1 as E1'.
  apply scanParam_success in E1' as (_ & Ho & _).
  exists t1. rewrite Ho in E1, E |- *. now split.
Qed.

(** With CoordY occupied, nothing more is taken. *)
Lemma scanParams_after_y (FD : FunctionDecl) (rest : list ParmVarDecl)
  (valid : bool) (this this' : Descriptor) (out out' : Trace) :
  mY this <> None ->
  scanParams FD rest (valid, this) out = Returned (true, this') out' ->
  rest = [] /\ this' = this.
Proof.
  intros HY E. destruct rest as [| p rest].
  - cbn in E. unfold ret in E. injection E as _ <- _. now split.
  - apply scanParams_cons_true in E as (t1 & E1 & _).
    apply scanParam_success in E1 as (_ & _ & _ & [(_ & H & _) | (H & _)]);
      contradiction.
Qed.

(** With CoordX occupied and CoordY empty, at most one more is taken,
    for CoordY. *)
Lemma scanParams_after_x (FD : FunctionDecl) (rest : list ParmVarDecl)
  (valid : bool) (this this' : Descriptor) (out out' : Trace) :
  mX this <> None ->
  mY this = None ->
  scanParams FD rest (valid, this) out = Returned (true, this') out' ->
  (rest = [] /\ this' = this)
  \/ (exists q, rest = [q] /\ this' = set_mY this (Some q)
                /\ isUnsignedInt (getCanonicalType (pvdType q)) = true).
Proof.
  intros HX HY E. destruct rest as [| q rest].
  - cbn in E. unfold ret in E. injection E as _ <- _. now left.
  - apply scanParams_cons_true in E as (t1 & E1 & E2).
    apply scanParam_success in E1 as (_ & _ & Hq & [(H & _) | (_ & ->)]);
      [contradiction |].
    apply scanParams_after_y in E2 as [-> ->]; [| discriminate].
    right. now exists q.
Qed.

(** From empty coordinate slots: nothing, one coordinate, or CoordX and
    then CoordY. *)
Lemma scanParams_from_empty (FD : FunctionDecl) (rest : list ParmVarDecl)
  (valid : bool) (this this' : Descriptor) (out out' : Trace) :
  mX this = None ->
  mY this = None ->
  scanParams FD rest (valid, this) out = Returned (true, this') out' ->
  rest = optList (mX this') ++ optList (mY this')
  /\ slotOf isUnsignedInt (mX this')
  /\ slotOf isUnsignedInt (mY this')
  /\ set_mY (set_mX this' None) None = this.
Proof.
  intros HX HY E.
  assert (Hid : set_mY (set_mX this None) None = this).
  { rewrite <- HX at 1. rewrite <- HY at 1. now destruct this. }
  destruct rest as [| p rest].
  - cbn in E. unfold ret in E. injection E as _ <- _.
    rewrite HX, HY. repeat split; try discriminate. exact Hid.
  - apply scanParams_cons_true in E as (t1 & E1 & E2).
    apply scanParam_success in E1 as (_ & _ & Hp & [(_ & _ & ->) | (_ & ->)]).
    + apply scanParams_after_x in E2
        as [[-> ->] | (q & -> & -> & Hq)]; try discriminate;
        try (now destruct this).
      * cbn. rewrite HY. repeat split; try discriminate.
        -- intros ? [= <-]. exact Hp.
        -- etransitivity; [| exact Hid]. now destruct this.
      * cbn. repeat split.
        -- intros ? [= <-]. exact Hp.
        -- intros ? [= <-]. exact Hq.
        -- etransitivity; [| exact Hid]. now destruct this.
    + apply scanParams_after_y in E2 as [-> ->]; [| discriminate].
      cbn. rewrite HX. repeat split; try discriminate.
      * intros ? [= <-]. exact Hp.
      * etransitivity; [| exact Hid]. now destruct this.
Qed.


(** *** What lines 79-184 consume when they keep [valid] *)

Lemma skipn_nth_error {A} (l : list A) (i : nat) (a : A) :
  nth_error l i = Some a -> skipn i l = a :: skipn (S i) l.
Proof.
  revert i. induction l as [| b l IH]; intros [| i] E; try discriminate.
  - now injection E as ->.
  - cbn in E. cbn [skipn]. now apply IH.
Qed.

Lemma matchOut_consumes (FD : FunctionDecl) (this : Descriptor) (i : nat)
  (out : Trace) :
  mOut this = None ->
  numParams this = getNumParams FD ->
  exists o i',
    matchOut FD this i out = Returned (set_mOut this o, i') out
    /\ skipn i (fdParams FD) = optList o ++ skipn i' (fdParams FD)
    /\ slotOf isPointerToNonConst o.
Proof.
  intros HO Hn.
  assert (Hid : set_mOut this None = this)
    by (rewrite <- HO; now destruct this).
  destruct (nth_error (fdParams FD) i) as [p |] eqn:E.
  - rewrite (matchOut_at FD this i out p E Hn).
    destruct (isPointerToNonConst (pvdType p)) eqn:Hp.
    + exists (Some p), (S i). split; [reflexivity |].
      split; [now apply skipn_nth_error |]. now intros ? [= <-].
    + exists None, i. rewrite Hid. repeat split. discriminate.
  - rewrite matchOut_at_end.
    + exists None, i. rewrite Hid. repeat split. discriminate.
    + rewrite Hn. now apply nth_error_None.
Qed.

Lemma matchUsrData_consumes (FD : FunctionDecl) (this : Descriptor) (i : nat)
  (out : Trace) :
  mUsrData this = None ->
  numParams this = getNumParams FD ->
  exists o i',
    matchUsrData FD this i out = Returned (set_mUsrData this o, i') out
    /\ skipn i (fdParams FD) = optList o ++ skipn i' (fdParams FD)
    /\ slotOf isPointerToConst o.
Proof.
  intros HU Hn.
  assert (Hid : set_mUsrData this None = this)
    by (rewrite <- HU; now destruct this).
  destruct (nth_error (fdParams FD) i) as [p |] eqn:E.
  - rewrite (matchUsrData_at FD this i out p E Hn).
    destruct (isPointerToConst (pvdType p)) eqn:Hp.
    + exists (Some p), (S i). split; [reflexivity |].
      split; [now apply skipn_nth_error |]. now intros ? [= <-].
    + exists None, i. rewrite Hid. repeat split. discriminate.
  - rewrite matchUsrData_at_end.
    + exists None, i. rewrite Hid. repeat split. discriminate.
    + rewrite Hn. now apply nth_error_None.
Qed.

Lemma matchIn_consumes (FD : FunctionDecl) (this : Descriptor) (out : Trace) :
  fdParams FD <> [] ->
  mIn this = None ->
  exists o i',
    matchIn FD this 0 out = Returned (set_mIn this o, i') out
    /\ fdParams FD = optList o ++ skipn i' (fdParams FD)
    /\ slotOf isPointerToConst o.
Proof.
  intros Hne HI.
  assert (Hid : set_mIn this None = this)
    by (rewrite <- HI; now destruct this).
  destruct (fdParams FD) as [| p0 rest] eqn:Hp; [congruence |].
  rewrite (matchIn_run FD this out p0 rest Hp).
  destruct (isPointerToConst (pvdType p0)) eqn:Hc.
  - exists (Some p0), 1%nat. repeat split. now intros ? [= <-].
  - exists None, 0%nat. rewrite Hid. repeat split. discriminate.
Qed.

(** Lines 79-184 from empty slots, when [valid] is still true at line
    186: nothing was reported, the function returns void, and the
    parameters are exactly what went into the slots, in the order In,
    Out, UsrData, X, Y. *)
Lemma classifyShape_success (FD : FunctionDecl) (this this' : Descriptor)
  (out out' : Trace) :
  numParams this = getNumParams FD ->
  mIn this = None -> mOut this = None -> mUsrData this = None ->
  mX this = None -> mY this = None ->
  classifyShape FD this out = Returned (true, this') out' ->
  exists oI oO oU oX oY,
    this' = set_mY (set_mX (set_mUsrData (set_mOut (set_mIn this oI) oO) oU)
                      oX) oY
    /\ out' = out
    /\ fdResultType FD = VoidTy
    /\ fdParams FD = optList oI ++ optList oO ++ optList oU
                     ++ optList oX ++ optList oY
    /\ slotOf isPointerToConst oI
    /\ slotOf isPointerToNonConst oO
    /\ slotOf isPointerToConst oU
    /\ slotOf isUnsignedInt oX
    /\ slotOf isUnsignedInt oY
    /\ isSome oI || isSome oO = true.
Proof.
  intros Hn HI HO HU HX HY E.
  assert (Hne : fdParams FD <> []).
  { intros Hp. unfold classifyShape, matchIn, getParamDecl in E.
    destruct (checkResultType_run FD true out) as (v1 & n1 & E1 & _).
    rewrite (bind_returned _ _ _ _ _ E1) in E.
    rewrite Hp in E. discriminate E. }
  unfold classifyShape in E.
  assert (E1 := checkResultType_eq FD true out).
  destruct (matchIn_consumes FD this
              (if QualType_eqb (fdResultType FD) VoidTy then out
               else out ++ [Reported (mkError (fdLocation FD) msgReturnVoid
                                        [ArgString (fdName FD)])]) Hne HI)
    as (oI & i1 & EI & LI & SI).
  destruct (QualType_eqb (fdResultType FD) VoidTy) eqn:ER.
  2:{ exfalso.
      set (out1 := out ++ [Reported (mkError (fdLocation FD) msgReturnVoid
                                       [ArgString (fdName FD)])]) in *.
      rewrite (bind_returned _ _ _ _ _ E1) in E.
      rewrite (bind_returned _ _ _ _ _ EI) in E. cbv beta iota in E.
      destruct (matchOut_consumes FD (set_mIn this oI) i1 out1 HO Hn)
        as (oO & i2 & EO & _).
      rewrite (bind_returned _ _ _ _ _ EO) in E. cbv beta iota in E.
      destruct (checkInOrOut_run FD (set_mOut (set_mIn this oI) oO) false out1)
        as (v3 & n3 & E3 & _ & V3 & W3).
      assert (v3 = false) by (destruct n3; [now apply V3 | now apply W3]).
      subst v3.
      rewrite (bind_returned _ _ _ _ _ E3) in E.
      destruct (matchUsrData_consumes FD (set_mOut (set_mIn this oI) oO) i2
                  (out1 ++ n3) HU Hn) as (oU & i4 & EU & _).
      rewrite (bind_returned _ _ _ _ _ EU) in E. cbv beta iota in E.
      apply scanParams_true in E as [E _]. discriminate E. }
  apply QualType_eqb_VoidTy in ER.
  rewrite (bind_returned _ _ _ _ _ E1) in E.
  rewrite (bind_returned _ _ _ _ _ EI) in E. cbv beta iota in E.
  destruct (matchOut_consumes FD (set_mIn this oI) i1 out HO Hn)
    as (oO & i2 & EO & LO & SO).
  rewrite (bind_returned _ _ _ _ _ EO) in E. cbv beta iota in E.
  assert (E3 := checkInOrOut_eq FD (set_mOut (set_mIn this oI) oO) true out).
  assert (Hio : isSome (mIn (set_mOut (set_mIn this oI) oO))
                || isSome (mOut (set_mOut (set_mIn this oI) oO))
                = isSome oI || isSome oO) by reflexivity.
  rewrite Hio in E3.
  destruct (isSome oI || isSome oO) eqn:Eio.
  2:{ exfalso. rewrite (bind_returned _ _ _ _ _ E3) in E.
      destruct (matchUsrData_consumes FD (set_mOut (set_mIn this oI) oO) i2
                  (out ++ [Reported (mkError (fdLocation FD) msgInOrOut
                                       [ArgString (fdName FD)])])
                  HU Hn) as (oU & i4 & EU & _).
      rewrite (bind_returned _ _ _ _ _ EU) in E. cbv beta iota in E.
      apply scanParams_true in E as [E _]. discriminate E. }
  rewrite (bind_returned _ _ _ _ _ E3) in E.
  destruct (matchUsrData_consumes FD (set_mOut (set_mIn this oI) oO) i2 out
              HU Hn) as (oU & i4 & EU & LU & SU).
  rewrite (bind_returned _ _ _ _ _ EU) in E. cbv beta iota in E.
  pose proof (scanParams_true _ _ _ _ _ _ _ E) as [_ ->].
  apply scanParams_from_empty in E as (LC & SX & SY & Hid);
    [| exact HX | exact HY].
  exists oI, oO, oU, (mX this'), (mY this').
  split; [rewrite <- Hid; now destruct this' |].
  split; [reflexivity |]. split; [exact ER |].
  split; [rewrite LI at 1; now rewrite LO, LU, LC |].
  repeat (split; [assumption |]). exact Eio.
Qed.


(** *** An accepted kernel *)

Lemma setSignatureMetadata_others (valid : bool) (this : Descriptor) :
  mName (setSignatureMetadata valid this) = mName this
  /\ mParamPacketType (setSignatureMetadata valid this) = mParamPacketType this
  /\ mInType (setSignatureMetadata valid this) = mInType this
  /\ mOutType (setSignatureMetadata valid this) = mOutType this
  /\ numParams (setSignatureMetadata valid this) = numParams this
  /\ mDummyRoot (setSignatureMetadata valid this) = mDummyRoot this.
Proof. destruct valid; repeat split. Qed.

(** All that a classification returning true tells, for a new
    descriptor. *)
Lemma validate_success (Context : RSContext) (FD : FunctionDecl)
  (Name : string) (this' : Descriptor) (out out' : Trace) :
  validate Context FD (new_RSExportForEach RSExportType Context Name) out =
    Returned (true, this') out' ->
  out' = out
  /\ passes_gate Context FD = true
  /\ fdResultType FD = VoidTy
  /\ fdParams FD = slotList this'
  /\ slotsWellShaped this'
  /\ isSome (mIn this') || isSome (mOut this') = true
  /\ mirrorsSlots this'
  /\ (getTargetAPI Context < SLANG_ICS_TARGET_API ->
      prefixComplete (mSignatureMetadata this'))
  /\ mName this' = Name
  /\ numParams this' = getNumParams FD
  /\ mParamPacketType this' = None
  /\ mInType this' = None
  /\ mOutType this' = None
  /\ mDummyRoot this' = false.
Proof.
  intros E.
  destruct (fdParams FD) as [| p0 rest] eqn:Hp.
  { rewrite (validate_without_parameter Context FD _ out Hp) in E.
    discriminate E. }
  assert (Hne : fdParams FD <> []) by (rewrite Hp; discriminate).
  rewrite <- Hp. clear Hp p0 rest.
  destruct (passes_gate Context FD) eqn:Hg.
  2:{ rewrite (validate_at_gate Context FD _ out Hne Hg) in E.
      discriminate E. }
  set (this0 := set_numParams (new_RSExportForEach RSExportType Context Name)
                  (getNumParams FD)).
  destruct (classifyShape_run FD this0 out Hne eq_refl)
    as (validS & thisS & shape & ES & _).
  rewrite (validate_via_shape Context FD _ thisS validS out (out ++ shape)
             Hg ES) in E.
  unfold bind, ret in E. rewrite checkSkip_run in E.
  destruct (_ && _) eqn:Ec; [discriminate E |].
  injection E as -> <- <-.
  apply classifyShape_success in ES
    as (oI & oO & oU & oX & oY & -> & Ho & HR & HL & SI & SO & SU & SX & SY
        & Hio); try reflexivity.
  destruct (setSignatureMetadata_valid
              (set_mY (set_mX (set_mUsrData (set_mOut (set_mIn this0 oI) oO)
                 oU) oX) oY)) as (HM & MI & MO & MU & MX & MY).
  destruct (setSignatureMetadata_others true
              (set_mY (set_mX (set_mUsrData (set_mOut (set_mIn this0 oI) oO)
                 oU) oX) oY)) as (N1 & N2 & N3 & N4 & N5 & N6).
  split; [exact Ho |]. split; [reflexivity |]. split; [exact HR |].
  split; [unfold slotList; rewrite MI, MO, MU, MX, MY; exact HL |].
  split; [unfold slotsWellShaped; rewrite MI, MO, MU, MX, MY;
          repeat split; assumption |].
  split; [rewrite MI, MO; exact Hio |].
  split; [exact HM |].
  split.
  { intros Hapi. apply Z.ltb_lt in Hapi. rewrite Hapi in Ec.
    rewrite andb_true_l in Ec. apply skipsParameters_spec. exact Ec. }
  rewrite N1, N2, N3, N4, N5, N6. subst this0.
  do 5 (split; [vm_compute; reflexivity |]). vm_compute. reflexivity.
Qed.


(** *** Success and silence *)

Lemma shape_error_is_report (e : Event) :
  isShapeError e = true -> isReport e = true.
Proof. destruct e; [reflexivity | discriminate]. Qed.

(** With a parameter, a classification returns, and returns true exactly
    when it has reported nothing. *)
Lemma validate_run (Context : RSContext) (FD : FunctionDecl)
  (this : Descriptor) (out : Trace) :
  fdParams FD <> [] ->
  exists valid this' new,
    validate Context FD this out = Returned (valid, this') (out ++ new)
    /\ (valid = true <-> new = [])
    /\ Forall (fun e => isReport e = true) new.
Proof.
  intros Hne. destruct (passes_gate Context FD) eqn:Hg.
  - destruct (validate_past_gate Context FD this out Hne Hg)
      as (validS & thisS & shape & _ & F & V & E).
    assert (FR : Forall (fun e => isReport e = true) shape).
    { eapply Forall_impl; [| exact F]. apply shape_error_is_report. }
    rewrite E. unfold bind, ret. rewrite checkSkip_run.
    destruct (_ && _).
    + exists false, (setSignatureMetadata validS thisS),
        (shape ++ [may_not_skip FD]).
      split; [now rewrite app_assoc |]. split.
      * split; [discriminate |]. intros H. apply app_eq_nil in H as [_ H].
        discriminate H.
      * apply Forall_app. split; [exact FR |]. now repeat constructor.
    + exists validS, (setSignatureMetadata validS thisS), shape.
      split; [reflexivity |]. now split.
  - rewrite (validate_at_gate Context FD this out Hne Hg).
    eexists _, _, _. split; [reflexivity |]. split.
    + split; discriminate.
    + now repeat constructor.
Qed.

(** X1. A classification of a function with at least one parameter always
    returns, returns true exactly when it reported nothing, and writes
    only diagnostics (nothing goes to stderr); what was reported before
    stays in front, untouched. *)
Theorem classification_fails_iff_reported (Context : RSContext)
  (FD : FunctionDecl) (this : Descriptor) (out : Trace) :
  (0 < getNumParams FD)%nat ->
  exists valid this' new,
    validate Context FD this out = Returned (valid, this') (out ++ new)
    /\ (valid = false <-> new <> [])
    /\ (forall e, In e new -> exists d, e = Reported d).
Proof.
  intros Hn.
  assert (Hne : fdParams FD <> []).
  { unfold getNumParams in Hn. destruct (fdParams FD); [cbn in Hn; lia |].
    discriminate. }
  destruct (validate_run Context FD this out Hne)
    as (valid & this' & new & E & V & F).
  exists valid, this', new. split; [exact E |]. split.
  - destruct valid.
    + destruct V as [V _]. rewrite V by reflexivity.
      split; [discriminate | congruence].
    + split; [| reflexivity]. intros _ H. apply V in H. discriminate H.
  - intros e He. rewrite Forall_forall in F. specialize (F e He).
    destruct e as [d | line]; [now exists d | discriminate F].
Qed.

(** X2. When the classification of a new descriptor returns true, the
    parameter list of the function is exactly the list of the occupied
    slots in the order Input, Output, UserData, CoordX, CoordY, so there
    are at most five parameters and each has one role; and each slot
    holds a parameter of its shape: pointer to const for Input and
    UserData, pointer to non-const for Output, unsigned int for the
    coordinates. *)
Theorem accepted_parameters_fill_the_slots (Context : RSContext)
  (FD : FunctionDecl) (Name : string) (this' : Descriptor)
  (out out' : Trace) :
  validate Context FD (new_RSExportForEach RSExportType Context Name) out =
    Returned (true, this') out' ->
  fdParams FD = slotList this'
  /\ slotsWellShaped this'
  /\ (getNumParams FD <= 5)%nat.
Proof.
  intros E. apply validate_success in E as (_ & _ & _ & HL & HS & _).
  split; [exact HL |]. split; [exact HS |].
  unfold getNumParams. rewrite HL. unfold slotList.
  rewrite !length_app.
  destruct (mIn this'), (mOut this'), (mUsrData this'), (mX this'),
    (mY this'); cbn; lia.
Qed.

(** X3. When the classification of a new descriptor returns true, nothing
    was reported, the function returns void and passed the gate on
    non-root kernels, Input or Output is occupied, and signatureMetadata
    mirrors the slots and lies between 1 and 31. *)
Theorem accepted_kernel_facts (Context : RSContext)
  (FD : FunctionDecl) (Name : string) (this' : Descriptor)
  (out out' : Trace) :
  validate Context FD (new_RSExportForEach RSExportType Context Name) out =
    Returned (true, this') out' ->
  out' = out
  /\ fdResultType FD = VoidTy
  /\ (isRootRSFunc FD = true \/ SLANG_JB_TARGET_API <= getTargetAPI Context)
  /\ (mIn this' <> None \/ mOut this' <> None)
  /\ mirrorsSlots this'
  /\ 1 <= mSignatureMetadata this' <= 31.
Proof.
  intros E.
  apply validate_success in E as (Ho & Hg & HR & _ & _ & Hio & HM & _).
  split; [exact Ho |]. split; [exact HR |]. split.
  { unfold passesRootGate in Hg. apply negb_true_iff in Hg.
    apply andb_false_iff in Hg as [Hg | Hg].
    - right. now apply Z.ltb_ge.
    - left. now apply negb_false_iff. }
  split.
  { destruct (mIn this'); [left; discriminate |].
    destruct (mOut this'); [right; discriminate | discriminate Hio]. }
  split; [exact HM |].
  destruct HM as (M1 & M2 & _ & _ & _ & Hr).
  split; [| lia].
  destruct (Z.eq_dec (mSignatureMetadata this') 0) as [H0 | H0]; [| lia].
  rewrite H0 in M1, M2. cbn in M1, M2. rewrite <- M1, <- M2 in Hio.
  discriminate Hio.
Qed.

(** X4. A function with more than five parameters never classifies: the
    run returns false and has reported something. *)
Theorem more_than_five_parameters_rejected (Context : RSContext)
  (FD : FunctionDecl) (Name : string) (out : Trace) :
  (5 < getNumParams FD)%nat ->
  exists this' new,
    validate Context FD (new_RSExportForEach RSExportType Context Name) out =
      Returned (false, this') (out ++ new)
    /\ new <> [].
Proof.
  intros Hn.
  assert (Hne : fdParams FD <> []).
  { unfold getNumParams in Hn. destruct (fdParams FD); [cbn in Hn; lia |].
    discriminate. }
  destruct (validate_run Context FD
              (new_RSExportForEach RSExportType Context Name) out Hne)
    as (valid & this' & new & E & V & _).
  destruct valid.
  - exfalso. apply validate_success in E as (_ & _ & _ & HL & _).
    unfold getNumParams in Hn. rewrite HL in Hn. unfold slotList in Hn.
    rewrite !length_app in Hn.
    destruct (mIn this'), (mOut this'), (mUsrData this'), (mX this'),
      (mY this'); cbn in Hn; lia.
  - exists this', new. split; [exact E |]. intros H. apply V in H.
    discriminate H.
Qed.


(** *** Rejections *)

(** Lines 92-184 after the check of the return type: they return, and
    never turn a false [valid] into true. *)
Lemma shape_after_result_type (FD : FunctionDecl) (this : Descriptor)
  (valid : bool) (out : Trace) :
  fdParams FD <> [] ->
  numParams this = getNumParams FD ->
  exists valid' this' new,
    ('(this, i) <- matchIn FD this 0%nat ;;
     '(this, i) <- matchOut FD this i ;;
     valid <- checkInOrOut FD this valid ;;
     '(this, i) <- matchUsrData FD this i ;;
     scanParams FD (skipn i (fdParams FD)) (valid, this)) out =
      Returned (valid', this') (out ++ new)
    /\ (valid = false -> valid' = false).
Proof.
  intros Hne Hn. destruct (fdParams FD) as [| p0 rest] eqn:Eparams;
    [congruence | clear Hne].
  run_block (matchIn_run FD this out p0 rest Eparams).
  set (r1 := if isPointerToConst _ then _ else _).
  assert (Hn1 : numParams (fst r1) = getNumParams FD)
    by (subst r1; destruct (isPointerToConst _); exact Hn).
  destruct r1 as [this1 i1]. cbn [fst] in Hn1.
  destruct (matchOut_run FD this1 i1 out Hn1) as (this2 & i2 & E2 & Hn2 & _).
  run_block E2.
  destruct (checkInOrOut_run FD this2 valid out)
    as (v3 & n3 & E3 & _ & V3 & W3).
  run_block E3.
  assert (Hn2' : numParams this2 = getNumParams FD) by congruence.
  destruct (matchUsrData_run FD this2 i2 (out ++ n3) Hn2')
    as (this4 & i4 & E4 & _ & _).
  run_block E4.
  destruct (scanParams_run FD (skipn i4 (p0 :: rest)) v3 this4 (out ++ n3))
    as (v5 & this5 & n5 & E5 & _ & V5 & W5 & _).
  exists v5, this5, (n3 ++ n5). rewrite E5.
  split; [now rewrite app_assoc |].
  intros ->. destruct n5 as [| e5 n5]; [| now apply W5].
  rewrite V5 by reflexivity.
  destruct n3 as [| e3 n3]; [now apply V3 | now apply W3].
Qed.

(** X5. A function with a parameter whose return type is not void never
    classifies, whatever its parameters are; past the gate on non-root
    kernels the "required to return a void type" report is the first
    one of the run. *)
Theorem non_void_kernel_rejected (Context : RSContext) (FD : FunctionDecl)
  (this : Descriptor) (out : Trace) :
  fdParams FD <> [] ->
  fdResultType FD <> VoidTy ->
  exists this' new,
    validate Context FD this out = Returned (false, this') (out ++ new)
    /\ (passes_gate Context FD = true ->
        exists new',
          new = Reported (mkError (fdLocation FD) msgReturnVoid
                            [ArgString (fdName FD)]) :: new').
Proof.
  intros Hne HR. destruct (passes_gate Context FD) eqn:Hg.
  - set (this0 := set_numParams this (getNumParams FD)).
    assert (ER : QualType_eqb (fdResultType FD) VoidTy = false).
    { destruct (QualType_eqb _ _) eqn:ER; [| reflexivity].
      apply QualType_eqb_VoidTy in ER. contradiction. }
    set (out1 := out ++ [Reported (mkError (fdLocation FD) msgReturnVoid
                                     [ArgString (fdName FD)])]).
    assert (E1 : checkResultType FD true out = Returned false out1)
      by (now rewrite checkResultType_eq, ER).
    destruct (shape_after_result_type FD this0 false out1 Hne eq_refl)
      as (v & t & n & Etail & Hv).
    rewrite (Hv eq_refl) in Etail.
    assert (ES : classifyShape FD this0 out = Returned (false, t) (out1 ++ n)).
    { unfold classifyShape. rewrite (bind_returned _ _ _ _ _ E1).
      exact Etail. }
    rewrite (validate_via_shape Context FD this t false out (out1 ++ n) Hg ES).
    unfold bind, ret. rewrite checkSkip_run.
    subst out1. rewrite <- !app_assoc.
    destruct (_ && _); eexists _, _; (split; [reflexivity |]);
      intros _; eexists; reflexivity.
  - rewrite (validate_at_gate Context FD this out Hne Hg).
    eexists _, _. split; [reflexivity |]. discriminate.
Qed.


(** X7. What a target accepts, every later target accepts with the same
    descriptor: a classification that returns true still returns true,
    with the same result, when the target API level is raised. *)
Theorem later_targets_accept_more (Context Context' : RSContext)
  (FD : FunctionDecl) (this this' : Descriptor) (out out' : Trace) :
  getTargetAPI Context <= getTargetAPI Context' ->
  validate Context FD this out = Returned (true, this') out' ->
  validate Context' FD this out = Returned (true, this') out'.
Proof.
  intros Hle E.
  destruct (fdParams FD) as [| p0 rest] eqn:Hp.
  { rewrite (validate_without_parameter Context FD _ out Hp) in E.
    discriminate E. }
  assert (Hne : fdParams FD <> []) by (rewrite Hp; discriminate).
  clear Hp p0 rest.
  destruct (passes_gate Context FD) eqn:Hg.
  2:{ rewrite (validate_at_gate Context FD _ out Hne Hg) in E.
      discriminate E. }
  assert (Hg' : passes_gate Context' FD = true).
  { unfold passesRootGate in *. apply negb_true_iff in Hg.
    apply negb_true_iff. apply andb_false_iff in Hg as [Hg | Hg].
    - apply Z.ltb_ge in Hg. apply andb_false_iff. left. apply Z.ltb_ge.
      now apply Z.le_trans with (getTargetAPI Context).
    - now rewrite Hg, andb_false_r. }
  destruct (classifyShape_run FD (set_numParams this (getNumParams FD)) out
              Hne eq_refl) as (validS & thisS & shape & ES & _).
  rewrite (validate_via_shape Context FD _ thisS validS out (out ++ shape)
             Hg ES) in E.
  rewrite (validate_via_shape Context' FD _ thisS validS out (out ++ shape)
             Hg' ES).
  unfold bind, ret in *. rewrite checkSkip_run in *.
  destruct (getTargetAPI Context <? SLANG_ICS_TARGET_API) eqn:HA.
  - destruct (skipsParameters _); [discriminate E |].
    now rewrite andb_false_r in *.
  - apply Z.ltb_ge in HA.
    assert (HA' : (getTargetAPI Context' <? SLANG_ICS_TARGET_API) = false).
    { apply Z.ltb_ge. now apply Z.le_trans with (getTargetAPI Context). }
    now rewrite HA'.
Qed.

(** X8. On a target before ICS, an accepted kernel skips nothing:
    signatureMetadata is one of 0x01, 0x03, 0x07, 0x0F, 0x1F, so Input
    is occupied and every occupied slot has all the slots before it
    occupied. *)
Theorem accepted_before_ICS_skips_nothing (Context : RSContext)
  (FD : FunctionDecl) (Name : string) (this' : Descriptor)
  (out out' : Trace) :
  getTargetAPI Context < SLANG_ICS_TARGET_API ->
  validate Context FD (new_RSExportForEach RSExportType Context Name) out =
    Returned (true, this') out' ->
  prefixComplete (mSignatureMetadata this')
  /\ mIn this' <> None
  /\ (mUsrData this' <> None -> mOut this' <> None)
  /\ (mX this' <> None -> mUsrData this' <> None)
  /\ (mY this' <> None -> mX this' <> None).
Proof.
  intros Hapi E.
  apply validate_success in E as (_ & _ & _ & _ & _ & _ & HM & HP & _).
  specialize (HP Hapi). split; [exact HP |].
  destruct HM as (M1 & M2 & M4 & M8 & M16 & _).
  destruct HP as [H | [H | [H | [H | H]]]];
    rewrite H in M1, M2, M4, M8, M16; cbn in M1, M2, M4, M8, M16;
    destruct (mIn this'), (mOut this'), (mUsrData this'), (mX this'),
      (mY this'); try discriminate; repeat split; congruence.
Qed.


(** *** Coordinates by name, and slots that stay *)

(** X9. In the coordinate scan, an unsigned-integer parameter named "x"
    is assigned to CoordX when both coordinate slots are empty; one
    named "y" is assigned to CoordY whenever CoordY is empty, also when
    CoordX is empty (X is skipped), and is rejected with the
    duplicate-entry report when CoordY is occupied. *)
Theorem named_coordinate_assignment (FD : FunctionDecl) (PVD : ParmVarDecl)
  (valid : bool) (this : Descriptor) (out : Trace) :
  getUnqualifiedType (pvdType PVD) = UnsignedIntTy ->
  (pvdName PVD = "x" -> mX this = None -> mY this = None ->
   scanParam FD PVD (valid, this) out =
     Returned (valid, set_mX this (Some PVD)) out)
  /\ (pvdName PVD = "y" -> mY this = None ->
      scanParam FD PVD (valid, this) out =
        Returned (valid, set_mY this (Some PVD)) out)
  /\ (pvdName PVD = "y" -> mY this <> None ->
      scanParam FD PVD (valid, this) out =
        Returned (false, this)
          (out ++ [Reported (mkError (pvdLocation PVD) msgDuplicate
                     [ArgString "y"])])).
Proof.
  intros HT. rewrite (scanParam_unsigned FD PVD (valid, this) HT).
  unfold ReportNameError. repeat split.
  - intros -> -> ->. reflexivity.
  - intros -> ->. reflexivity.
  - intros -> HY. destruct (mY this); [reflexivity | congruence].
Qed.

Lemma scanParam_keeps_occupied (FD : FunctionDecl) (PVD : ParmVarDecl)
  (st st' : bool * Descriptor) (out out' : Trace) :
  scanParam FD PVD st out = Returned st' out' ->
  (forall a, mX (snd st) = Some a -> mX (snd st') = Some a)
  /\ (forall b, mY (snd st) = Some b -> mY (snd st') = Some b)
  /\ (mX (snd st') = mX (snd st) \/ mX (snd st') = Some PVD)
  /\ (mY (snd st') = mY (snd st) \/ mY (snd st') = Some PVD).
Proof.
  destruct st as [valid this]. destruct st' as [valid' this'].
  unfold scanParam, ReportUnexpected, ReportNameError, Report, emit, bind, ret.
  cbn [snd].
  repeat match goal with
    | |- context [if ?c then _ else _] => destruct c eqn:?
    end;
    intros E; injection E as _ <- _; cbn;
    repeat split; auto;
    intros ? H;
    repeat match goal with
      | H1 : isSome ?s = false, H2 : ?s = Some _ |- _ =>
          rewrite H2 in H1; discriminate H1
      | H1 : negb (isSome ?s) && _ = true, H2 : ?s = Some _ |- _ =>
          rewrite H2 in H1; discriminate H1
      | H1 : negb (isSome ?s) = true, H2 : ?s = Some _ |- _ =>
          rewrite H2 in H1; discriminate H1
      end; assumption.
Qed.

(** X10. The coordinate loop never overwrites a slot: whatever the
    remaining parameters are and whether or not errors are reported, a
    coordinate slot that is occupied keeps its parameter, and a slot
    that the loop fills holds one of the scanned parameters. *)
Theorem coordinate_slots_assigned_once (FD : FunctionDecl)
  (rest : list ParmVarDecl) (valid valid' : bool) (this this' : Descriptor)
  (out out' : Trace) :
  scanParams FD rest (valid, this) out = Returned (valid', this') out' ->
  (forall a, mX this = Some a -> mX this' = Some a)
  /\ (forall b, mY this = Some b -> mY this' = Some b)
  /\ (mX this' = mX this \/ exists p, In p rest /\ mX this' = Some p)
  /\ (mY this' = mY this \/ exists p, In p rest /\ mY this' = Some p).
Proof.
  revert valid this out. induction rest as [| p rest IH];
    intros valid this out E.
  - cbn in E. unfold ret in E. injection E as _ <- _. repeat split; auto.
  - destruct (scanParam_run FD p valid this out) as (v1 & t1 & n1 & E1 & _).
    rewrite (scanParams_cons FD p rest (valid, this) (v1, t1) out (out ++ n1)
               E1) in E.
    apply scanParam_keeps_occupied in E1 as (KX & KY & NX & NY).
    cbn [snd] in KX, KY, NX, NY.
    apply IH in E as (KX' & KY' & NX' & NY').
    split; [intros a Ha; apply KX', KX, Ha |].
    split; [intros b Hb; apply KY', KY, Hb |].
    split.
    + destruct NX' as [NX' | (q & Hq & NX')].
      * rewrite NX'. destruct NX as [NX | NX]; [now left | right].
        exists p. split; [now left | exact NX].
      * right. exists q. split; [now right | exact NX'].
    + destruct NY' as [NY' | (q & Hq & NY')].
      * rewrite NY'. destruct NY as [NY | NY]; [now left | right].
        exists p. split; [now left | exact NY].
      * right. exists q. split; [now right | exact NY'].
Qed.

(** *** The predicates of the driver *)

(** X11. A function with the root name is either the graphics root or a
    forEach candidate, never both and never neither. *)
Theorem root_is_graphics_or_forEach (targetAPI : Z) (FD : FunctionDecl) :
  isRootRSFunc FD = true ->
  for_each targetAPI FD = negb (graphics_root targetAPI FD).
Proof.
  intros Hroot. unfold isRSForEachFunc.
  destruct (graphics_root targetAPI FD) eqn:Hg; [reflexivity |].
  cbn [negb]. destruct (fdParams FD) as [| p0 rest] eqn:Hp.
  - exfalso. unfold isGraphicsRootRSFunc, getNumParams in Hg.
    rewrite Hroot, Hp in Hg. discriminate Hg.
  - rewrite Hroot. now destruct (isPointerType _).
Qed.

(** X12. Every function that classifies is one that the driver takes for
    a forEach function, not for the graphics root: when the
    classification of a new descriptor returns true, [isRSForEachFunc]
    holds and [isGraphicsRootRSFunc] does not, at the API level of the
    context. *)
Theorem accepted_kernel_is_forEach_candidate (Context : RSContext)
  (FD : FunctionDecl) (Name : string) (this' : Descriptor)
  (out out' : Trace) :
  validate Context FD (new_RSExportForEach RSExportType Context Name) out =
    Returned (true, this') out' ->
  for_each (getTargetAPI Context) FD = true
  /\ graphics_root (getTargetAPI Context) FD = false.
Proof.
  intros E.
  apply validate_success in E
    as (_ & _ & HR & HL & (SI & SO & _) & Hio & _).
  assert (Hfirst : exists p0 rest,
             fdParams FD = p0 :: rest
             /\ isPointerType (getCanonicalType (pvdType p0)) = true).
  { rewrite HL. unfold slotList.
    destruct (mIn this') as [p |] eqn:EI.
    - exists p. eexists. split; [reflexivity |].
      apply isPointerToConst_isPointerType. now apply SI.
    - destruct (mOut this') as [p |] eqn:EO; [| discriminate Hio].
      exists p. eexists. split; [reflexivity |].
      apply isPointerToNonConst_isPointerType. now apply SO. }
  destruct Hfirst as (p0 & rest & Hp & Hptr).
  assert (Hg : graphics_root (getTargetAPI Context) FD = false).
  { unfold isGraphicsRootRSFunc, getNumParams, getCanonicalType.
    rewrite Hp, HR. cbn.
    destruct (isRootRSFunc FD); cbn; [| reflexivity].
    now destruct (_ && _). }
  split; [| exact Hg].
  unfold isRSForEachFunc. rewrite Hg, Hp. now rewrite Hptr.
Qed.

(** X13. What [isRSForEachFunc] lets through never trips the assertion
    of the classification: the function has a parameter, so
    [validateAndConstructParams] returns, with true or with
    diagnostics. *)
Theorem forEach_candidate_is_classified (targetAPI : Z) (Context : RSContext)
  (FD : FunctionDecl) (this : Descriptor) (out : Trace) :
  for_each targetAPI FD = true ->
  exists valid this' new,
    validate Context FD this out = Returned (valid, this') (out ++ new)
    /\ (valid = true <-> new = []).
Proof.
  intros H.
  assert (Hne : fdParams FD <> []).
  { unfold isRSForEachFunc in H.
    destruct (graphics_root targetAPI FD); [discriminate H |].
    destruct (fdParams FD); [discriminate H | discriminate]. }
  destruct (validate_run Context FD this out Hne)
    as (valid & this' & new & E & V & _).
  now exists valid, this', new.
Qed.

(** X14. A root function whose first parameter is no pointer and that is
    not the graphics root is still a forEach candidate, and its
    classification (past the gate, which a root function always passes)
    fails with the "must have at least one parameter for in or out"
    report; Input, Output and UserData stay empty. *)
Theorem root_without_pointer_is_diagnosed (Context : RSContext)
  (FD : FunctionDecl) (Name : string) (out : Trace) (p0 : ParmVarDecl)
  (rest : list ParmVarDecl) :
  isRootRSFunc FD = true ->
  graphics_root (getTargetAPI Context) FD = false ->
  fdParams FD = p0 :: rest ->
  isPointerType (pvdType p0) = false ->
  for_each (getTargetAPI Context) FD = true
  /\ exists this' new,
       validate Context FD (new_RSExportForEach RSExportType Context Name) out
         = Returned (false, this') (out ++ new)
       /\ In (Reported (mkError (fdLocation FD) msgInOrOut
                          [ArgString (fdName FD)])) new
       /\ mIn this' = None /\ mOut this' = None /\ mUsrData this' = None.
Proof.
  intros Hroot Hg Hp Hptr. split.
  { unfold isRSForEachFunc, getCanonicalType.
    now rewrite Hg, Hp, Hptr, Hroot. }
  assert (Hgate : passes_gate Context FD = true).
  { unfold passesRootGate. now rewrite Hroot, andb_false_r. }
  set (this0 := set_numParams (new_RSExportForEach RSExportType Context Name)
                  (getNumParams FD)).
  pose proof (classifyShape_no_pointer FD this0 out p0 rest Hp eq_refl Hptr
                eq_refl eq_refl) as ES.
  match type of ES with
  | _ = scanParams _ _ _ (out ++ ?p) => set (pre := p) in *
  end.
  destruct (scanParams_run FD (fdParams FD) false this0 (out ++ pre))
    as (v5 & this1 & scanned & E5 & _ & V5 & W5 & S5).
  assert (Hv5 : v5 = false)
    by (destruct scanned; [now apply V5 | now apply W5]).
  subst v5. rewrite E5 in ES.
  rewrite (validate_via_shape Context FD _ this1 false out
             ((out ++ pre) ++ scanned) Hgate ES).
  unfold bind, ret. rewrite checkSkip_run.
  assert (HI : mIn this1 = None).
  { transitivity (mIn (set_mY (set_mX this1 (mX this0)) (mY this0)));
      [reflexivity | now rewrite S5]. }
  assert (HO : mOut this1 = None).
  { transitivity (mOut (set_mY (set_mX this1 (mX this0)) (mY this0)));
      [reflexivity | now rewrite S5]. }
  assert (HU : mUsrData this1 = None).
  { transitivity (mUsrData (set_mY (set_mX this1 (mX this0)) (mY this0)));
      [reflexivity | now rewrite S5]. }
  assert (Hin : In (Reported (mkError (fdLocation FD) msgInOrOut
                                [ArgString (fdName FD)])) pre).
  { subst pre. apply in_or_app. right. now left. }
  destruct (_ && _); eexists _, _;
    (split; [rewrite <- !app_assoc; reflexivity |]);
    (split; [apply in_or_app; left; exact Hin |]);
    now repeat split.
Qed.


(** *** validateSpecialFuncDecl *)

(** X15. On a graphics root, [validateSpecialFuncDecl] returns, and
    returns true exactly when it reported nothing, which is exactly
    when the function returns int and, in the legacy form with one
    parameter, that parameter is an int. *)
Theorem special_graphics_root (targetAPI : Z) (FD : FunctionDecl)
  (out : Trace) :
  graphics_root targetAPI FD = true ->
  exists valid new,
    special targetAPI FD out = Returned valid (out ++ new)
    /\ (valid = true <-> new = [])
    /\ (valid = true <->
        fdResultType FD = IntTy
        /\ forall p, fdParams FD = [p] -> pvdType p = IntTy).
Proof.
  intros Hg. unfold validateSpecialFuncDecl. rewrite Hg.
  unfold checkLegacyRootParam, checkRootReturnsInt, getParamDecl,
    getCanonicalType, Report, emit, bind, ret.
  unfold isGraphicsRootRSFunc, getCanonicalType, getNumParams in *.
  destruct (isRootRSFunc FD); cbn [negb] in Hg; [| discriminate Hg].
  destruct (fdParams FD) as [| p [| q rest]] eqn:Hp; cbn in Hg |- *.
  - (* int root(void) *)
    rewrite andb_false_r.
    destruct (QualType_eqb (fdResultType FD) IntTy) eqn:ER; cbn [negb].
    + apply QualType_eqb_IntTy in ER. exists true, [].
      rewrite app_nil_r. repeat split; try discriminate. exact ER.
    + eexists false, _. split; [reflexivity |].
      split; [split; discriminate |].
      split; [discriminate |]. intros [H _].
      apply QualType_eqb_IntTy in H. congruence.
  - (* the legacy root *)
    destruct (targetAPI <? SLANG_ICS_TARGET_API); cbn [andb] in Hg |- *;
      [| discriminate Hg].
    destruct (QualType_eqb (fdResultType FD) IntTy) eqn:ER;
      [| discriminate Hg].
    apply QualType_eqb_IntTy in ER. cbn [negb].
    destruct (QualType_eqb (pvdType p) IntTy) eqn:EP; cbn [negb].
    + apply QualType_eqb_IntTy in EP. exists true, [].
      rewrite app_nil_r. repeat split; try discriminate; try assumption.
      now intros ? [= <-].
    + eexists false, _. split; [reflexivity |].
      split; [split; discriminate |].
      split; [discriminate |]. intros [_ H].
      specialize (H p eq_refl). apply QualType_eqb_IntTy in H. congruence.
  - rewrite andb_false_r in Hg. discriminate Hg.
Qed.

(** X16. On the legacy graphics root (one parameter), the report "root()
    is required to return an int" can never be issued: the only
    possible diagnostic is the one on the type of the parameter. *)
Theorem legacy_root_only_parameter_report (targetAPI : Z) (FD : FunctionDecl)
  (out : Trace) (p : ParmVarDecl) :
  graphics_root targetAPI FD = true ->
  fdParams FD = [p] ->
  special targetAPI FD out =
    if QualType_eqb (pvdType p) IntTy then Returned true out
    else Returned false
           (out ++ [Reported (mkError (pvdLocation p) msgLegacyRootParam
                      [ArgType (pvdType p)])]).
Proof.
  intros Hg Hp. unfold validateSpecialFuncDecl. rewrite Hg.
  unfold checkLegacyRootParam, checkRootReturnsInt, getParamDecl,
    getCanonicalType, Report, emit, bind, ret.
  unfold isGraphicsRootRSFunc, getCanonicalType, getNumParams in *.
  rewrite Hp in *. cbn in Hg |- *.
  destruct (isRootRSFunc FD); cbn [negb] in Hg; [| discriminate Hg].
  destruct (targetAPI <? SLANG_ICS_TARGET_API); cbn [andb] in Hg |- *;
    [| discriminate Hg].
  destruct (QualType_eqb (fdResultType FD) IntTy); [| discriminate Hg].
  now destruct (QualType_eqb (pvdType p) IntTy).
Qed.

(** X17. On an init or destructor function that is not the graphics
    root, [validateSpecialFuncDecl] returns true exactly when the
    function has no parameter and returns void; the two violations are
    reported independently, the arity first. *)
Theorem special_init_or_dtor (targetAPI : Z) (FD : FunctionDecl)
  (out : Trace) :
  graphics_root targetAPI FD = false ->
  isInitRSFunc FD || isDtorRSFunc FD = true ->
  special targetAPI FD out =
    Returned
      ((getNumParams FD =? 0)%nat && QualType_eqb (fdResultType FD) VoidTy)
      (out
       ++ (if (getNumParams FD =? 0)%nat then []
           else [Reported (mkError (fdLocation FD) msgNoParameters
                   [ArgString (fdName FD)])])
       ++ (if QualType_eqb (fdResultType FD) VoidTy then []
           else [Reported (mkError (fdLocation FD) msgVoidReturn
                   [ArgString (fdName FD)])])).
Proof.
  intros Hg Hi. unfold validateSpecialFuncDecl. rewrite Hg, Hi.
  unfold checkNoParameters, checkVoidReturn, getCanonicalType, Report, emit,
    bind, ret.
  destruct (getNumParams FD =? 0)%nat;
    destruct (QualType_eqb (fdResultType FD) VoidTy); cbn [negb andb];
    rewrite ?app_nil_r, <- ?app_assoc; reflexivity.
Qed.

(** X18. [validateSpecialFuncDecl] fails an assertion exactly when the
    function is neither the graphics root nor init nor the destructor,
    and then it has reported nothing; in particular the read of
    parameter 0 in the legacy branch is always in range. *)
Theorem special_aborts_iff (targetAPI : Z) (FD : FunctionDecl) (out : Trace) :
  ((exists text out', special targetAPI FD out = Aborted text out')
   <-> (graphics_root targetAPI FD = false
        /\ isInitRSFunc FD = false
        /\ isDtorRSFunc FD = false))
  /\ (graphics_root targetAPI FD = false ->
      isInitRSFunc FD = false ->
      isDtorRSFunc FD = false ->
      special targetAPI FD out =
        Aborted "must be called on root, init or .rs.dtor function!" out).
Proof.
  assert (Hab : graphics_root targetAPI FD = false ->
                isInitRSFunc FD = false -> isDtorRSFunc FD = false ->
                special targetAPI FD out =
                  Aborted "must be called on root, init or .rs.dtor function!"
                    out).
  { intros Hg Hi Hd. unfold validateSpecialFuncDecl. now rewrite Hg, Hi, Hd. }
  split; [| exact Hab]. split.
  - intros (text & out' & E).
    destruct (graphics_root targetAPI FD) eqn:Hg.
    + exfalso. unfold validateSpecialFuncDecl in E. rewrite Hg in E.
      unfold checkLegacyRootParam, checkRootReturnsInt, getParamDecl, Report,
        emit, bind, ret in E.
      unfold isGraphicsRootRSFunc, getNumParams in *.
      destruct (isRootRSFunc FD); cbn [negb] in Hg; [| discriminate Hg].
      destruct (fdParams FD) as [| p [| q rest]]; cbn in Hg, E.
      * rewrite andb_false_r in E.
        destruct (negb _) in E; discriminate E.
      * destruct (targetAPI <? SLANG_ICS_TARGET_API); cbn [andb] in Hg, E;
          [| discriminate Hg].
        destruct (negb (QualType_eqb (getCanonicalType (pvdType p)) IntTy));
          destruct (negb (QualType_eqb (getCanonicalType (fdResultType FD))
                            IntTy)); discriminate E.
      * rewrite andb_false_r in Hg. discriminate Hg.
    + destruct (isInitRSFunc FD || isDtorRSFunc FD) eqn:Hi.
      * exfalso. unfold validateSpecialFuncDecl in E. rewrite Hg, Hi in E.
        unfold checkNoParameters, checkVoidReturn, Report, emit, bind, ret
          in E.
        destruct (negb (getNumParams FD =? 0)%nat);
          destruct (negb (QualType_eqb (getCanonicalType (fdResultType FD))
                            VoidTy)); discriminate E.
      * apply orb_false_iff in Hi. tauto.
  - intros (Hg & Hi & Hd). rewrite (Hab Hg Hi Hd). now eexists _, _.
Qed.


(** *** More on Create *)

(** X19. When the classification fails, [Create] returns NULL right
    away: nothing is exported and nothing is added to what the
    classification reported. *)
Theorem create_null_when_classification_fails (Context : RSContext)
  (FD : FunctionDecl) (this' : Descriptor) (out out' : Trace) :
  fdName FD <> "" ->
  validate Context FD (new_RSExportForEach RSExportType Context (fdName FD))
    out = Returned (false, this') out' ->
  create Context FD out = Returned None out'.
Proof.
  intros Hname E. apply String.eqb_neq in Hname.
  unfold Create, slangAssert. unfold bind at 1. rewrite Hname. cbn [negb].
  unfold bind at 1. now rewrite E.
Qed.

Lemma exportIn_without_in (Context : RSContext) (FE : Descriptor)
  (out : Trace) :
  mIn FE = None ->
  exportIn RSExportType_Create Context FE out = Returned FE out.
Proof. intros H. unfold exportIn. now rewrite H. Qed.

Lemma exportOut_without_out (Context : RSContext) (FE : Descriptor)
  (out : Trace) :
  mOut FE = None ->
  exportOut RSExportType_Create Context FE out = Returned FE out.
Proof. intros H. unfold exportOut. now rewrite H. Qed.

(** Lines 239-291 on a descriptor without a packet: afterwards there is
    a packet exactly when [mUsrData] is occupied, the packet is a
    record, and an occupied [mUsrData] does not point to void. *)
Lemma extractUsrData_packet (Context : RSContext) (FE FE' : Descriptor)
  (Id : string) (out out' : Trace) :
  mParamPacketType FE = None ->
  extractUsrData getClass RSExportType_Create Context FE Id out =
    Returned (Some FE') out' ->
  isSome (mParamPacketType FE') = isSome (mUsrData FE')
  /\ (forall ET, mParamPacketType FE' = Some ET ->
      getClass ET = ExportClassRecord)
  /\ (forall PVD Pointee,
      mUsrData FE' = Some PVD ->
      getPointeeType (pvdType PVD) = Some Pointee ->
      getUnqualifiedType Pointee <> VoidTy)
  /\ set_mParamPacketType (set_mUsrData FE' (mUsrData FE)) None = FE.
Proof.
  intros HP.
  assert (Hid : set_mParamPacketType (set_mUsrData FE (mUsrData FE)) None = FE)
    by (rewrite <- HP; now destruct FE).
  unfold extractUsrData, slangAssert, fprintf_stderr, emit, getCanonicalType,
    bind, ret.
  destruct (mUsrData FE) as [PVD |] eqn:EU.
  - destruct (isPointerToConst (pvdType PVD)); [| discriminate].
    destruct (getPointeeType (pvdType PVD)) as [Pointee |] eqn:EP;
      [| discriminate].
    destruct (QualType_eqb (getUnqualifiedType Pointee) VoidTy) eqn:EV.
    + intros E. injection E as <- _. cbn. rewrite HP.
      repeat split; try discriminate.
      etransitivity; [| exact Hid]. now destruct FE.
    + destruct (RSExportType_Create _ _ _) as [| [ET |] o]; try discriminate.
      destruct (isExportClassRecord (getClass ET)) eqn:EC; [| discriminate].
      intros E. injection E as <- _. cbn. rewrite EU.
      split; [reflexivity |]. split; [| split].
      * intros ? [= <-]. now destruct (getClass ET).
      * intros ? ? [= <-] HPo HV. rewrite EP in HPo. injection HPo as <-.
        apply QualType_eqb_VoidTy in HV. congruence.
      * etransitivity; [| exact Hid]. now destruct FE.
  - intros E. injection E as <- _. rewrite HP, EU.
    repeat split; try discriminate. exact Hid.
Qed.

(** X20. A descriptor that [Create] returns carries the name of the
    function (which is not empty) and its number of parameters, is no
    dummy root, has a parameter packet exactly when its UserData slot
    is occupied, the packet is a record, an occupied UserData slot never
    points to void, and there is an exported Input (Output) type only
    when the Input (Output) slot is occupied. *)
Theorem created_descriptor_invariants (Context : RSContext)
  (FD : FunctionDecl) (FE : Descriptor) (out out' : Trace) :
  create Context FD out = Returned (Some FE) out' ->
  fdName FD <> ""
  /\ mName FE = fdName FD
  /\ numParams FE = getNumParams FD
  /\ mDummyRoot FE = false
  /\ isSome (mParamPacketType FE) = isSome (mUsrData FE)
  /\ (forall ET, mParamPacketType FE = Some ET ->
      getClass ET = ExportClassRecord)
  /\ (forall PVD Pointee,
      mUsrData FE = Some PVD ->
      getPointeeType (pvdType PVD) = Some Pointee ->
      getUnqualifiedType Pointee <> VoidTy)
  /\ (mIn FE = None -> mInType FE = None)
  /\ (mOut FE = None -> mOutType FE = None).
Proof.
  unfold Create, slangAssert. unfold bind at 1.
  destruct (String.eqb (fdName FD) "") eqn:EN; cbn [negb]; [discriminate |].
  apply String.eqb_neq in EN.
  unfold bind at 1.
  destruct (validate _ _ _ _) as [| [ok FE0] out0] eqn:EV; [discriminate |].
  destruct ok; cbn [negb]; [| discriminate].
  unfold bind at 1.
  destruct (extractUsrData _ _ _ _ _ _) as [| [FE1 |] out1] eqn:EX;
    try discriminate.
  unfold bind at 1.
  destruct (exportIn _ _ _ _) as [| FE2 out2] eqn:EI; [discriminate |].
  unfold bind at 1.
  destruct (exportOut _ _ _ _) as [| FE3 out3] eqn:EO; [discriminate |].
  intros E. injection E as <- _.
  apply validate_success in EV
    as (_ & _ & _ & _ & _ & _ & _ & _ & V1 & V2 & V3 & V4 & V5 & V6).
  apply extractUsrData_packet in EX as (X1 & X2 & X3 & X4); [| exact V3].
  assert (HI : mIn FE2 = None -> FE2 = FE1).
  { intros H. rewrite exportIn_without_in in EI; [now injection EI |].
    apply exportIn_slots in EI. rewrite <- EI. exact H. }
  assert (HO : mOut FE3 = None -> FE3 = FE2).
  { intros H. rewrite exportOut_without_out in EO; [now injection EO |].
    apply exportOut_slots in EO. rewrite <- EO. exact H. }
  apply exportIn_slots in EI. apply exportOut_slots in EO.
  destruct FE3 as [n3 pt3 it3 ot3 np3 sm3 i3 o3 u3 x3 y3 d3].
  destruct FE2 as [n2 pt2 it2 ot2 np2 sm2 i2 o2 u2 x2 y2 d2].
  destruct FE1 as [n1 pt1 it1 ot1 np1 sm1 i1 o1 u1 x1 y1 d1].
  destruct FE0 as [n0 pt0 it0 ot0 np0 sm0 i0 o0 u0 x0 y0 d0].
  cbn in *.
  injection EO as -> -> -> -> -> -> -> -> -> -> ->.
  injection EI as -> -> -> -> -> -> -> -> -> -> ->.
  injection X4 as -> -> -> -> -> -> -> -> -> ->.
  subst.
  split; [exact EN |].
  do 6 (split; [reflexivity || assumption |]).
  split.
  - intros H. specialize (HI H). now injection HI.
  - intros H. specialize (HO H). now injection HO.
Qed.


(** X21. With an exporter that always returns and that exports a record
    type as a record, [Create] never fails an assertion on a named
    function with at least one parameter: the assertions on the shape of
    UserData (lines 242-243) and on the class of the packet (lines
    286-287) cannot fire. *)
Theorem create_returns (Context : RSContext) (FD : FunctionDecl)
  (out : Trace) :
  (forall T o, exists r o', RSExportType_Create Context T o = Returned r o') ->
  (forall D o ET o',
     RSExportType_Create Context (RecordType D) o = Returned (Some ET) o' ->
     getClass ET = ExportClassRecord) ->
  fdName FD <> "" ->
  fdParams FD <> [] ->
  exists r out', create Context FD out = Returned r out'.
Proof.
  intros HE HC Hname Hne. apply String.eqb_neq in Hname.
  unfold Create, slangAssert. unfold bind at 1. rewrite Hname. cbn [negb].
  destruct (validate_run Context FD
              (new_RSExportForEach RSExportType Context (fdName FD)) out Hne)
    as (valid & FE0 & new & EV & _).
  unfold bind at 1. rewrite EV.
  destruct valid; cbn [negb]; [| now eexists _, _].
  apply validate_success in EV as (_ & _ & _ & _ & (_ & _ & SU & _) & _).
  assert (EX : exists r o,
             extractUsrData getClass RSExportType_Create Context FE0
               (String.append
                  (String.append DUMMY_RS_TYPE_NAME_PREFIX
                     "helper_foreach_param:")
                  (String.append (mName FE0) DUMMY_RS_TYPE_NAME_POSTFIX))
               (out ++ new) = Returned r o).
  { unfold extractUsrData, slangAssert, fprintf_stderr, emit, bind, ret.
    destruct (mUsrData FE0) as [PVD |]; [| now eexists _, _].
    specialize (SU PVD eq_refl). rewrite SU.
    unfold isPointerToConst in SU. apply andb_true_iff in SU as [_ SU].
    destruct (getPointeeType (getCanonicalType (pvdType PVD)))
      as [Pointee |]; [| discriminate SU].
    destruct (QualType_eqb _ VoidTy); [now eexists _, _ |].
    cbn [getTypePtr].
    match goal with
    | |- context [RSExportType_Create Context (RecordType ?D) ?o] =>
        destruct (HE (RecordType D) o) as (r & o' & Er);
        pose proof (HC D o) as HC'; rewrite Er in *
    end.
    destruct r as [ET |]; [| now eexists _, _].
    rewrite (HC' ET o' eq_refl). now eexists _, _. }
  destruct EX as (r & o & EX). unfold bind at 1. rewrite EX.
  destruct r as [FE1 |]; [| now eexists _, _].
  assert (EI : exists FE2 o2,
             exportIn RSExportType_Create Context FE1 o = Returned FE2 o2).
  { unfold exportIn, bind, ret. destruct (mIn FE1); [| now eexists _, _].
    match goal with
    | |- context [RSExportType_Create Context ?T ?o] =>
        destruct (HE T o) as (r & o' & Er); rewrite Er
    end. now eexists _, _. }
  destruct EI as (FE2 & o2 & EI). unfold bind at 1. rewrite EI.
  assert (EO : exists FE3 o3,
             exportOut RSExportType_Create Context FE2 o2 = Returned FE3 o3).
  { unfold exportOut, bind, ret. destruct (mOut FE2); [| now eexists _, _].
    match goal with
    | |- context [RSExportType_Create Context ?T ?o] =>
        destruct (HE T o) as (r & o' & Er); rewrite Er
    end. now eexists _, _. }
  destruct EO as (FE3 & o3 & EO). unfold bind at 1. rewrite EO.
  now eexists _, _.
Qed.


(** X22. With an exporter that supports no type, an accepted kernel with
    a UserData parameter that does not point to void makes [Create]
    return NULL with one line on stderr, while a kernel without such a
    parameter still gets its descriptor: the failed exports of the Input
    and Output types are not checked and leave those types NULL. *)
Theorem create_without_exporter (Context : RSContext) (FD : FunctionDecl)
  (FE0 : Descriptor) (out out0 : Trace) :
  fdName FD <> "" ->
  validate Context FD (new_RSExportForEach RSExportType Context (fdName FD))
    out = Returned (true, FE0) out0 ->
  (forall PVD Pointee,
     mUsrData FE0 = Some PVD ->
     getPointeeType (pvdType PVD) = Some Pointee ->
     getUnqualifiedType Pointee <> VoidTy ->
     Create SLANG_MINIMUM_TARGET_API SLANG_ICS_TARGET_API SLANG_JB_TARGET_API
       DUMMY_RS_TYPE_NAME_PREFIX DUMMY_RS_TYPE_NAME_POSTFIX isRootRSFunc
       getClass (fun _ _ => ret None) Context FD out =
       Returned None
         (out0
          ++ [Stderr
                (String.append "Failed to export the function "
                   (String.append (fdName FD)
                      (String.append
                         ". There's at least one parameter whose type is not supported by the reflection"
                         (String (Ascii.ascii_of_nat 10) EmptyString))))]))
  /\ ((mUsrData FE0 = None
       \/ exists PVD Pointee,
            mUsrData FE0 = Some PVD
            /\ getPointeeType (pvdType PVD) = Some Pointee
            /\ getUnqualifiedType Pointee = VoidTy) ->
      Create SLANG_MINIMUM_TARGET_API SLANG_ICS_TARGET_API SLANG_JB_TARGET_API
        DUMMY_RS_TYPE_NAME_PREFIX DUMMY_RS_TYPE_NAME_POSTFIX isRootRSFunc
        getClass (fun _ _ => ret None) Context FD out =
        Returned (Some (set_mUsrData FE0 None)) out0).
Proof.
  intros Hname EV. apply String.eqb_neq in Hname.
  pose proof (validate_success _ _ _ _ _ _ EV)
    as (_ & _ & _ & _ & (_ & _ & SU & _) & _ & _ & _ & V1 & _ & _ & V4 & V5
        & _).
  assert (Hc :
    Create SLANG_MINIMUM_TARGET_API SLANG_ICS_TARGET_API SLANG_JB_TARGET_API
      DUMMY_RS_TYPE_NAME_PREFIX DUMMY_RS_TYPE_NAME_POSTFIX isRootRSFunc
      getClass (fun _ _ => ret None) Context FD out =
    (r <- extractUsrData getClass (fun _ _ => ret None) Context FE0
            (String.append
               (String.append DUMMY_RS_TYPE_NAME_PREFIX "helper_foreach_param:")
               (String.append (mName FE0) DUMMY_RS_TYPE_NAME_POSTFIX)) ;;
     match r with
     | None => ret None
     | Some FE =>
         FE <- exportIn (fun _ _ => ret None) Context FE ;;
         FE <- exportOut (fun _ _ => ret None) Context FE ;;
         ret (Some FE)
     end) out0).
  { unfold Create, slangAssert. unfold bind at 1. rewrite Hname. cbn [negb].
    unfold bind at 1. now rewrite EV. }
  rewrite Hc. clear Hc.
  assert (Hfin : forall FE : Descriptor,
             mInType FE = None -> mOutType FE = None ->
             (FE1 <- exportIn (fun _ _ => ret None) Context FE ;;
              FE2 <- exportOut (fun _ _ => ret None) Context FE1 ;;
              ret (Some FE2)) out0 = Returned (Some FE) out0).
  { intros FE HI HO. unfold exportIn, exportOut, bind, ret.
    destruct FE as [n pt it ot np sm i o u x y d]. cbn in *. subst.
    now destruct i, o. }
  split.
  - intros PVD Pointee EU EP HV.
    pose proof (SU PVD EU) as SP. unfold getCanonicalType in SP.
    unfold extractUsrData, slangAssert, fprintf_stderr, emit, bind, ret,
      getCanonicalType.
    rewrite EU, SP, EP.
    destruct (QualType_eqb (getUnqualifiedType Pointee) VoidTy) eqn:EQ.
    + apply QualType_eqb_VoidTy in EQ. contradiction.
    + now rewrite V1.
  - intros [EU | (PVD & Pointee & EU & EP & HV)].
    + unfold bind at 1. unfold extractUsrData. rewrite EU. unfold ret at 1.
      rewrite (Hfin FE0 V4 V5). f_equal. f_equal.
      rewrite <- EU. now destruct FE0.
    + pose proof (SU PVD EU) as SP. unfold getCanonicalType in SP.
      unfold bind at 1.
      unfold extractUsrData, slangAssert, getCanonicalType.
      rewrite EU, SP, EP. unfold bind at 1.
      apply QualType_eqb_VoidTy in HV. rewrite HV. unfold ret at 1.
      apply (Hfin (set_mUsrData FE0 None)); assumption.
Qed.


(** *** Signatures that are accepted *)

Lemma isUnsignedInt_not_pointer (T : QualType) :
  isUnsignedInt T = true -> isPointerType T = false.
Proof.
  unfold isUnsignedInt. intros H. apply QualType_eqb_UnsignedIntTy in H.
  destruct T as [q [k | p | d]]; cbn in H |- *; try reflexivity.
  discriminate H.
Qed.

Lemma nth_error_hd_skipn {A} (l : list A) (i : nat) :
  nth_error l i = hd_error (skipn i l).
Proof.
  revert i. induction l as [| a l IH]; intros [| i]; try reflexivity.
  cbn. apply IH.
Qed.

Lemma skipn_past_prefix {A} (l pre post : list A) (i : nat) :
  skipn i l = pre ++ post -> skipn (List.length pre + i) l = post.
Proof.
  intros H. rewrite <- skipn_skipn, H.
  clear H. induction pre as [| a pre IH]; [reflexivity | exact IH].
Qed.

Lemma slotOf_some (shape : QualType -> bool) (p : ParmVarDecl) :
  slotOf shape (Some p) -> shape (pvdType p) = true.
Proof. intros H. exact (H p eq_refl). Qed.

Lemma matchIn_fits (FD : FunctionDecl) (this : Descriptor) (out : Trace)
  (oI : option ParmVarDecl) (R : list ParmVarDecl) :
  mIn this = None ->
  fdParams FD = optList oI ++ R ->
  fdParams FD <> [] ->
  slotOf isPointerToConst oI ->
  (oI = None ->
   forall p, hd_error R = Some p -> isPointerToConst (pvdType p) = false) ->
  matchIn FD this 0 out =
    Returned (set_mIn this oI, List.length (optList oI)) out.
Proof.
  intros HI HL Hne SI Hhd.
  assert (Hid : set_mIn this None = this)
    by (rewrite <- HI; now destruct this).
  destruct (fdParams FD) as [| p0 rest] eqn:Hp; [congruence |].
  rewrite (matchIn_run FD this out p0 rest Hp).
  destruct oI as [a |]; cbn in HL.
  - injection HL as <- _. now rewrite (slotOf_some _ _ SI).
  - rewrite (Hhd eq_refl p0); [now rewrite Hid | now rewrite <- HL].
Qed.

Lemma matchOut_fits (FD : FunctionDecl) (this : Descriptor) (i : nat)
  (out : Trace) (oO : option ParmVarDecl) (R : list ParmVarDecl) :
  mOut this = None ->
  numParams this = getNumParams FD ->
  skipn i (fdParams FD) = optList oO ++ R ->
  slotOf isPointerToNonConst oO ->
  (oO = None ->
   forall p, hd_error R = Some p -> isPointerToNonConst (pvdType p) = false) ->
  matchOut FD this i out =
    Returned (set_mOut this oO, (List.length (optList oO) + i)%nat) out.
Proof.
  intros HO Hn HL SO Hhd.
  assert (Hid : set_mOut this None = this)
    by (rewrite <- HO; now destruct this).
  pose proof (nth_error_hd_skipn (fdParams FD) i) as Hnth. rewrite HL in Hnth.
  destruct oO as [b |]; cbn in Hnth.
  - rewrite (matchOut_at FD this i out b Hnth Hn).
    now rewrite (slotOf_some _ _ SO).
  - destruct (hd_error R) as [p |] eqn:Hh.
    + rewrite (matchOut_at FD this i out p Hnth Hn).
      rewrite (Hhd eq_refl p eq_refl). now rewrite Hid.
    + rewrite matchOut_at_end; [now rewrite Hid |].
      rewrite Hn. now apply nth_error_None.
Qed.

Lemma matchUsrData_fits (FD : FunctionDecl) (this : Descriptor) (i : nat)
  (out : Trace) (oU : option ParmVarDecl) (R : list ParmVarDecl) :
  mUsrData this = None ->
  numParams this = getNumParams FD ->
  skipn i (fdParams FD) = optList oU ++ R ->
  slotOf isPointerToConst oU ->
  (oU = None ->
   forall p, hd_error R = Some p -> isPointerToConst (pvdType p) = false) ->
  matchUsrData FD this i out =
    Returned (set_mUsrData this oU, (List.length (optList oU) + i)%nat) out.
Proof.
  intros HU Hn HL SU Hhd.
  assert (Hid : set_mUsrData this None = this)
    by (rewrite <- HU; now destruct this).
  pose proof (nth_error_hd_skipn (fdParams FD) i) as Hnth. rewrite HL in Hnth.
  destruct oU as [c |]; cbn in Hnth.
  - rewrite (matchUsrData_at FD this i out c Hnth Hn).
    now rewrite (slotOf_some _ _ SU).
  - destruct (hd_error R) as [p |] eqn:Hh.
    + rewrite (matchUsrData_at FD this i out p Hnth Hn).
      rewrite (Hhd eq_refl p eq_refl). now rewrite Hid.
    + rewrite matchUsrData_at_end; [now rewrite Hid |].
      rewrite Hn. now apply nth_error_None.
Qed.

Lemma coordinatesFit_head (C : list ParmVarDecl) (p : ParmVarDecl) :
  coordinatesFit C = true ->
  hd_error C = Some p ->
  isPointerType (pvdType p) = false.
Proof.
  unfold getCanonicalType.
  destruct C as [| c1 [| c2 [| c3 C]]]; cbn; try discriminate.
  - intros H [= <-]. now apply isUnsignedInt_not_pointer.
  - intros H [= <-]. apply andb_true_iff in H as [H _].
    apply andb_true_iff in H as [H _]. apply andb_true_iff in H as [H _].
    now apply isUnsignedInt_not_pointer.
Qed.

Lemma scanParams_fits (FD : FunctionDecl) (C : list ParmVarDecl)
  (valid : bool) (this : Descriptor) (out : Trace) :
  coordinatesFit C = true ->
  mX this = None -> mY this = None ->
  exists oX oY,
    scanParams FD C (valid, this) out =
      Returned (valid, set_mY (set_mX this oX) oY) out
    /\ C = optList oX ++ optList oY.
Proof.
  intros HC HX HY.
  assert (Hid : set_mY (set_mX this None) None = this).
  { rewrite <- HX at 1. rewrite <- HY at 1. now destruct this. }
  unfold coordinatesFit, isUnsignedInt, getCanonicalType in HC.
  destruct C as [| c1 [| c2 [| c3 C]]]; try discriminate HC.
  - exists None, None. cbn. now rewrite Hid.
  - apply QualType_eqb_UnsignedIntTy in HC.
    destruct (String.eqb (pvdName c1) "y") eqn:Ey;
      [destruct (String.eqb (pvdName c1) "x") eqn:Ex |].
    + apply String.eqb_eq in Ex, Ey. congruence.
    + exists None, (Some c1). split; [| reflexivity].
      erewrite scanParams_cons; [reflexivity |].
      rewrite (scanParam_unsigned FD c1 _ HC), Ex, Ey, HY.
      cbn [isSome]. unfold ret. f_equal. f_equal.
      rewrite <- HX at 1. now destruct this.
    + exists (Some c1), None. split; [| reflexivity].
      erewrite scanParams_cons; [reflexivity |].
      rewrite (scanParam_unsigned FD c1 _ HC), Ey, HX, HY.
      cbn [isSome negb andb]. unfold ret.
      destruct (String.eqb (pvdName c1) "x"); f_equal; f_equal;
        rewrite <- HY at 1; now destruct this.
  - apply andb_true_iff in HC as [HC H2x]. apply andb_true_iff in HC as [HC H1y].
    apply andb_true_iff in HC as [H1 H2].
    apply QualType_eqb_UnsignedIntTy in H1, H2.
    apply negb_true_iff in H2x, H1y.
    exists (Some c1), (Some c2). split; [| reflexivity].
    erewrite scanParams_cons.
    2:{ rewrite (scanParam_unsigned FD c1 _ H1), H1y, HX, HY.
        cbn [isSome negb andb].
        now destruct (String.eqb (pvdName c1) "x"). }
    erewrite scanParams_cons; [reflexivity |].
    rewrite (scanParam_unsigned FD c2 _ H2), H2x.
    replace (mX (set_mX this (Some c1))) with (Some c1) by reflexivity.
    replace (mY (set_mX this (Some c1))) with (mY this) by reflexivity.
    rewrite HY. cbn [isSome negb andb].
    now destruct (String.eqb (pvdName c2) "y").
Qed.


(** X23. The signatures that classify on a target from ICS on: a
    function that passes the gate on non-root kernels, returns void,
    and whose parameters are an optional pointer to const, an optional
    pointer to non-const (at least one of the two), an optional pointer
    to const, and then coordinates that fit (none, one unsigned int, or
    two of which the first is not called "y" and the second is not
    called "x"), is accepted without a report, with those parameters in
    the slots Input, Output, UserData and the coordinates in CoordX and
    CoordY. *)
Theorem well_formed_signature_accepted (Context : RSContext)
  (FD : FunctionDecl) (Name : string) (out : Trace)
  (oI oO oU : option ParmVarDecl) (C : list ParmVarDecl) :
  passes_gate Context FD = true ->
  SLANG_ICS_TARGET_API <= getTargetAPI Context ->
  fdResultType FD = VoidTy ->
  fdParams FD = optList oI ++ optList oO ++ optList oU ++ C ->
  slotOf isPointerToConst oI ->
  slotOf isPointerToNonConst oO ->
  slotOf isPointerToConst oU ->
  isSome oI || isSome oO = true ->
  coordinatesFit C = true ->
  exists this',
    validate Context FD (new_RSExportForEach RSExportType Context Name) out =
      Returned (true, this') out
    /\ mIn this' = oI /\ mOut this' = oO /\ mUsrData this' = oU
    /\ C = optList (mX this') ++ optList (mY this').
Proof.
  intros Hg Hapi HR HL SI SO SU Hio HC.
  assert (Hne : fdParams FD <> []).
  { rewrite HL. destruct oI; [discriminate |].
    destruct oO; [discriminate | discriminate Hio]. }
  set (this0 := set_numParams (new_RSExportForEach RSExportType Context Name)
                  (getNumParams FD)).
  (* what stands at the head of the rest when a slot is skipped *)
  assert (HhdC : forall p, hd_error C = Some p ->
                 isPointerToConst (pvdType p) = false
                 /\ isPointerToNonConst (pvdType p) = false).
  { intros p Hp. apply not_pointer_neither.
    now apply (coordinatesFit_head C). }
  assert (HhdU : oO = None ->
                 forall p, hd_error (optList oU ++ C) = Some p ->
                 isPointerToNonConst (pvdType p) = false).
  { intros _ p Hp. destruct oU as [c |]; cbn in Hp.
    - injection Hp as <-. pose proof (slotOf_some _ _ SU) as Hc.
      rewrite (pointer_const_or_not _ (isPointerToConst_isPointerType _ Hc))
        in Hc.
      now apply negb_true_iff in Hc.
    - now apply HhdC. }
  assert (HhdO : oI = None ->
                 forall p, hd_error (optList oO ++ optList oU ++ C) = Some p ->
                 isPointerToConst (pvdType p) = false).
  { intros -> p Hp. destruct oO as [b |]; [| discriminate Hio].
    cbn in Hp. injection Hp as <-. pose proof (slotOf_some _ _ SO) as Hb.
    rewrite (pointer_const_or_not _ (isPointerToNonConst_isPointerType _ Hb)).
    now rewrite Hb. }
  assert (HhdX : oU = None ->
                 forall p, hd_error C = Some p ->
                 isPointerToConst (pvdType p) = false).
  { intros _ p Hp. now apply HhdC. }
  (* the positions *)
  assert (L1 : skipn (List.length (optList oI)) (fdParams FD)
               = optList oO ++ optList oU ++ C).
  { rewrite <- (Nat.add_0_r (List.length (optList oI))).
    now apply skipn_past_prefix. }
  assert (L2 : skipn (List.length (optList oO) + List.length (optList oI))
                 (fdParams FD) = optList oU ++ C)
    by now apply skipn_past_prefix.
  assert (L3 : skipn (List.length (optList oU)
                      + (List.length (optList oO) + List.length (optList oI)))
                 (fdParams FD) = C)
    by now apply skipn_past_prefix.
  destruct (scanParams_fits FD C true
              (set_mUsrData (set_mOut (set_mIn this0 oI) oO) oU) out HC
              eq_refl eq_refl) as (oX & oY & EC & LC).
  assert (ES : classifyShape FD this0 out =
               Returned (true,
                         set_mY (set_mX (set_mUsrData (set_mOut
                           (set_mIn this0 oI) oO) oU) oX) oY) out).
  { unfold classifyShape.
    assert (E1 : checkResultType FD true out = Returned true out).
    { rewrite checkResultType_eq, HR. reflexivity. }
    run_block E1.
    run_block (matchIn_fits FD this0 out oI _ eq_refl HL Hne SI HhdO).
    run_block (matchOut_fits FD (set_mIn this0 oI) _ out oO _ eq_refl eq_refl
                 L1 SO HhdU).
    assert (E3 : checkInOrOut FD (set_mOut (set_mIn this0 oI) oO) true out
                 = Returned true out).
    { rewrite checkInOrOut_eq.
      replace (mIn (set_mOut (set_mIn this0 oI) oO)) with oI by reflexivity.
      replace (mOut (set_mOut (set_mIn this0 oI) oO)) with oO by reflexivity.
      now rewrite Hio. }
    run_block E3.
    run_block (matchUsrData_fits FD (set_mOut (set_mIn this0 oI) oO) _ out oU
                 _ eq_refl eq_refl L2 SU HhdX).
    rewrite L3. exact EC. }
  rewrite (validate_via_shape Context FD _ _ true out out Hg ES).
  unfold bind, ret. rewrite checkSkip_run.
  apply Z.ltb_ge in Hapi. rewrite Hapi. cbn [andb].
  eexists. split; [reflexivity |].
  destruct (setSignatureMetadata_valid
              (set_mY (set_mX (set_mUsrData (set_mOut (set_mIn this0 oI) oO)
                 oU) oX) oY)) as (_ & MI & MO & MU & MX & MY).
  rewrite MI, MO, MU, MX, MY.
  repeat split. exact LC.
Qed.

End SlangFacts.

(** ** The claims at work on sample kernels *)

Module Samples.

Import Droid.

(** How the samples classify. *)
Example kernelFull_JB :
  validate JB kernelFull (fresh "foo") [] =
    Returned (true,
              mkRSExportForEach "foo" None None None 5%nat 0x1f
                (Some p_in) (Some p_out) (Some p_data) (Some p_x) (Some p_y)
                false) [].
Proof. reflexivity. Qed.

Example kernelInYZ_reaches_afterInY :
  scanParams kernelInYZ [p_y]
    (true, set_mIn (set_numParams (fresh "foo") 3) (Some p_in)) [] =
    Returned (true, afterInY) [].
Proof. reflexivity. Qed.

Example kernelInAX_reaches_afterInA :
  scanParams kernelInAX [p_a]
    (true, set_mIn (set_numParams (fresh "foo") 3) (Some p_in)) [] =
    Returned (true, afterInA) [].
Proof. reflexivity. Qed.

Example rootInOutData_HC :
  validate HC rootInOutData (fresh "root") [] = Returned (true, withMask07) [].
Proof. reflexivity. Qed.

Example rootInOutX_HC :
  validate HC rootInOutX (fresh "root") [] =
    Returned (false, withMask0b)
      [mayNotSkip 11 14 rootInOutX].
Proof. reflexivity. Qed.

Example rootInOutX_ICS :
  validate ICS rootInOutX (fresh "root") [] = Returned (true, withMask0b) [].
Proof. reflexivity. Qed.

(** C1, the claim as stated fails: [Create] on [kernelVoidUsr] returns a
    descriptor whose UserData slot is empty while bit 0x04 of its
    signatureMetadata is set. *)
Lemma create_void_usrData_keeps_bit :
  create JB kernelVoidUsr [] = Returned (Some createdVoidUsr) []
  /\ mUsrData createdVoidUsr = None
  /\ hasBit (mSignatureMetadata createdVoidUsr) 0x04 = true
  /\ hasBit (mSignatureMetadata createdVoidUsr) 0x04
     <> isSome (mUsrData createdVoidUsr).
Proof.
  split; [reflexivity |]. split; [reflexivity |].
  split; [reflexivity | discriminate].
Qed.

Lemma create_signature_metadata_witness :
  create JB kernelFull [] = Returned (Some createdFull) []
  /\ exists FE0 out0,
       validate JB kernelFull (fresh (fdName kernelFull)) [] =
         Returned (true, FE0) out0
       /\ mSignatureMetadata createdFull = mSignatureMetadata FE0
       /\ hasBit (mSignatureMetadata createdFull) 0x01 = isSome (mIn createdFull)
       /\ hasBit (mSignatureMetadata createdFull) 0x02
          = isSome (mOut createdFull)
       /\ hasBit (mSignatureMetadata createdFull) 0x04 = isSome (mUsrData FE0)
       /\ hasBit (mSignatureMetadata createdFull) 0x08 = isSome (mX createdFull)
       /\ hasBit (mSignatureMetadata createdFull) 0x10 = isSome (mY createdFull)
       /\ (mUsrData createdFull = mUsrData FE0
           \/ (mUsrData createdFull = None
               /\ exists PVD Pointee,
                    mUsrData FE0 = Some PVD
                    /\ getPointeeType (pvdType PVD) = Some Pointee
                    /\ getUnqualifiedType Pointee = VoidTy)).
Proof.
  split; [reflexivity |].
  apply (create_signature_metadata 11 14 16 "<" ">" isRootRSFunc ExportClass
           (fun c : ExportClass => c) exportType JB kernelFull createdFull
           [] []).
  reflexivity.
Defined.

(** C2, the claim as stated fails: on [void foo(unsigned x)] neither
    Input nor Output is assigned and the error is recorded, yet the
    scan goes on and assigns CoordX. *)
Lemma coordinates_scanned_without_in_or_out :
  validate JB kernelXOnly (fresh "foo") [] =
    Returned
      (false,
       mkRSExportForEach "foo" None None None 1%nat 0
         None None None (Some p_x) None false)
      [Reported (mkError 0 msgInOrOut [ArgString "foo"])].
Proof. reflexivity. Qed.

Example kernelFloatX_JB :
  validate JB kernelFloatX (fresh "foo") [] =
    Returned
      (false,
       mkRSExportForEach "foo" None None None 2%nat 0
         None None None (Some p_x) None false)
      [Reported (mkError 0 msgReturnVoid [ArgString "foo"]);
       Reported (mkError 0 msgInOrOut [ArgString "foo"]);
       Reported (mkError 8 msgUnexpected
                   [ArgString "foo"; ArgString "f"; ArgType FloatTy])].
Proof. reflexivity. Qed.

Lemma missing_in_and_out_witness :
  passesRootGate 16 isRootRSFunc JB kernelFloatX = true
  /\ fdParams kernelFloatX <> []
  /\ exists valid this' new,
       validate JB kernelFloatX (fresh "foo") [] =
         Returned (valid, this') ([] ++ new)
       /\ (mIn this' = None -> mOut this' = None ->
           let this0 := set_numParams (fresh "foo") (getNumParams kernelFloatX)
           in
           let pre :=
             (if QualType_eqb (fdResultType kernelFloatX) VoidTy then []
              else [Reported (mkError (fdLocation kernelFloatX) msgReturnVoid
                      [ArgString (fdName kernelFloatX)])])
             ++ [Reported (mkError (fdLocation kernelFloatX) msgInOrOut
                    [ArgString (fdName kernelFloatX)])] in
           valid = false
           /\ mSignatureMetadata this' = 0
           /\ mUsrData this' = None
           /\ exists this1 scanned,
                scanParams kernelFloatX (fdParams kernelFloatX) (false, this0)
                  ([] ++ pre) =
                  Returned (false, this1) (([] ++ pre) ++ scanned)
                /\ this' = setSignatureMetadata false this1
                /\ new = pre ++ scanned
                         ++ (if getTargetAPI JB <? 14
                             then [mayNotSkip 11 14 kernelFloatX] else [])).
Proof.
  split; [reflexivity |]. split; [discriminate |].
  apply (missing_in_and_out 11 14 16 isRootRSFunc ExportClass JB kernelFloatX
           "foo" []).
  - reflexivity.
  - discriminate.
Defined.

(** C3, the claim as stated fails: when the loop of [kernelInYZ] reaches
    [z], CoordX is empty and CoordY holds [y]; [z] is not assigned to
    CoordX but reported. *)
Lemma unnamed_after_y_is_not_CoordX :
  mX afterInY = None
  /\ mY afterInY = Some p_y
  /\ scanParam kernelInYZ p_z (true, afterInY) [] =
       Returned (false, afterInY)
         [Reported (mkError 6 msgUnexpected
                      [ArgString "foo"; ArgString "z"; ArgType UnsignedIntTy])]
  /\ validate JB kernelInYZ (fresh "foo") [] =
       Returned (false, afterInY)
         [Reported (mkError 6 msgUnexpected
                      [ArgString "foo"; ArgString "z"; ArgType UnsignedIntTy])].
Proof. repeat split. Qed.

Lemma unnamed_coordinate_assignment_witness :
  getUnqualifiedType (pvdType p_z) = UnsignedIntTy
  /\ pvdName p_z <> "x"
  /\ pvdName p_z <> "y"
  /\ (mX afterInY = None -> mY afterInY = None ->
      scanParam kernelInYZ p_z (true, afterInY) [] =
        Returned (true, set_mX afterInY (Some p_z)) [])
  /\ (mX afterInY <> None -> mY afterInY = None ->
      scanParam kernelInYZ p_z (true, afterInY) [] =
        Returned (true, set_mY afterInY (Some p_z)) [])
  /\ (mY afterInY <> None ->
      scanParam kernelInYZ p_z (true, afterInY) [] =
        Returned (false, afterInY)
          ([] ++ [Reported (mkError (pvdLocation p_z) msgUnexpected
                     [ArgString (fdName kernelInYZ); ArgString (pvdName p_z);
                      ArgType (pvdType p_z)])])).
Proof.
  split; [reflexivity |]. split; [discriminate |]. split; [discriminate |].
  apply (unnamed_coordinate_assignment ExportClass kernelInYZ p_z true
           afterInY []).
  - reflexivity.
  - discriminate.
  - discriminate.
Defined.

(** C4, the claim as stated fails: [void root(int *out)] on a target
    before ICS is rejected by the check on skipped parameters alone, and
    its signatureMetadata is left at 0x02. *)
Lemma skip_rejection_keeps_metadata :
  validate HC rootOut (fresh "root") [] =
    Returned
      (false,
       mkRSExportForEach "root" None None None 1%nat 0x02
         None (Some p_out) None None None false)
      [mayNotSkip 11 14 rootOut].
Proof. reflexivity. Qed.

Lemma metadata_after_classification_witness :
  fdParams rootOut <> []
  /\ exists valid this' new,
       validate HC rootOut (fresh "root") [] =
         Returned (valid, this') ([] ++ new)
       /\ ((exists e, In e new /\ isSkipError e = false) ->
           valid = false /\ mSignatureMetadata this' = 0)
       /\ ((forall e, In e new -> isSkipError e = true) ->
           mirrorsSlots this'
           /\ (valid = true <-> new = [])).
Proof.
  split; [discriminate |].
  apply (metadata_after_classification 11 14 16 isRootRSFunc ExportClass HC
           rootOut "root" []).
  discriminate.
Defined.

Lemma generation_check_witness :
  getTargetAPI HC < 14
  /\ 14 <= getTargetAPI ICS
  /\ checkSkip 11 14 HC rootInOutData withMask07 true [] = Returned true []
  /\ checkSkip 11 14 HC rootInOutX withMask0b true [] =
       Returned false ([] ++ [mayNotSkip 11 14 rootInOutX])
  /\ checkSkip 11 14 ICS rootInOutX withMask0b true [] = Returned true [].
Proof.
  split; [reflexivity |]. split; [discriminate |].
  destruct (generation_check 11 14 ExportClass HC rootInOutData withMask07
              true []) as [H07 _].
  destruct (generation_check 11 14 ExportClass HC rootInOutX withMask0b
              true []) as [H0b _].
  destruct (generation_check 11 14 ExportClass ICS rootInOutX withMask0b
              true []) as (_ & HI & _).
  split; [| split].
  - apply (H07 eq_refl). right. right. left. reflexivity.
  - apply (H0b eq_refl). unfold prefixComplete. cbn.
    intros [H | [H | [H | [H | H]]]]; discriminate H.
  - apply HI. discriminate.
Defined.

(** C6, the claim as stated fails: [kernelFull] returns void and has the
    five parameters of the claim, and on an ICS target, where only the
    root function may be a kernel, its classification fails and no slot
    is assigned. *)
Lemma full_signature_before_JB_rejected :
  fdResultType kernelFull = VoidTy
  /\ fdParams kernelFull = [p_in; p_out; p_data; p_x; p_y]
  /\ isPointerToConst (pvdType p_in) = true
  /\ isPointerToNonConst (pvdType p_out) = true
  /\ isPointerToConst (pvdType p_data) = true
  /\ validate ICS kernelFull (fresh "foo") [] =
       Returned
         (false,
          mkRSExportForEach "foo" None None None 5%nat 0
            None None None None None false)
         [Reported (mkError 0 msgNonRoot
                      [ArgString "foo"; ArgInt 11; ArgInt 15])].
Proof. repeat split. Qed.

Lemma full_signature_classified_witness :
  passesRootGate 16 isRootRSFunc JB kernelFull = true
  /\ validate JB kernelFull (fresh "foo") [] =
       Returned
         (true,
          mkRSExportForEach "foo" None None None 5%nat 0x1f
            (Some p_in) (Some p_out) (Some p_data) (Some p_x) (Some p_y) false)
         [].
Proof.
  split; [reflexivity |].
  apply (full_signature_classified 11 14 16 isRootRSFunc ExportClass JB
           kernelFull "foo" [] p_in p_out p_data p_x p_y);
    reflexivity.
Defined.

Lemma named_x_rejected_witness :
  mX afterInA <> None
  /\ scanParam kernelInAX p_x (true, afterInA) [] =
       Returned (false, afterInA)
         ([] ++ [Reported (mkError (pvdLocation p_x) msgDuplicate
                    [ArgString "x"])]).
Proof.
  split; [discriminate |].
  apply (named_x_rejected ExportClass kernelInAX p_x true afterInA []).
  - reflexivity.
  - reflexivity.
  - left. discriminate.
Defined.

Lemma shape_error_adds_skip_report_witness :
  fdParams rootIntIn <> []
  /\ getTargetAPI HC < 14
  /\ exists valid this' new,
       validate HC rootIntIn (fresh "root") [] =
         Returned (valid, this') ([] ++ new)
       /\ ((exists e, In e new /\ isShapeError e = true) ->
           valid = false
           /\ mSignatureMetadata this' = 0
           /\ exists shape,
                new = shape ++ [mayNotSkip 11 14 rootIntIn]
                /\ shape <> []
                /\ Forall (fun e => isShapeError e = true) shape).
Proof.
  split; [discriminate |]. split; [reflexivity |].
  apply (shape_error_adds_skip_report 11 14 16 isRootRSFunc ExportClass HC
           rootIntIn (fresh "root") []).
  - discriminate.
  - reflexivity.
Defined.

Example rootIntIn_HC :
  validate HC rootIntIn (fresh "root") [] =
    Returned
      (false,
       mkRSExportForEach "root" None None None 1%nat 0
         (Some p_in) None None None None false)
      [Reported (mkError 0 msgReturnVoid [ArgString "root"]);
       mayNotSkip 11 14 rootIntIn].
Proof. reflexivity. Qed.

(** The root function as a graphics root: [int root(void)] always,
    [int root(int)] before ICS only, and never with a pointer. *)
Example graphics_root_samples :
  isGraphicsRootRSFunc 14 isRootRSFunc 16 (mkFunctionDecl 0 "root" IntTy [])
    = true
  /\ isGraphicsRootRSFunc 14 isRootRSFunc 11
       (mkFunctionDecl 0 "root" IntTy [mkParmVarDecl 1 "n" IntTy]) = true
  /\ isGraphicsRootRSFunc 14 isRootRSFunc 14
       (mkFunctionDecl 0 "root" IntTy [mkParmVarDecl 1 "n" IntTy]) = false
  /\ isGraphicsRootRSFunc 14 isRootRSFunc 11 rootOut = false
  /\ isGraphicsRootRSFunc 14 isRootRSFunc 16 kernelNoParams = false.
Proof. repeat split. Qed.

Lemma no_parameter_is_an_assertion_witness :
  getNumParams kernelNoParams = 0%nat
  /\ validate JB kernelNoParams (fresh "foo") [] = Aborted "numParams > 0" []
  /\ matchIn kernelNoParams (fresh "foo") 0 [] =
       Aborted "i < getNumParams()" []
  /\ exists text, create JB kernelNoParams [] = Aborted text [].
Proof.
  split; [reflexivity |].
  apply (no_parameter_is_an_assertion 11 14 16 "<" ">" isRootRSFunc
           ExportClass (fun c : ExportClass => c) exportType JB kernelNoParams
           (fresh "foo") []).
  reflexivity.
Defined.

End Samples.

(** ** Further facts at work on sample kernels *)

Module MoreSamples.

Import Droid.

Lemma classification_fails_iff_reported_witness :
  (0 < getNumParams kernelFloatX)%nat
  /\ exists valid this' new,
       validate JB kernelFloatX (fresh "foo") [] =
         Returned (valid, this') ([] ++ new)
       /\ (valid = false <-> new <> [])
       /\ (forall e, In e new -> exists d, e = Reported d).
Proof.
  split; [cbn; lia |].
  apply (classification_fails_iff_reported 11 14 16 isRootRSFunc ExportClass
           JB kernelFloatX (fresh "foo") []).
  cbn. lia.
Defined.

Lemma accepted_parameters_fill_the_slots_witness :
  validate JB kernelFull (fresh "foo") [] = Returned (true, classifiedFull) []
  /\ fdParams kernelFull = slotList classifiedFull
  /\ slotsWellShaped classifiedFull
  /\ (getNumParams kernelFull <= 5)%nat.
Proof.
  split; [reflexivity |].
  apply (accepted_parameters_fill_the_slots 11 14 16 isRootRSFunc ExportClass
           JB kernelFull "foo" classifiedFull [] []).
  reflexivity.
Defined.

Lemma accepted_kernel_facts_witness :
  validate HC rootIn (fresh "root") [] = Returned (true, classifiedRootIn) []
  /\ [] = ([] : Trace)
  /\ fdResultType rootIn = VoidTy
  /\ (isRootRSFunc rootIn = true \/ 16 <= getTargetAPI HC)
  /\ (mIn classifiedRootIn <> None \/ mOut classifiedRootIn <> None)
  /\ mirrorsSlots classifiedRootIn
  /\ 1 <= mSignatureMetadata classifiedRootIn <= 31.
Proof.
  split; [reflexivity |].
  apply (accepted_kernel_facts 11 14 16 isRootRSFunc ExportClass
           HC rootIn "root" classifiedRootIn [] []).
  reflexivity.
Defined.

Lemma more_than_five_parameters_rejected_witness :
  (5 < getNumParams kernelSix)%nat
  /\ exists this' new,
       validate JB kernelSix (fresh "foo") [] =
         Returned (false, this') ([] ++ new)
       /\ new <> [].
Proof.
  split; [cbn; lia |].
  apply (more_than_five_parameters_rejected 11 14 16 isRootRSFunc ExportClass
           JB kernelSix "foo" []).
  cbn. lia.
Defined.

Example kernelSix_JB :
  validate JB kernelSix (fresh "foo") [] =
    Returned
      (false,
       mkRSExportForEach "foo" None None None 6%nat 0
         (Some p_in) (Some p_out) (Some p_data) (Some p_x) (Some p_y) false)
      [Reported (mkError 6 msgUnexpected
                   [ArgString "foo"; ArgString "z"; ArgType UnsignedIntTy])].
Proof. reflexivity. Qed.

Lemma non_void_kernel_rejected_witness :
  fdParams kernelFloatX <> []
  /\ fdResultType kernelFloatX <> VoidTy
  /\ exists this' new,
       validate JB kernelFloatX (fresh "foo") [] =
         Returned (false, this') ([] ++ new)
       /\ (passesRootGate 16 isRootRSFunc JB kernelFloatX = true ->
           exists new',
             new = Reported (mkError (fdLocation kernelFloatX) msgReturnVoid
                               [ArgString (fdName kernelFloatX)]) :: new').
Proof.
  split; [discriminate |]. split; [discriminate |].
  apply (non_void_kernel_rejected 11 14 16 isRootRSFunc ExportClass
           JB kernelFloatX (fresh "foo") []); discriminate.
Defined.


Lemma later_targets_accept_more_witness :
  getTargetAPI HC <= getTargetAPI JB
  /\ validate HC rootIn (fresh "root") [] =
       Returned (true, classifiedRootIn) []
  /\ validate JB rootIn (fresh "root") [] =
       Returned (true, classifiedRootIn) [].
Proof.
  split; [discriminate |]. split; [reflexivity |].
  apply (later_targets_accept_more 11 14 16 isRootRSFunc ExportClass
           HC JB rootIn (fresh "root") classifiedRootIn [] []).
  - discriminate.
  - reflexivity.
Defined.

Lemma accepted_before_ICS_skips_nothing_witness :
  getTargetAPI HC < 14
  /\ validate HC rootIn (fresh "root") [] =
       Returned (true, classifiedRootIn) []
  /\ prefixComplete (mSignatureMetadata classifiedRootIn)
  /\ mIn classifiedRootIn <> None
  /\ (mUsrData classifiedRootIn <> None -> mOut classifiedRootIn <> None)
  /\ (mX classifiedRootIn <> None -> mUsrData classifiedRootIn <> None)
  /\ (mY classifiedRootIn <> None -> mX classifiedRootIn <> None).
Proof.
  split; [reflexivity |]. split; [reflexivity |].
  apply (accepted_before_ICS_skips_nothing 11 14 16 isRootRSFunc ExportClass
           HC rootIn "root" classifiedRootIn [] []).
  - reflexivity.
  - reflexivity.
Defined.

Lemma named_coordinate_assignment_witness :
  getUnqualifiedType (pvdType p_y) = UnsignedIntTy
  /\ pvdName p_y = "y"
  /\ mY afterInA = None
  /\ scanParam kernelInAX p_y (true, afterInA) [] =
       Returned (true, set_mY afterInA (Some p_y)) [].
Proof.
  split; [reflexivity |]. split; [reflexivity |]. split; [reflexivity |].
  destruct (named_coordinate_assignment ExportClass kernelInAX p_y true
              afterInA [] eq_refl) as (_ & H & _).
  apply H; reflexivity.
Defined.

Lemma coordinate_slots_assigned_once_witness :
  scanParams kernelInAX [p_x] (true, afterInA) [] =
    Returned (false, afterInA)
      [Reported (mkError 4 msgDuplicate [ArgString "x"])]
  /\ (forall a, mX afterInA = Some a -> mX afterInA = Some a)
  /\ (forall b, mY afterInA = Some b -> mY afterInA = Some b)
  /\ (mX afterInA = mX afterInA
      \/ exists p, In p [p_x] /\ mX afterInA = Some p)
  /\ (mY afterInA = mY afterInA
      \/ exists p, In p [p_x] /\ mY afterInA = Some p).
Proof.
  split; [reflexivity |].
  apply (coordinate_slots_assigned_once ExportClass kernelInAX [p_x] true
           false afterInA afterInA []
           [Reported (mkError 4 msgDuplicate [ArgString "x"])]).
  reflexivity.
Defined.

Lemma root_is_graphics_or_forEach_witness :
  isRootRSFunc rootLegacy = true
  /\ forEachFunc 11 rootLegacy
     = negb (isGraphicsRootRSFunc 14 isRootRSFunc 11 rootLegacy).
Proof.
  split; [reflexivity |].
  apply (root_is_graphics_or_forEach 14 isRootRSFunc 11 rootLegacy).
  reflexivity.
Defined.

Lemma accepted_kernel_is_forEach_candidate_witness :
  validate JB kernelFull (fresh "foo") [] = Returned (true, classifiedFull) []
  /\ forEachFunc (getTargetAPI JB) kernelFull = true
  /\ isGraphicsRootRSFunc 14 isRootRSFunc (getTargetAPI JB) kernelFull = false.
Proof.
  split; [reflexivity |].
  apply (accepted_kernel_is_forEach_candidate 11 14 16 isRootRSFunc
           ExportClass JB kernelFull "foo" classifiedFull [] []).
  reflexivity.
Defined.

Lemma forEach_candidate_is_classified_witness :
  forEachFunc 16 rootFloat = true
  /\ exists valid this' new,
       validate JB rootFloat (fresh "root") [] =
         Returned (valid, this') ([] ++ new)
       /\ (valid = true <-> new = []).
Proof.
  split; [reflexivity |].
  apply (forEach_candidate_is_classified 11 14 16 isRootRSFunc ExportClass
           16 JB rootFloat (fresh "root") []).
  reflexivity.
Defined.

Lemma root_without_pointer_is_diagnosed_witness :
  isRootRSFunc rootFloat = true
  /\ isGraphicsRootRSFunc 14 isRootRSFunc (getTargetAPI JB) rootFloat = false
  /\ isPointerType (pvdType p_f) = false
  /\ forEachFunc (getTargetAPI JB) rootFloat = true
  /\ exists this' new,
       validate JB rootFloat (fresh "root") [] =
         Returned (false, this') ([] ++ new)
       /\ In (Reported (mkError (fdLocation rootFloat) msgInOrOut
                          [ArgString (fdName rootFloat)])) new
       /\ mIn this' = None /\ mOut this' = None /\ mUsrData this' = None.
Proof.
  split; [reflexivity |]. split; [reflexivity |]. split; [reflexivity |].
  apply (root_without_pointer_is_diagnosed 11 14 16 isRootRSFunc ExportClass
           JB rootFloat "root" [] p_f []); reflexivity.
Defined.

Lemma special_graphics_root_witness :
  isGraphicsRootRSFunc 14 isRootRSFunc 11 rootLegacy = true
  /\ exists valid new,
       special 11 rootLegacy [] = Returned valid ([] ++ new)
       /\ (valid = true <-> new = [])
       /\ (valid = true <->
           fdResultType rootLegacy = IntTy
           /\ forall p, fdParams rootLegacy = [p] -> pvdType p = IntTy).
Proof.
  split; [reflexivity |].
  apply (special_graphics_root 14 isRootRSFunc isInitRSFunc isDtorRSFunc 11
           rootLegacy []).
  reflexivity.
Defined.

Lemma legacy_root_only_parameter_report_witness :
  isGraphicsRootRSFunc 14 isRootRSFunc 11 rootLegacy = true
  /\ fdParams rootLegacy = [p_n]
  /\ special 11 rootLegacy [] =
       (if QualType_eqb (pvdType p_n) IntTy then Returned true []
        else Returned false
               ([] ++ [Reported (mkError (pvdLocation p_n) msgLegacyRootParam
                          [ArgType (pvdType p_n)])])).
Proof.
  split; [reflexivity |]. split; [reflexivity |].
  apply (legacy_root_only_parameter_report 14 isRootRSFunc isInitRSFunc
           isDtorRSFunc 11 rootLegacy [] p_n); reflexivity.
Defined.

Lemma special_init_or_dtor_witness :
  isGraphicsRootRSFunc 14 isRootRSFunc 16 initBad = false
  /\ isInitRSFunc initBad || isDtorRSFunc initBad = true
  /\ special 16 initBad [] =
       Returned false
         [Reported (mkError 0 msgNoParameters [ArgString "init"]);
          Reported (mkError 0 msgVoidReturn [ArgString "init"])].
Proof.
  split; [reflexivity |]. split; [reflexivity |].
  apply (special_init_or_dtor 14 isRootRSFunc isInitRSFunc isDtorRSFunc 16
           initBad []); reflexivity.
Defined.

Lemma special_aborts_iff_witness :
  isGraphicsRootRSFunc 14 isRootRSFunc 16 helper = false
  /\ isInitRSFunc helper = false
  /\ isDtorRSFunc helper = false
  /\ special 16 helper [] =
       Aborted "must be called on root, init or .rs.dtor function!" [].
Proof.
  split; [reflexivity |]. split; [reflexivity |]. split; [reflexivity |].
  destruct (special_aborts_iff 14 isRootRSFunc isInitRSFunc isDtorRSFunc 16
              helper []) as [_ H].
  apply H; reflexivity.
Defined.

Lemma create_null_when_classification_fails_witness :
  fdName kernelXOnly <> ""
  /\ validate JB kernelXOnly (fresh (fdName kernelXOnly)) [] =
       Returned (false, rejectedXOnly)
         [Reported (mkError 0 msgInOrOut [ArgString "foo"])]
  /\ create JB kernelXOnly [] =
       Returned None [Reported (mkError 0 msgInOrOut [ArgString "foo"])].
Proof.
  split; [discriminate |]. split; [reflexivity |].
  apply (create_null_when_classification_fails 11 14 16 "<" ">" isRootRSFunc
           ExportClass (fun c : ExportClass => c) exportType JB kernelXOnly
           rejectedXOnly []
           [Reported (mkError 0 msgInOrOut [ArgString "foo"])]).
  - discriminate.
  - reflexivity.
Defined.

Lemma created_descriptor_invariants_witness :
  create JB kernelFull [] = Returned (Some createdFull) []
  /\ fdName kernelFull <> ""
  /\ mName createdFull = fdName kernelFull
  /\ numParams createdFull = getNumParams kernelFull
  /\ mDummyRoot createdFull = false
  /\ isSome (mParamPacketType createdFull) = isSome (mUsrData createdFull)
  /\ (forall ET, mParamPacketType createdFull = Some ET ->
      ET = ExportClassRecord)
  /\ (forall PVD Pointee,
      mUsrData createdFull = Some PVD ->
      getPointeeType (pvdType PVD) = Some Pointee ->
      getUnqualifiedType Pointee <> VoidTy)
  /\ (mIn createdFull = None -> mInType createdFull = None)
  /\ (mOut createdFull = None -> mOutType createdFull = None).
Proof.
  split; [reflexivity |].
  apply (created_descriptor_invariants 11 14 16 "<" ">" isRootRSFunc
           ExportClass (fun c : ExportClass => c) exportType JB kernelFull
           createdFull [] []).
  reflexivity.
Defined.

Lemma create_returns_witness :
  fdName kernelFull <> ""
  /\ fdParams kernelFull <> []
  /\ exists r out', create JB kernelFull [] = Returned r out'.
Proof.
  split; [discriminate |]. split; [discriminate |].
  apply (create_returns 11 14 16 "<" ">" isRootRSFunc ExportClass
           (fun c : ExportClass => c) exportType JB kernelFull []).
  - intros T o. eexists _, _. reflexivity.
  - intros D o ET o' H. injection H as <- _. reflexivity.
  - discriminate.
  - discriminate.
Defined.

Lemma create_without_exporter_witness :
  fdName kernelFull <> ""
  /\ validate JB kernelFull (fresh (fdName kernelFull)) [] =
       Returned (true, classifiedFull) []
  /\ createWithout JB kernelFull [] =
       Returned None
         ([] ++ [Stderr
                   (String.append "Failed to export the function "
                      (String.append (fdName kernelFull)
                         (String.append
                            ". There's at least one parameter whose type is not supported by the reflection"
                            (String (Ascii.ascii_of_nat 10) EmptyString))))]).
Proof.
  split; [discriminate |]. split; [reflexivity |].
  destruct (create_without_exporter 11 14 16 "<" ">" isRootRSFunc ExportClass
              (fun c : ExportClass => c) JB kernelFull classifiedFull [] [])
    as [H _].
  - discriminate.
  - reflexivity.
  - apply (H p_data (constOf FloatTy)); [reflexivity | reflexivity |].
    discriminate.
Defined.

Example create_without_exporter_on_kernelVoidUsr :
  createWithout JB kernelVoidUsr [] =
    Returned
      (Some (mkRSExportForEach "foo" None None None 5%nat 0x1f
               (Some p_in) (Some p_out) None (Some p_x) (Some p_y) false)) [].
Proof. reflexivity. Qed.

Lemma well_formed_signature_accepted_witness :
  passesRootGate 16 isRootRSFunc JB kernelInY = true
  /\ 14 <= getTargetAPI JB
  /\ fdParams kernelInY = optList (Some p_in) ++ optList None ++ optList None
                          ++ [p_y]
  /\ coordinatesFit [p_y] = true
  /\ exists this',
       validate JB kernelInY (fresh "foo") [] = Returned (true, this') []
       /\ mIn this' = Some p_in /\ mOut this' = None /\ mUsrData this' = None
       /\ [p_y] = optList (mX this') ++ optList (mY this').
Proof.
  split; [reflexivity |]. split; [discriminate |]. split; [reflexivity |].
  split; [reflexivity |].
  apply (well_formed_signature_accepted 11 14 16 isRootRSFunc ExportClass
           JB kernelInY "foo" [] (Some p_in) None None [p_y]);
    try reflexivity; try discriminate.
  - intros ? [= <-]. reflexivity.
Defined.

Example kernelInY_JB :
  validate JB kernelInY (fresh "foo") [] = Returned (true, classifiedInY) [].
Proof. reflexivity. Qed.

Example kernelInY_HC_needs_root :
  validate HC (mkFunctionDecl 0 "root" VoidTy [p_in; p_y]) (fresh "root") [] =
    Returned
      (false,
       mkRSExportForEach "root" None None None 2%nat 0x11
         (Some p_in) None None None (Some p_y) false)
      [mayNotSkip 11 14 (mkFunctionDecl 0 "root" VoidTy [p_in; p_y])].
Proof. reflexivity. Qed.

End MoreSamples.
